(** * EC software sync and the boot-mode menu UI of vboot, embedded in Rocq

    Sources embedded here:
    - [src/3rdparty/vboot/firmware/lib/ec_sync.c]
    - [src/3rdparty/vboot/firmware/lib/vboot_ui_menu.c]

    Conventions of the embedding.
    - [uint32_t] and [int] values are [Z]; flag words are combined with
      [Z.land], [Z.lor] and [Z.lnot] exactly where the C code uses [&], [|]
      and [~].  A C condition [if (e)] is [nonzero e].
    - [VB2_DEBUG] and [print_hash] only print; they are left out.
    - The [VbEx*] callbacks are the platform.  In the EC part they are
      functions of the history of callbacks made so far, and every callback
      made is appended to that history.  In the UI part the values read on
      one pass of a polling loop are one record of a list of polls. *)

From Stdlib Require Import ZArith List Bool Lia.
From Stdlib Require Import Strings.Byte.
Import ListNotations.
Open Scope Z_scope.

(** ** Constants of headers that are not among the sources *)

(** Modelled from the spec: [vboot_api.h] is not among the sources.  The
    spec (section 6) names the exit codes; the code relies on
    [VBERROR_SUCCESS] being 0 (it tests [if (rv)]) and on the other codes
    being non-zero and distinct.  The numbers are the model's choice. *)
Definition VbError_t := Z.

(** Modelled from the spec: a constant of the absent [vboot_api.h]. *)
Definition VBERROR_SUCCESS : VbError_t := 0.

(** Modelled from the spec: a constant of the absent [vboot_api.h]. *)
Definition VBERROR_UNKNOWN : VbError_t := 0x10000.

(** Modelled from the spec: a constant of the absent [vboot_api.h]. *)
Definition VBERROR_TPM_SET_BOOT_MODE_STATE : VbError_t := 0x10006.

(** Modelled from the spec: a constant of the absent [vboot_api.h]. *)
Definition VBERROR_SHUTDOWN_REQUESTED : VbError_t := 0x1000D.

(** Modelled from the spec: a constant of the absent [vboot_api.h]. *)
Definition VBERROR_NO_DISK_FOUND : VbError_t := 0x10018.

(** Modelled from the spec: a constant of the absent [vboot_api.h]. *)
Definition VBERROR_REBOOT_REQUIRED : VbError_t := 0x10020.

(** Modelled from the spec: a constant of the absent [vboot_api.h]. *)
Definition VBERROR_EC_REBOOT_TO_RO_REQUIRED : VbError_t := 0x10030.

(** Modelled from the spec: the TPM success code, of [tss_constants.h],
    which is not among the sources; it is 0. *)
Definition TPM_SUCCESS : Z := 0.

(** Modelled from the spec: [2return_codes.h] is not among the sources.
    [check_ec_hash] returns one of these four codes and its callers only
    ask whether the code is [VB2_SUCCESS] (which is 0, like
    [VBERROR_SUCCESS]); the enumeration stands for the numbers. *)
Inductive vb2_return_code :=
| VB2_SUCCESS
| VB2_ERROR_EC_HASH_IMAGE
| VB2_ERROR_EC_HASH_EXPECTED
| VB2_ERROR_EC_HASH_SIZE.

(** The tests [rc != VB2_SUCCESS] and [if (rc)] on such a code. *)
Definition vb2_failed (rc : vb2_return_code) : bool :=
  match rc with VB2_SUCCESS => false | _ => true end.

(** Modelled from the spec: [2recovery_reasons.h] is not among the
    sources.  The spec (section 6) names the recovery reasons the engine
    records; they are small non-zero integers.  The numbers are the model's
    choice and no theorem depends on them. *)
Definition VB2_RECOVERY_EC_SOFTWARE_SYNC : Z := 0x22.

(** Modelled from the spec: a constant of the absent [2recovery_reasons.h]. *)
Definition VB2_RECOVERY_EC_UNKNOWN_IMAGE : Z := 0x23.

(** Modelled from the spec: a constant of the absent [2recovery_reasons.h]. *)
Definition VB2_RECOVERY_EC_EXPECTED_IMAGE : Z := 0x25.

(** Modelled from the spec: a constant of the absent [2recovery_reasons.h]. *)
Definition VB2_RECOVERY_EC_UPDATE : Z := 0x26.

(** Modelled from the spec: a constant of the absent [2recovery_reasons.h]. *)
Definition VB2_RECOVERY_EC_JUMP_RW : Z := 0x27.

(** Modelled from the spec: a constant of the absent [2recovery_reasons.h]. *)
Definition VB2_RECOVERY_EC_PROTECT : Z := 0x28.

(** Modelled from the spec: a constant of the absent [2recovery_reasons.h]. *)
Definition VB2_RECOVERY_EC_EXPECTED_HASH : Z := 0x29.

(** Modelled from the spec: a constant of the absent [2recovery_reasons.h]. *)
Definition VB2_RECOVERY_EC_HASH_FAILED : Z := 0x2B.

(** Modelled from the spec: a constant of the absent [2recovery_reasons.h]. *)
Definition VB2_RECOVERY_EC_HASH_SIZE : Z := 0x2C.

(** Modelled from the spec: a constant of the absent [2recovery_reasons.h]. *)
Definition VBNV_RECOVERY_NOT_REQUESTED : Z := 0.

(** Modelled from the spec: [2struct.h] is not among the sources.  The spec
    (section 3) names these as bits of the scratch flag set
    ([EC_RO_NEEDS_UPDATE], [EC_RW_NEEDS_UPDATE], [PD_RW_NEEDS_UPDATE],
    [EC_IN_RW], [PD_IN_RW]); each is a single bit and the bits differ. *)
Definition VB2_SD_FLAG_ECSYNC_EC_RO : Z := Z.shiftl 1 3.

(** Modelled from the spec: a constant of the absent [2struct.h]. *)
Definition VB2_SD_FLAG_ECSYNC_EC_RW : Z := Z.shiftl 1 4.

(** Modelled from the spec: a constant of the absent [2struct.h]. *)
Definition VB2_SD_FLAG_ECSYNC_PD_RW : Z := Z.shiftl 1 5.

(** Modelled from the spec: a constant of the absent [2struct.h]. *)
Definition VB2_SD_FLAG_ECSYNC_EC_IN_RW : Z := Z.shiftl 1 6.

(** Modelled from the spec: a constant of the absent [2struct.h]. *)
Definition VB2_SD_FLAG_ECSYNC_PD_IN_RW : Z := Z.shiftl 1 7.

(** Modelled from the spec: [vboot_struct.h] is not among the sources.  The
    spec (section 3) names these as bits of the read-only shared flags. *)
Definition VBSD_BOOT_DEV_SWITCH_ON : Z := 0x10.

(** Modelled from the spec: a constant of the absent [vboot_struct.h]. *)
Definition VBSD_BOOT_REC_SWITCH_ON : Z := 0x20.

(** Modelled from the spec: a constant of the absent [vboot_struct.h]. *)
Definition VBSD_BOOT_FIRMWARE_WP_ENABLED : Z := 0x40.

(** Modelled from the spec: a constant of the absent [vboot_struct.h]. *)
Definition VBSD_HONOR_VIRT_DEV_SWITCH : Z := 0x400.

(** Modelled from the spec: a constant of the absent [vboot_struct.h]. *)
Definition VBSD_EC_SOFTWARE_SYNC : Z := 0x800.

(** Modelled from the spec: a constant of the absent [vboot_struct.h]. *)
Definition VBSD_EC_SLOW_UPDATE : Z := 0x1000.

(** Modelled from the spec: a constant of the absent [vboot_struct.h]. *)
Definition VBSD_BOOT_REC_SWITCH_VIRTUAL : Z := 0x4000.

(** Modelled from the spec: [gbb_header.h] is not among the sources.  The
    spec (section 3) names these as bits of the GBB policy flags. *)
Definition GBB_FLAG_FORCE_DEV_SWITCH_ON : Z := 0x8.

(** Modelled from the spec: a constant of the absent [gbb_header.h]. *)
Definition GBB_FLAG_FORCE_DEV_BOOT_USB : Z := 0x10.

(** Modelled from the spec: a constant of the absent [gbb_header.h]. *)
Definition GBB_FLAG_FORCE_DEV_BOOT_LEGACY : Z := 0x80.

(** Modelled from the spec: a constant of the absent [gbb_header.h]. *)
Definition GBB_FLAG_DISABLE_EC_SOFTWARE_SYNC : Z := 0x200.

(** Modelled from the spec: a constant of the absent [gbb_header.h]. *)
Definition GBB_FLAG_DEFAULT_DEV_BOOT_LEGACY : Z := 0x400.

(** Modelled from the spec: a constant of the absent [gbb_header.h]. *)
Definition GBB_FLAG_DISABLE_PD_SOFTWARE_SYNC : Z := 0x800.

(** Modelled from the spec: a constant of the absent [gbb_header.h]. *)
Definition GBB_FLAG_DISABLE_LID_SHUTDOWN : Z := 0x1000.

(** A C condition: any non-zero value is true. *)
Definition nonzero (x : Z) : bool := negb (x =? 0).

(** [!!x] in C. *)
Definition bool_of_int (x : Z) : Z := if nonzero x then 1 else 0.

(** ** Non-volatile storage *)

Inductive vb2_nv_param :=
| VB2_NV_RECOVERY_REQUEST
| VB2_NV_RECOVERY_SUBCODE
| VB2_NV_TRY_RO_SYNC
| VB2_NV_BATTERY_CUTOFF_REQUEST
| VB2_NV_DEV_BOOT_USB
| VB2_NV_DEV_BOOT_LEGACY
| VB2_NV_DEV_DEFAULT_BOOT
| VB2_NV_DISABLE_DEV_REQUEST.

Definition vb2_nv_param_eq_dec (a b : vb2_nv_param) : {a = b} + {a <> b}.
Proof. decide equality. Defined.

(** Modelled from the spec: [2nvstorage.c] is not among the sources.  The
    spec (sections 3 and 6) describes the NV store as a mapping from
    recognized keys to small unsigned integers with [get] and [set]. *)
Definition nv_store := vb2_nv_param -> Z.

(** Modelled from the spec: [vb2_nv_get] of [2nvstorage.c], the [get] of
    the NV mapping. *)
Definition vb2_nv_get (nv : nv_store) (param : vb2_nv_param) : Z := nv param.

(** Modelled from the spec: [vb2_nv_set] of [2nvstorage.c], the [set] of
    the NV mapping; the other keys keep their values. *)
Definition vb2_nv_set (nv : nv_store) (param : vb2_nv_param) (value : Z)
  : nv_store :=
  fun p => if vb2_nv_param_eq_dec param p then value else nv p.

(** ** Data of the EC sync engine *)

Inductive VbSelectFirmware_t :=
| VB_SELECT_FIRMWARE_RECOVERY
| VB_SELECT_FIRMWARE_A
| VB_SELECT_FIRMWARE_B
| VB_SELECT_FIRMWARE_READONLY.

Definition is_readonly (select : VbSelectFirmware_t) : bool :=
  match select with VB_SELECT_FIRMWARE_READONLY => true | _ => false end.

(** [struct vb2_shared_data] (the fields the engine uses) together with the
    NV store reached through [struct vb2_context]. *)
Record vb2_context := mk_ctx {
  sd_flags : Z;
  sd_recovery_reason : Z;
  nv : nv_store
}.

(** [VbSharedDataHeader] and [VbCommonParams], the fields used. *)
Record VbSharedDataHeader := mk_shared {
  shared_flags : Z;
  firmware_index : Z;
  shared_recovery_reason : Z
}.

Record VbCommonParams := mk_cparams {
  shared_data_blob : VbSharedDataHeader;
  gbb_flags : Z
}.

(** An image or a digest handed over by the platform: the bytes, whose
    number is the size the callback reports. *)
Definition bytes := list byte.

(** The callbacks of the platform, with their arguments. *)
Inductive ec_call :=
| EcRunningRW (devidx : Z)
| EcHashImage (devidx : Z) (select : VbSelectFirmware_t)
| EcGetExpectedImageHash (devidx : Z) (select : VbSelectFirmware_t)
| EcGetExpectedImage (devidx : Z) (select : VbSelectFirmware_t)
| EcUpdateImage (devidx : Z) (select : VbSelectFirmware_t) (image : bytes)
| EcJumpToRW (devidx : Z)
| EcProtect (devidx : Z) (select : VbSelectFirmware_t)
| EcDisableJump (devidx : Z)
| EcVbootDone (in_recovery : Z)
| EcBatteryCutOff.

(** The callbacks that write or lock flash, or move the EC between images. *)
Definition is_flash_write (c : ec_call) : bool :=
  match c with
  | EcUpdateImage _ _ _ | EcProtect _ _ | EcJumpToRW _ | EcDisableJump _ => true
  | _ => false
  end.

(** The callbacks that compute or fetch digests and images. *)
Definition is_hash_or_update (c : ec_call) : bool :=
  match c with
  | EcHashImage _ _ | EcGetExpectedImageHash _ _
  | EcGetExpectedImage _ _ | EcUpdateImage _ _ _ => true
  | _ => false
  end.

(** What the platform answers; the first argument is the history of the
    callbacks made before this one, oldest first. *)
Record Platform := mk_platform {
  VbExEcRunningRW : list ec_call -> Z -> VbError_t * Z;
  VbExEcHashImage :
    list ec_call -> Z -> VbSelectFirmware_t -> VbError_t * bytes;
  VbExEcGetExpectedImageHash :
    list ec_call -> Z -> VbSelectFirmware_t -> VbError_t * bytes;
  VbExEcGetExpectedImage :
    list ec_call -> Z -> VbSelectFirmware_t -> VbError_t * bytes;
  VbExEcUpdateImage :
    list ec_call -> Z -> VbSelectFirmware_t -> bytes -> VbError_t;
  VbExEcJumpToRW : list ec_call -> Z -> VbError_t;
  VbExEcProtect : list ec_call -> Z -> VbSelectFirmware_t -> VbError_t;
  VbExEcDisableJump : list ec_call -> Z -> VbError_t;
  VbExEcVbootDone : list ec_call -> Z -> VbError_t
}.

(** ** A state monad

    The C code threads its context, its globals and the platform through
    every call; [State S A] is a computation over a state [S]. *)

Definition State (S A : Type) : Type := S -> A * S.

Definition ret {S A} (a : A) : State S A := fun w => (a, w).

Definition bind {S A B} (m : State S A) (k : A -> State S B) : State S B :=
  fun w => let (a, w') := m w in k a w'.

Declare Scope ec_scope.
Delimit Scope ec_scope with ec.
Notation "x <- m ;; k" := (bind m (fun x => k))
  (at level 61, m at next level, right associativity) : ec_scope.
Notation "m ;; k" := (bind m (fun _ => k))
  (at level 61, right associativity) : ec_scope.
Open Scope ec_scope.

(** The state the engine runs in: the context it mutates and the history
    of callbacks. *)
Record world := mk_world {
  ctx : vb2_context;
  calls : list ec_call
}.

Definition M (A : Type) : Type := State world A.

Definition get_sd_flags : M Z := fun w => (sd_flags (ctx w), w).

Definition set_sd_flags (f : Z) : M unit := fun w =>
  (tt, mk_world (mk_ctx f (sd_recovery_reason (ctx w)) (nv (ctx w))) (calls w)).

Definition get_recovery_reason : M Z :=
  fun w => (sd_recovery_reason (ctx w), w).

Definition nv_get (param : vb2_nv_param) : M Z :=
  fun w => (vb2_nv_get (nv (ctx w)) param, w).

Definition nv_set (param : vb2_nv_param) (value : Z) : M unit := fun w =>
  (tt, mk_world (mk_ctx (sd_flags (ctx w)) (sd_recovery_reason (ctx w))
                        (vb2_nv_set (nv (ctx w)) param value))
                (calls w)).

(** A callback: the platform answers from the history, and the callback is
    appended to the history. *)
Definition callback {A} (answer : list ec_call -> A) (c : ec_call) : M A :=
  fun w => (answer (calls w), mk_world (ctx w) (calls w ++ [c])).

Fixpoint bytes_eqb (a b : bytes) : bool :=
  match a, b with
  | [], [] => true
  | x :: a', y :: b' => Byte.eqb x y && bytes_eqb a' b'
  | _, _ => false
  end.

(** Modelled from the spec: [vb2_safe_memcmp] of [2common.c] is not among
    the sources; the spec (section 4.1, step c) describes it as a
    constant-time comparison that determines equality.  It is 0 exactly on
    equal buffers. *)
Definition vb2_safe_memcmp (s1 s2 : bytes) : Z :=
  if bytes_eqb s1 s2 then 0 else 1.

(** ** ec_sync.c *)

Definition VB2_SD_FLAG_ECSYNC_RW : Z :=
  Z.lor VB2_SD_FLAG_ECSYNC_EC_RW VB2_SD_FLAG_ECSYNC_PD_RW.

Definition VB2_SD_FLAG_ECSYNC_ANY : Z :=
  Z.lor VB2_SD_FLAG_ECSYNC_EC_RO VB2_SD_FLAG_ECSYNC_RW.

Definition VB2_SD_FLAG_ECSYNC_IN_RW : Z :=
  Z.lor VB2_SD_FLAG_ECSYNC_EC_IN_RW VB2_SD_FLAG_ECSYNC_PD_IN_RW.

Definition IN_RW (devidx : Z) : Z :=
  if nonzero devidx then VB2_SD_FLAG_ECSYNC_PD_IN_RW
  else VB2_SD_FLAG_ECSYNC_EC_IN_RW.

Definition WHICH_EC (devidx : Z) (select : VbSelectFirmware_t) : Z :=
  if is_readonly select then VB2_SD_FLAG_ECSYNC_EC_RO
  else if nonzero devidx then VB2_SD_FLAG_ECSYNC_PD_RW
  else VB2_SD_FLAG_ECSYNC_EC_RW.

Definition RO_RETRIES : nat := 2.

Definition select_rw_of (cparams : VbCommonParams) : VbSelectFirmware_t :=
  if nonzero (firmware_index (shared_data_blob cparams))
  then VB_SELECT_FIRMWARE_B else VB_SELECT_FIRMWARE_A.

Section EcSync.

(** The platform, and whether the file is compiled with [PD_SYNC]. *)
Variable P : Platform.
Variable PD_SYNC : bool.

Definition request_recovery (recovery_request : Z) : M unit :=
  nv_set VB2_NV_RECOVERY_REQUEST recovery_request.

Definition protect_ec (devidx : Z) (select : VbSelectFirmware_t)
  : M VbError_t :=
  rv <- callback (fun h => VbExEcProtect P h devidx select)
                 (EcProtect devidx select) ;;
  (if rv =? VBERROR_EC_REBOOT_TO_RO_REQUIRED then ret tt
   else if negb (rv =? VBERROR_SUCCESS)
        then request_recovery VB2_RECOVERY_EC_PROTECT
        else ret tt) ;;
  ret rv.

Definition check_ec_hash (devidx : Z) (select : VbSelectFirmware_t)
  : M vb2_return_code :=
  r <- callback (fun h => VbExEcHashImage P h devidx select)
                (EcHashImage devidx select) ;;
  let (rv, ec_hash) := r in
  if nonzero rv then
    request_recovery VB2_RECOVERY_EC_HASH_FAILED ;;
    ret VB2_ERROR_EC_HASH_IMAGE
  else
    r' <- callback (fun h => VbExEcGetExpectedImageHash P h devidx select)
                   (EcGetExpectedImageHash devidx select) ;;
    let (rv', hash) := r' in
    if nonzero rv' then
      request_recovery VB2_RECOVERY_EC_EXPECTED_HASH ;;
      ret VB2_ERROR_EC_HASH_EXPECTED
    else if negb (Z.of_nat (length ec_hash) =? Z.of_nat (length hash)) then
      request_recovery VB2_RECOVERY_EC_HASH_SIZE ;;
      ret VB2_ERROR_EC_HASH_SIZE
    else
      (if nonzero (vb2_safe_memcmp ec_hash hash) then
         f <- get_sd_flags ;;
         set_sd_flags (Z.lor f (WHICH_EC devidx select))
       else ret tt) ;;
      ret VB2_SUCCESS.

Definition update_ec (devidx : Z) (select : VbSelectFirmware_t)
  : M VbError_t :=
  r <- callback (fun h => VbExEcGetExpectedImage P h devidx select)
                (EcGetExpectedImage devidx select) ;;
  let (rv, want) := r in
  if nonzero rv then
    request_recovery VB2_RECOVERY_EC_EXPECTED_IMAGE ;;
    ret rv
  else
    rv' <- callback (fun h => VbExEcUpdateImage P h devidx select want)
                    (EcUpdateImage devidx select want) ;;
    if negb (rv' =? VBERROR_SUCCESS) then
      (if negb (rv' =? VBERROR_EC_REBOOT_TO_RO_REQUIRED)
       then request_recovery VB2_RECOVERY_EC_UPDATE
       else ret tt) ;;
      ret rv'
    else
      f <- get_sd_flags ;;
      set_sd_flags (Z.land f (Z.lnot (WHICH_EC devidx select))) ;;
      rc <- check_ec_hash devidx select ;;
      if vb2_failed rc then ret VBERROR_EC_REBOOT_TO_RO_REQUIRED
      else
        f' <- get_sd_flags ;;
        if nonzero (Z.land f' (WHICH_EC devidx select)) then
          request_recovery VB2_RECOVERY_EC_UPDATE ;;
          ret VBERROR_EC_REBOOT_TO_RO_REQUIRED
        else ret VBERROR_SUCCESS.

Definition check_ec_active (devidx : Z) : M VbError_t :=
  r <- callback (fun h => VbExEcRunningRW P h devidx)
                (EcRunningRW devidx) ;;
  let (rv, in_rw) := r in
  (if nonzero in_rw then
     f <- get_sd_flags ;; set_sd_flags (Z.lor f (IN_RW devidx))
   else ret tt) ;;
  reason <- get_recovery_reason ;;
  if nonzero reason then
    if (rv =? VBERROR_SUCCESS) && (in_rw =? 1) then
      request_recovery reason ;;
      ret VBERROR_EC_REBOOT_TO_RO_REQUIRED
    else ret VBERROR_SUCCESS
  else if negb (rv =? VBERROR_SUCCESS) then
    request_recovery VB2_RECOVERY_EC_UNKNOWN_IMAGE ;;
    ret VBERROR_EC_REBOOT_TO_RO_REQUIRED
  else ret VBERROR_SUCCESS.

(** [sync_one_ec] is a sequence of steps, each of which may return from
    the function: [Some rv] is [return rv], [None] falls through to the
    next statement. *)
Definition or_return (step : M (option VbError_t)) (rest : M VbError_t)
  : M VbError_t :=
  r <- step ;;
  match r with Some rv => ret rv | None => rest end.

(** Lines 261-265, "Update the RW Image".  The source compares the
    [VbError_t] result of [update_ec] with [VB2_SUCCESS]; that is 0, like
    [VBERROR_SUCCESS]. *)
Definition sync_rw_update (devidx : Z) (select_rw : VbSelectFirmware_t)
  : M (option VbError_t) :=
  f <- get_sd_flags ;;
  if nonzero (Z.land f VB2_SD_FLAG_ECSYNC_RW) then
    rv <- update_ec devidx select_rw ;;
    if negb (rv =? VBERROR_SUCCESS)
    then ret (Some VBERROR_EC_REBOOT_TO_RO_REQUIRED)
    else ret None
  else ret None.

(** Lines 267-286, "Tell EC to jump to its RW image". *)
Definition sync_jump_to_rw (devidx : Z) : M (option VbError_t) :=
  f <- get_sd_flags ;;
  if negb (nonzero (Z.land f (IN_RW devidx))) then
    rv <- callback (fun h => VbExEcJumpToRW P h devidx)
                   (EcJumpToRW devidx) ;;
    if negb (rv =? VBERROR_SUCCESS) then
      (if negb (rv =? VBERROR_EC_REBOOT_TO_RO_REQUIRED)
       then request_recovery VB2_RECOVERY_EC_JUMP_RW
       else ret tt) ;;
      ret (Some VBERROR_EC_REBOOT_TO_RO_REQUIRED)
    else ret None
  else ret None.

(** The [for] loop of lines 307-311; the result is [num_tries] at the
    exit of the loop. *)
Fixpoint ro_update_loop (remaining : nat) (num_tries : Z) (devidx : Z)
  : M Z :=
  match remaining with
  | O => ret num_tries
  | S remaining' =>
      rv <- update_ec devidx VB_SELECT_FIRMWARE_READONLY ;;
      if rv =? VBERROR_SUCCESS then ret num_tries
      else ro_update_loop remaining' (num_tries + 1) devidx
  end.

(** Lines 288-322, "Might need to update EC-RO (but not PD-RO)". *)
Definition sync_ro_update (devidx : Z) : M (option VbError_t) :=
  f <- get_sd_flags ;;
  if nonzero (Z.land f VB2_SD_FLAG_ECSYNC_EC_RO) then
    nv_set VB2_NV_TRY_RO_SYNC 0 ;;
    recovery_request <- nv_get VB2_NV_RECOVERY_REQUEST ;;
    num_tries <- ro_update_loop RO_RETRIES 0 devidx ;;
    if num_tries =? Z.of_nat RO_RETRIES then
      ret (Some VBERROR_EC_REBOOT_TO_RO_REQUIRED)
    else if nonzero num_tries then
      request_recovery recovery_request ;;
      ret None
    else ret None
  else ret None.

(** Lines 324-341: protect RO, protect RW, disable jumps. *)
Definition sync_protect_and_lock (devidx : Z)
           (select_rw : VbSelectFirmware_t) : M VbError_t :=
  rv <- protect_ec devidx VB_SELECT_FIRMWARE_READONLY ;;
  if negb (rv =? VBERROR_SUCCESS) then ret rv
  else
    rv' <- protect_ec devidx select_rw ;;
    if negb (rv' =? VBERROR_SUCCESS) then ret rv'
    else
      rv'' <- callback (fun h => VbExEcDisableJump P h devidx)
                       (EcDisableJump devidx) ;;
      if negb (rv'' =? VBERROR_SUCCESS) then
        request_recovery VB2_RECOVERY_EC_SOFTWARE_SYNC ;;
        ret VBERROR_EC_REBOOT_TO_RO_REQUIRED
      else ret rv''.

Definition sync_one_ec (devidx : Z) (cparams : VbCommonParams)
  : M VbError_t :=
  let select_rw := select_rw_of cparams in
  or_return (sync_rw_update devidx select_rw)
    (or_return (sync_jump_to_rw devidx)
       (or_return (sync_ro_update devidx)
          (sync_protect_and_lock devidx select_rw))).

Definition do_pd_sync (cparams : VbCommonParams) : bool :=
  if PD_SYNC
  then negb (nonzero (Z.land (gbb_flags cparams)
                             GBB_FLAG_DISABLE_PD_SOFTWARE_SYNC))
  else false.

Definition ec_sync_phase1 (cparams : VbCommonParams) : M VbError_t :=
  let shared := shared_data_blob cparams in
  if negb (nonzero (Z.land (shared_flags shared) VBSD_EC_SOFTWARE_SYNC))
  then ret VBERROR_SUCCESS
  else if nonzero (Z.land (gbb_flags cparams)
                          GBB_FLAG_DISABLE_EC_SOFTWARE_SYNC)
  then ret VBERROR_SUCCESS
  else
    rv0 <- check_ec_active 0 ;;
    if nonzero rv0 then ret VBERROR_EC_REBOOT_TO_RO_REQUIRED
    else
      rv1 <- (if do_pd_sync cparams then check_ec_active 1
              else ret VBERROR_SUCCESS) ;;
      if nonzero rv1 then ret VBERROR_EC_REBOOT_TO_RO_REQUIRED
      else
        reason <- get_recovery_reason ;;
        if nonzero reason then ret VBERROR_SUCCESS
        else
          let select_rw := select_rw_of cparams in
          rc0 <- check_ec_hash 0 select_rw ;;
          if vb2_failed rc0 then ret VBERROR_EC_REBOOT_TO_RO_REQUIRED
          else
            rc1 <- (if do_pd_sync cparams then check_ec_hash 1 select_rw
                    else ret VB2_SUCCESS) ;;
            if vb2_failed rc1 then ret VBERROR_EC_REBOOT_TO_RO_REQUIRED
            else
              try_ro <- nv_get VB2_NV_TRY_RO_SYNC ;;
              rc2 <- (if nonzero try_ro
                         && negb (nonzero
                                    (Z.land (shared_flags shared)
                                            VBSD_BOOT_FIRMWARE_WP_ENABLED))
                      then check_ec_hash 0 VB_SELECT_FIRMWARE_READONLY
                      else ret VB2_SUCCESS) ;;
              if vb2_failed rc2 then ret VBERROR_EC_REBOOT_TO_RO_REQUIRED
              else
                f <- get_sd_flags ;;
                if nonzero (Z.land f VB2_SD_FLAG_ECSYNC_RW)
                   && nonzero (Z.land f VB2_SD_FLAG_ECSYNC_IN_RW)
                then ret VBERROR_EC_REBOOT_TO_RO_REQUIRED
                else ret VBERROR_SUCCESS.

Definition ec_will_update_slowly (cparams : VbCommonParams) : M Z :=
  f <- get_sd_flags ;;
  ret (if nonzero (Z.land f VB2_SD_FLAG_ECSYNC_ANY)
          && nonzero (Z.land (shared_flags (shared_data_blob cparams))
                             VBSD_EC_SLOW_UPDATE)
       then 1 else 0).

Definition ec_sync_phase2 (cparams : VbCommonParams) : M VbError_t :=
  let shared := shared_data_blob cparams in
  if negb (nonzero (Z.land (shared_flags shared) VBSD_EC_SOFTWARE_SYNC))
  then ret VBERROR_SUCCESS
  else if nonzero (Z.land (gbb_flags cparams)
                          GBB_FLAG_DISABLE_EC_SOFTWARE_SYNC)
  then ret VBERROR_SUCCESS
  else
    reason <- get_recovery_reason ;;
    if nonzero reason then ret VBERROR_SUCCESS
    else
      retval <- sync_one_ec 0 cparams ;;
      if negb (retval =? VBERROR_SUCCESS) then ret retval
      else if do_pd_sync cparams then
        retval' <- sync_one_ec 1 cparams ;;
        if negb (retval' =? VBERROR_SUCCESS) then ret retval'
        else ret VBERROR_SUCCESS
      else ret VBERROR_SUCCESS.

Definition ec_sync_phase3 (cparams : VbCommonParams) : M VbError_t :=
  let shared := shared_data_blob cparams in
  rv <- callback (fun h => VbExEcVbootDone P h
                             (bool_of_int (shared_recovery_reason shared)))
                 (EcVbootDone (bool_of_int (shared_recovery_reason shared))) ;;
  if nonzero rv then ret rv
  else
    cutoff <- nv_get VB2_NV_BATTERY_CUTOFF_REQUEST ;;
    if nonzero cutoff then
      nv_set VB2_NV_BATTERY_CUTOFF_REQUEST 0 ;;
      callback (fun _ => tt) EcBatteryCutOff ;;
      ret VBERROR_SHUTDOWN_REQUESTED
    else ret VBERROR_SUCCESS.

End EcSync.

(** ** vboot_ui_menu.c: constants of headers that are not among the sources *)

(** Modelled from the spec: [vboot_api.h] is not among the sources.  The
    spec (section 6) gives the control codes that the source writes as
    literals and names [VOL_UP], [VOL_DOWN], [ARROW_UP], [ARROW_DOWN] and
    [POWER] symbolically; they are case labels of one [switch], hence
    pairwise distinct and distinct from the literal codes.  The numbers are
    the model's choice. *)
Definition VB_KEY_UP : Z := 0x100.

(** Modelled from the spec: a constant of the absent [vboot_api.h]. *)
Definition VB_KEY_DOWN : Z := 0x101.

(** Modelled from the spec: a constant of the absent [vboot_api.h]. *)
Definition VB_BUTTON_POWER : Z := 0x90.

(** Modelled from the spec: a constant of the absent [vboot_api.h]. *)
Definition VB_BUTTON_VOL_UP : Z := 0x91.

(** Modelled from the spec: a constant of the absent [vboot_api.h]. *)
Definition VB_BUTTON_VOL_DOWN : Z := 0x92.

(** Modelled from the spec: [vboot_api.h] is not among the sources.  The
    spec (section 4.2) names the confirmation flags [MUST_TRUST_KEYBOARD]
    and [SPACE_MEANS_NO], the key flag [TRUSTED_KEYBOARD] and the shutdown
    request bits for lid closure and power button; each is a single bit. *)
Definition VB_CONFIRM_MUST_TRUST_KEYBOARD : Z := Z.shiftl 1 0.

(** Modelled from the spec: a constant of the absent [vboot_api.h]. *)
Definition VB_CONFIRM_SPACE_MEANS_NO : Z := Z.shiftl 1 1.

(** Modelled from the spec: a constant of the absent [vboot_api.h]. *)
Definition VB_KEY_FLAG_TRUSTED_KEYBOARD : Z := Z.shiftl 1 0.

(** Modelled from the spec: a constant of the absent [vboot_api.h]. *)
Definition VB_SHUTDOWN_REQUEST_LID_CLOSED : Z := 0x1.

(** Modelled from the spec: a constant of the absent [vboot_api.h]. *)
Definition VB_SHUTDOWN_REQUEST_POWER_BUTTON : Z := 0x2.

(** Modelled from the spec: [vboot_nvstorage.h] and [2nvstorage.h] are not
    among the sources.  The spec (section 3) names the three values of
    [default_boot]: DISK, USB and LEGACY. *)
Definition VBNV_DEV_DEFAULT_BOOT_DISK : Z := 0.

(** Modelled from the spec: a constant of the absent [vboot_nvstorage.h]. *)
Definition VBNV_DEV_DEFAULT_BOOT_USB : Z := 1.

(** Modelled from the spec: a constant of the absent [vboot_nvstorage.h]. *)
Definition VBNV_DEV_DEFAULT_BOOT_LEGACY : Z := 2.

(** Modelled from the spec: a constant of the absent [vboot_nvstorage.h]. *)
Definition VB2_DEV_DEFAULT_BOOT_DISK : Z := 0.

(** Modelled from the spec: [vboot_api.h] is not among the sources; these
    are the screens the two loops ask the display for. *)
Inductive VbScreen :=
| VB_SCREEN_BLANK
| VB_SCREEN_BASE
| VB_SCREEN_DEVELOPER_TO_NORM
| VB_SCREEN_TO_NORM_CONFIRMED
| VB_SCREEN_OS_BROKEN
| VB_SCREEN_RECOVERY_NO_GOOD.

(** ** vboot_ui_menu.c: the menus *)

Inductive VB_MENU :=
| VB_MENU_DEV_WARNING
| VB_MENU_DEV
| VB_MENU_TO_NORM
| VB_MENU_RECOVERY
| VB_MENU_TO_DEV
| VB_MENU_LANGUAGES.

Definition VB_MENU_eqb (a b : VB_MENU) : bool :=
  match a, b with
  | VB_MENU_DEV_WARNING, VB_MENU_DEV_WARNING
  | VB_MENU_DEV, VB_MENU_DEV
  | VB_MENU_TO_NORM, VB_MENU_TO_NORM
  | VB_MENU_RECOVERY, VB_MENU_RECOVERY
  | VB_MENU_TO_DEV, VB_MENU_TO_DEV
  | VB_MENU_LANGUAGES, VB_MENU_LANGUAGES => true
  | _, _ => false
  end.

Definition VB_WARN_OPTIONS : Z := 0.
Definition VB_WARN_DBG_INFO : Z := 1.
Definition VB_WARN_ENABLE_VER : Z := 2.
Definition VB_WARN_POWER_OFF : Z := 3.
Definition VB_WARN_LANGUAGE : Z := 4.
Definition VB_WARN_COUNT : Z := 5.

Definition VB_DEV_NETWORK : Z := 0.
Definition VB_DEV_LEGACY : Z := 1.
Definition VB_DEV_USB : Z := 2.
Definition VB_DEV_DISK : Z := 3.
Definition VB_DEV_CANCEL : Z := 4.
Definition VB_DEV_POWER_OFF : Z := 5.
Definition VB_DEV_LANGUAGE : Z := 6.
Definition VB_DEV_COUNT : Z := 7.

Definition VB_TO_NORM_CONFIRM : Z := 0.
Definition VB_TO_NORM_CANCEL : Z := 1.
Definition VB_TO_NORM_POWER_OFF : Z := 2.
Definition VB_TO_NORM_LANGUAGE : Z := 3.
Definition VB_TO_NORM_COUNT : Z := 4.

Definition VB_RECOVERY_TO_DEV : Z := 0.
Definition VB_RECOVERY_DBG_INFO : Z := 1.
Definition VB_RECOVERY_POWER_OFF : Z := 2.
Definition VB_RECOVERY_LANGUAGE : Z := 3.
Definition VB_RECOVERY_COUNT : Z := 4.

Definition VB_TO_DEV_CONFIRM : Z := 0.
Definition VB_TO_DEV_CANCEL : Z := 1.
Definition VB_TO_DEV_POWER_OFF : Z := 2.
Definition VB_TO_DEV_LANGUAGE : Z := 3.
Definition VB_TO_DEV_COUNT : Z := 4.

Definition VB_LANGUAGES_EN_US : Z := 0.
Definition VB_LANGUAGES_COUNT : Z := 1.

(** The file-scope variables [current_menu], [prev_menu],
    [current_menu_idx], [selected] and [default_boot]. *)
Record menu_state := mk_menu {
  current_menu : VB_MENU;
  prev_menu : VB_MENU;
  current_menu_idx : Z;
  selected : Z;
  default_boot : Z
}.

(** Their initializers. *)
Definition initial_menu_state : menu_state :=
  mk_menu VB_MENU_DEV_WARNING VB_MENU_DEV_WARNING VB_WARN_POWER_OFF 0
          VB2_DEV_DEFAULT_BOOT_DISK.

(** [vb2_get_current_menu_size], the [size] output.  Every value of
    [VB_MENU] is one of the six menus, so the [default:] branch (size 0,
    [VBERROR_UNKNOWN]) has no input. *)
Definition vb2_get_current_menu_size (menu : VB_MENU) : VbError_t * Z :=
  match menu with
  | VB_MENU_DEV_WARNING => (VBERROR_SUCCESS, VB_WARN_COUNT)
  | VB_MENU_DEV => (VBERROR_SUCCESS, VB_DEV_COUNT)
  | VB_MENU_TO_NORM => (VBERROR_SUCCESS, VB_TO_NORM_COUNT)
  | VB_MENU_RECOVERY => (VBERROR_SUCCESS, VB_RECOVERY_COUNT)
  | VB_MENU_TO_DEV => (VBERROR_SUCCESS, VB_TO_DEV_COUNT)
  | VB_MENU_LANGUAGES => (VBERROR_SUCCESS, VB_LANGUAGES_COUNT)
  end.

Definition vb2_set_menu_items (new_current_menu : VB_MENU)
           (new_current_menu_idx : Z) : State menu_state VbError_t :=
  fun s =>
    (VBERROR_SUCCESS,
     mk_menu new_current_menu (current_menu s) new_current_menu_idx 0
             (default_boot s)).

(** [vb2_update_menu].  The LANGUAGES case has no [break] before the outer
    [default:], which only prints a debug message. *)
Definition vb2_update_menu : State menu_state VbError_t :=
  fun s =>
    let idx := current_menu_idx s in
    match current_menu s with
    | VB_MENU_DEV_WARNING =>
        if idx =? VB_WARN_OPTIONS then
          let next_menu_idx :=
            if default_boot s =? VBNV_DEV_DEFAULT_BOOT_DISK then VB_DEV_DISK
            else if default_boot s =? VBNV_DEV_DEFAULT_BOOT_USB then VB_DEV_USB
            else if default_boot s =? VBNV_DEV_DEFAULT_BOOT_LEGACY
                 then VB_DEV_LEGACY
            else idx in
          (VBERROR_SUCCESS, snd (vb2_set_menu_items VB_MENU_DEV next_menu_idx s))
        else if idx =? VB_WARN_DBG_INFO then (VBERROR_SUCCESS, s)
        else if idx =? VB_WARN_ENABLE_VER then
          (VBERROR_SUCCESS,
           snd (vb2_set_menu_items VB_MENU_TO_NORM VB_TO_NORM_POWER_OFF s))
        else if idx =? VB_WARN_POWER_OFF then (VBERROR_SHUTDOWN_REQUESTED, s)
        else if idx =? VB_WARN_LANGUAGE then
          (VBERROR_SUCCESS,
           snd (vb2_set_menu_items VB_MENU_LANGUAGES VB_LANGUAGES_EN_US s))
        else (VBERROR_SUCCESS, s)
    | VB_MENU_DEV =>
        if idx =? VB_DEV_NETWORK then (VBERROR_SUCCESS, s)
        else if idx =? VB_DEV_LEGACY then (VBERROR_SUCCESS, s)
        else if idx =? VB_DEV_USB then (VBERROR_SUCCESS, s)
        else if idx =? VB_DEV_DISK then (VBERROR_SUCCESS, s)
        else if idx =? VB_DEV_CANCEL then
          (VBERROR_SUCCESS,
           snd (vb2_set_menu_items VB_MENU_DEV_WARNING VB_WARN_POWER_OFF s))
        else if idx =? VB_DEV_POWER_OFF then (VBERROR_SHUTDOWN_REQUESTED, s)
        else if idx =? VB_DEV_LANGUAGE then
          (VBERROR_SUCCESS,
           snd (vb2_set_menu_items VB_MENU_LANGUAGES VB_LANGUAGES_EN_US s))
        else (VBERROR_SUCCESS, s)
    | VB_MENU_TO_NORM =>
        if idx =? VB_TO_NORM_CONFIRM then (VBERROR_SUCCESS, s)
        else if idx =? VB_TO_NORM_CANCEL then
          (VBERROR_SUCCESS,
           snd (vb2_set_menu_items VB_MENU_DEV_WARNING VB_WARN_POWER_OFF s))
        else if idx =? VB_TO_NORM_POWER_OFF
             then (VBERROR_SHUTDOWN_REQUESTED, s)
        else if idx =? VB_TO_NORM_LANGUAGE then
          (VBERROR_SUCCESS,
           snd (vb2_set_menu_items VB_MENU_LANGUAGES VB_LANGUAGES_EN_US s))
        else (VBERROR_SUCCESS, s)
    | VB_MENU_RECOVERY =>
        if idx =? VB_RECOVERY_TO_DEV then
          (VBERROR_SUCCESS,
           snd (vb2_set_menu_items VB_MENU_TO_DEV VB_TO_DEV_POWER_OFF s))
        else if idx =? VB_RECOVERY_DBG_INFO then (VBERROR_SUCCESS, s)
        else if idx =? VB_RECOVERY_POWER_OFF
             then (VBERROR_SHUTDOWN_REQUESTED, s)
        else if idx =? VB_RECOVERY_LANGUAGE then
          (VBERROR_SUCCESS,
           snd (vb2_set_menu_items VB_MENU_LANGUAGES VB_LANGUAGES_EN_US s))
        else (VBERROR_SUCCESS, s)
    | VB_MENU_TO_DEV =>
        if idx =? VB_TO_DEV_CONFIRM then (VBERROR_SUCCESS, s)
        else if idx =? VB_TO_DEV_CANCEL then
          (VBERROR_SUCCESS,
           snd (vb2_set_menu_items VB_MENU_RECOVERY VB_RECOVERY_POWER_OFF s))
        else if idx =? VB_TO_DEV_POWER_OFF
             then (VBERROR_SHUTDOWN_REQUESTED, s)
        else if idx =? VB_TO_DEV_LANGUAGE then
          (VBERROR_SUCCESS,
           snd (vb2_set_menu_items VB_MENU_LANGUAGES VB_LANGUAGES_EN_US s))
        else (VBERROR_SUCCESS, s)
    | VB_MENU_LANGUAGES =>
        (VBERROR_SUCCESS,
         mk_menu (prev_menu s) VB_MENU_LANGUAGES 0 0 (default_boot s))
    end.

(** The index of the Language item of a menu; LANGUAGES has none. *)
Definition language_item (m : VB_MENU) : option Z :=
  match m with
  | VB_MENU_DEV_WARNING => Some VB_WARN_LANGUAGE
  | VB_MENU_DEV => Some VB_DEV_LANGUAGE
  | VB_MENU_TO_NORM => Some VB_TO_NORM_LANGUAGE
  | VB_MENU_RECOVERY => Some VB_RECOVERY_LANGUAGE
  | VB_MENU_TO_DEV => Some VB_TO_DEV_LANGUAGE
  | VB_MENU_LANGUAGES => None
  end.

(** Committing an item, as both loops do on ENTER or the power button:
    [selected = 1; ret = vb2_update_menu();]. *)
Definition commit_item : State menu_state VbError_t :=
  fun s =>
    vb2_update_menu
      (mk_menu (current_menu s) (prev_menu s) (current_menu_idx s) 1
               (default_boot s)).

(** ** vboot_ui_menu.c: the polling loops *)

(** What the UI asks of the platform, other than reading its inputs.
    [UiPrintMenu] stands for [vb2_print_current_menu], which draws the
    items of the current menu and highlights the current one. *)
Inductive ui_call :=
| UiBeep (msec frequency : Z)
| UiSleepMs (msec : Z)
| UiDisplayScreen (screen : VbScreen)
| UiDisplayDebugText
| UiDisplayDebugInfo
| UiPrintMenu (menu : VB_MENU) (idx : Z)
| UiRollbackKernelLock
| UiLegacy
| UiTryLoadKernelRemovable
| UiSetVirtualDevMode (on : Z)
| UiAudioClose.

(** The state of the UI: the file-scope menu variables, the NV store and
    the calls made so far, oldest first. *)
Record ui_state := mk_ui {
  menu : menu_state;
  ui_nv : nv_store;
  ui_calls : list ui_call
}.

Definition ui_emit (c : ui_call) : State ui_state unit :=
  fun u => (tt, mk_ui (menu u) (ui_nv u) (ui_calls u ++ [c])).

Definition get_menu : State ui_state menu_state := fun u => (menu u, u).

Definition with_menu {A} (f : State menu_state A) : State ui_state A :=
  fun u => let (a, m) := f (menu u) in (a, mk_ui m (ui_nv u) (ui_calls u)).

Definition set_menu_idx (idx : Z) : State ui_state unit :=
  with_menu (fun s =>
    (tt, mk_menu (current_menu s) (prev_menu s) idx (selected s)
                 (default_boot s))).

Definition ui_nv_set (param : vb2_nv_param) (value : Z)
  : State ui_state unit :=
  fun u => (tt, mk_ui (menu u) (vb2_nv_set (ui_nv u) param value) (ui_calls u)).

Definition vb2_print_current_menu : State ui_state unit :=
  m <- get_menu ;;
  ui_emit (UiPrintMenu (current_menu m) (current_menu_idx m)).

(** [VbWantShutdownMenu]; [shutdown_request] is what
    [VbExIsShutdownRequested] returned. *)
Definition VbWantShutdownMenu (gbb_flags shutdown_request : Z) : Z :=
  let r1 := if nonzero (Z.land gbb_flags GBB_FLAG_DISABLE_LID_SHUTDOWN)
            then Z.land shutdown_request
                        (Z.lnot VB_SHUTDOWN_REQUEST_LID_CLOSED)
            else shutdown_request in
  let r2 := Z.land r1 (Z.lnot VB_SHUTDOWN_REQUEST_POWER_BUTTON) in
  bool_of_int r2.

(** The two beeps after a refused or failed legacy or USB boot. *)
Definition beep_twice : State ui_state unit :=
  ui_emit (UiBeep 120 400) ;; ui_emit (UiSleepMs 120) ;;
  ui_emit (UiBeep 120 400).

(** [VbTryLegacyMenu].  [rollback_lock] is what [RollbackKernelLock(0)]
    returns and [legacy_returns] says whether [VbExLegacy] comes back; the
    result is [false] when control went to the legacy payload. *)
Definition VbTryLegacyMenu (allowed rollback_lock : Z) (legacy_returns : bool)
  : State ui_state bool :=
  if negb (nonzero allowed) then beep_twice ;; ret true
  else
    ui_emit UiRollbackKernelLock ;;
    if negb (0 =? rollback_lock) then beep_twice ;; ret true
    else
      ui_emit UiLegacy ;;
      if legacy_returns then beep_twice ;; ret true else ret false.

(** [VbTryUsbMenu]; [retval] is what [VbTryLoadKernel] returns for
    removable media. *)
Definition VbTryUsbMenu (retval : VbError_t) : State ui_state VbError_t :=
  ui_emit UiTryLoadKernelRemovable ;;
  if VBERROR_SUCCESS =? retval then ret retval
  else
    ui_emit (UiBeep 250 200) ;;
    ui_emit (UiSleepMs 120) ;;
    ui_nv_set VB2_NV_RECOVERY_REQUEST VBNV_RECOVERY_NOT_REQUESTED ;;
    ret retval.

Definition CONFIRM_KEY_DELAY : Z := 20.

(** What one pass of [VbUserConfirmsMenu]'s loop reads. *)
Record confirm_poll := mk_confirm_poll {
  cp_shutdown_request : Z;
  cp_key : Z;
  cp_key_flags : Z;
  cp_button : Z
}.

Inductive confirm_step :=
| ConfirmReturn (rv : Z)
| ConfirmAgain (rec_button_was_pressed : Z).

(** The body of the [while (1)] of [VbUserConfirmsMenu], with the calls it
    makes. *)
Definition confirm_pass (cparams : VbCommonParams) (confirm_flags : Z)
           (rec_button_was_pressed : Z) (p : confirm_poll)
  : confirm_step * list ui_call :=
  if nonzero (VbWantShutdownMenu (gbb_flags cparams) (cp_shutdown_request p))
  then (ConfirmReturn (-1), [])
  else
    let key := cp_key p in
    if key =? 13 then
      if nonzero (Z.land confirm_flags VB_CONFIRM_MUST_TRUST_KEYBOARD)
         && negb (nonzero (Z.land (cp_key_flags p)
                                  VB_KEY_FLAG_TRUSTED_KEYBOARD))
      then (ConfirmAgain rec_button_was_pressed,
            [UiBeep 120 400; UiSleepMs CONFIRM_KEY_DELAY])
      else (ConfirmReturn 1, [])
    else if key =? 32 then
      if nonzero (Z.land confirm_flags VB_CONFIRM_SPACE_MEANS_NO)
      then (ConfirmReturn 0, [])
      else (ConfirmAgain rec_button_was_pressed,
            [UiSleepMs CONFIRM_KEY_DELAY])
    else if key =? 0x1b then (ConfirmReturn 0, [])
    else if negb (nonzero (Z.land (shared_flags (shared_data_blob cparams))
                                  VBSD_BOOT_REC_SWITCH_VIRTUAL)) then
      if nonzero (cp_button p)
      then (ConfirmAgain 1, [UiSleepMs CONFIRM_KEY_DELAY])
      else if nonzero rec_button_was_pressed then (ConfirmReturn 1, [])
      else (ConfirmAgain rec_button_was_pressed,
            [UiSleepMs CONFIRM_KEY_DELAY])
    else (ConfirmAgain rec_button_was_pressed, [UiSleepMs CONFIRM_KEY_DELAY]).

(** The loop over the polls the platform delivers; [None] when the polls
    are used up and the loop is still waiting. *)
Fixpoint confirm_loop (cparams : VbCommonParams) (confirm_flags : Z)
         (rec_button_was_pressed : Z) (polls : list confirm_poll)
  : option Z * list ui_call :=
  match polls with
  | [] => (None, [])
  | p :: rest =>
      match confirm_pass cparams confirm_flags rec_button_was_pressed p with
      | (ConfirmReturn rv, out) => (Some rv, out)
      | (ConfirmAgain pressed, out) =>
          let (r, out') := confirm_loop cparams confirm_flags pressed rest in
          (r, out ++ out')
      end
  end.

Definition VbUserConfirmsMenu (cparams : VbCommonParams) (confirm_flags : Z)
           (polls : list confirm_poll) : option Z * list ui_call :=
  confirm_loop cparams confirm_flags 0 polls.

(** How one pass of a menu loop ends. *)
Inductive loop_step :=
| StepNext
| StepContinue
| StepReturn (rv : VbError_t)
| StepFallout
| StepLegacyBooted.

Definition at_item (m : menu_state) (which : VB_MENU) (idx : Z) : bool :=
  VB_MENU_eqb (current_menu m) which && (current_menu_idx m =? idx).

(** The cases [VB_BUTTON_VOL_UP]/[VB_KEY_UP] and
    [VB_BUTTON_VOL_DOWN]/[VB_KEY_DOWN], which the two loops share word for
    word. *)
Definition menu_key_up : State ui_state unit :=
  m <- get_menu ;;
  let (_, menu_size) := vb2_get_current_menu_size (current_menu m) in
  (if current_menu_idx m >? 0 then set_menu_idx (current_menu_idx m - 1)
   else ret tt) ;;
  vb2_print_current_menu.

Definition menu_key_down : State ui_state unit :=
  m <- get_menu ;;
  let (_, menu_size) := vb2_get_current_menu_size (current_menu m) in
  (if current_menu_idx m <? menu_size - 1
   then set_menu_idx (current_menu_idx m + 1)
   else ret tt) ;;
  vb2_print_current_menu.

(** What one pass of the developer loop reads; the last four fields are
    read only when the pass gets that far. *)
Record dev_poll := mk_dev_poll {
  dp_shutdown_request : Z;
  dp_key : Z;
  dp_rollback_lock : Z;
  dp_legacy_returns : bool;
  dp_load_kernel : VbError_t;
  dp_audio_looping : Z
}.

(** How the developer loop ends. *)
Inductive dev_exit :=
| DevReturned (rv : VbError_t)
| DevFallout (ctrl_d_pressed : Z)
| DevLegacyBooted.

(** The USB attempt of Ctrl+U and of the "Boot USB Image" item; [Some rv]
    is [return rv]. *)
Definition dev_try_usb (allow_usb : Z) (p : dev_poll)
  : State ui_state (option VbError_t) :=
  if negb (nonzero allow_usb) then
    ui_emit UiDisplayDebugText ;; beep_twice ;; ret None
  else
    ui_emit (UiDisplayScreen VB_SCREEN_BLANK) ;;
    rv <- VbTryUsbMenu (dp_load_kernel p) ;;
    if VBERROR_SUCCESS =? rv then
      ui_emit UiAudioClose ;; ret (Some VBERROR_SUCCESS)
    else ui_emit (UiDisplayScreen VB_SCREEN_BASE) ;; ret None.

(** The body of the [do ... while] of [vb2_developer_menu], lines 657-843. *)
Definition developer_menu_pass (gbb_flags allow_usb allow_legacy : Z)
           (p : dev_poll) : State ui_state loop_step :=
  if nonzero (VbWantShutdownMenu gbb_flags (dp_shutdown_request p)) then
    ui_emit UiAudioClose ;; ret (StepReturn VBERROR_SHUTDOWN_REQUESTED)
  else
    let key := dp_key p in
    if key =? 0 then ret StepNext
    else if key =? 0x04 then ret StepFallout
    else if key =? 0x0c then
      back <- VbTryLegacyMenu allow_legacy (dp_rollback_lock p)
                              (dp_legacy_returns p) ;;
      if back then ret StepNext else ret StepLegacyBooted
    else if key =? 0x15 then
      r <- dev_try_usb allow_usb p ;;
      match r with Some rv => ret (StepReturn rv) | None => ret StepNext end
    else if (key =? VB_BUTTON_VOL_UP) || (key =? VB_KEY_UP) then
      menu_key_up ;; ret StepNext
    else if (key =? VB_BUTTON_VOL_DOWN) || (key =? VB_KEY_DOWN) then
      menu_key_down ;; ret StepNext
    else if (key =? VB_BUTTON_POWER) || (key =? 13) then
      rv <- with_menu commit_item ;;
      ui_emit (UiDisplayScreen VB_SCREEN_BLANK) ;;
      ui_emit (UiDisplayScreen VB_SCREEN_BASE) ;;
      vb2_print_current_menu ;;
      if negb (rv =? VBERROR_SUCCESS) then ret (StepReturn rv)
      else
        m <- get_menu ;;
        if selected m =? 0 then ret StepNext
        else
          (if at_item m VB_MENU_DEV_WARNING VB_WARN_DBG_INFO
           then ui_emit UiDisplayDebugInfo else ret tt) ;;
          back <- (if at_item m VB_MENU_DEV VB_DEV_LEGACY
                   then VbTryLegacyMenu allow_legacy (dp_rollback_lock p)
                                        (dp_legacy_returns p)
                   else ret true) ;;
          if negb back then ret StepLegacyBooted
          else
            r <- (if at_item m VB_MENU_DEV VB_DEV_USB
                  then dev_try_usb allow_usb p else ret None) ;;
            match r with
            | Some rv' => ret (StepReturn rv')
            | None =>
                if at_item m VB_MENU_DEV VB_DEV_DISK then ret StepFallout
                else if at_item m VB_MENU_TO_NORM VB_TO_NORM_CONFIRM then
                  ui_nv_set VB2_NV_DISABLE_DEV_REQUEST 1 ;;
                  ui_emit (UiDisplayScreen VB_SCREEN_TO_NORM_CONFIRMED) ;;
                  ui_emit (UiSleepMs 5000) ;;
                  ret (StepReturn VBERROR_REBOOT_REQUIRED)
                else ret StepNext
            end
    else ret StepNext.

(** The [do ... while (VbAudioLooping(audio))] loop over the polls the
    platform delivers; [None] when the polls are used up and the loop is
    still running. *)
Fixpoint developer_menu_loop (gbb_flags allow_usb allow_legacy : Z)
         (polls : list dev_poll) : State ui_state (option dev_exit) :=
  match polls with
  | [] => ret None
  | p :: rest =>
      r <- developer_menu_pass gbb_flags allow_usb allow_legacy p ;;
      match r with
      | StepNext | StepContinue =>
          if nonzero (dp_audio_looping p)
          then developer_menu_loop gbb_flags allow_usb allow_legacy rest
          else ret (Some (DevFallout 0))
      | StepReturn rv => ret (Some (DevReturned rv))
      | StepFallout => ret (Some (DevFallout 1))
      | StepLegacyBooted => ret (Some DevLegacyBooted)
      end
  end.

Definition REC_DISK_DELAY : Z := 1000.
Definition REC_KEY_DELAY : Z := 20.

(** What one pass of the key loop of the recovery menu reads; the fields
    after [rp_key] are read only when the pass gets that far. *)
Record rec_poll := mk_rec_poll {
  rp_key : Z;
  rp_trust_ec : Z;
  rp_rec_button : Z;
  rp_set_dev_mode : Z;
  rp_allow_usb_boot : Z;
  rp_shutdown_request : Z
}.

Definition recovery_screen (retval : VbError_t) : VbScreen :=
  if VBERROR_NO_DISK_FOUND =? retval then VB_SCREEN_BASE
  else VB_SCREEN_RECOVERY_NO_GOOD.

(** The [switch (key)] of the key loop of [vb2_recovery_menu], lines
    974-1071.  [StepContinue] is the [continue] of the stuck button. *)
Definition recovery_menu_key (shared_flags : Z) (retval : VbError_t)
           (p : rec_poll) : State ui_state loop_step :=
  let key := rp_key p in
  if key =? 0 then ret StepNext
  else if (key =? VB_BUTTON_VOL_UP) || (key =? VB_KEY_UP) then
    menu_key_up ;; ret StepNext
  else if (key =? VB_BUTTON_VOL_DOWN) || (key =? VB_KEY_DOWN) then
    menu_key_down ;; ret StepNext
  else if (key =? VB_BUTTON_POWER) || (key =? 13) then
    rv <- with_menu commit_item ;;
    m <- get_menu ;;
    (if negb (at_item m VB_MENU_RECOVERY VB_RECOVERY_DBG_INFO) then
       ui_emit (UiDisplayScreen VB_SCREEN_BLANK) ;;
       ui_emit (UiDisplayScreen (recovery_screen retval)) ;;
       vb2_print_current_menu
     else ret tt) ;;
    if negb (rv =? VBERROR_SUCCESS) then ret (StepReturn rv)
    else if selected m =? 0 then ret StepNext
    else
      (if at_item m VB_MENU_RECOVERY VB_RECOVERY_DBG_INFO
       then ui_emit UiDisplayDebugInfo else ret tt) ;;
      if at_item m VB_MENU_TO_DEV 0
         && nonzero (Z.land shared_flags VBSD_HONOR_VIRT_DEV_SWITCH)
         && negb (nonzero (Z.land shared_flags VBSD_BOOT_DEV_SWITCH_ON))
         && nonzero (Z.land shared_flags VBSD_BOOT_REC_SWITCH_ON)
         && nonzero (rp_trust_ec p)
      then
        if negb (nonzero (Z.land shared_flags VBSD_BOOT_REC_SWITCH_VIRTUAL))
           && nonzero (rp_rec_button p)
        then ui_emit (UiBeep 120 400) ;; ret StepContinue
        else
          ui_emit (UiSetVirtualDevMode 1) ;;
          if negb (TPM_SUCCESS =? rp_set_dev_mode p)
          then ret (StepReturn VBERROR_TPM_SET_BOOT_MODE_STATE)
          else
            (if nonzero (rp_allow_usb_boot p)
             then ui_nv_set VB2_NV_DEV_BOOT_USB 1 else ret tt) ;;
            ret (StepReturn VBERROR_REBOOT_REQUIRED)
      else ret StepNext
  else ret StepNext.

(** One pass of the [for] loop of lines 972-1075: the key, then the
    shutdown check and the sleep unless the pass ended in [continue]. *)
Definition recovery_menu_pass (shared_flags gbb_flags : Z)
           (retval : VbError_t) (p : rec_poll)
  : State ui_state (option VbError_t) :=
  r <- recovery_menu_key shared_flags retval p ;;
  match r with
  | StepReturn rv => ret (Some rv)
  | StepContinue => ret None
  | _ =>
      if nonzero (VbWantShutdownMenu gbb_flags (rp_shutdown_request p))
      then ret (Some VBERROR_SHUTDOWN_REQUESTED)
      else ui_emit (UiSleepMs REC_KEY_DELAY) ;; ret None
  end.

(** How the key loop of one disk scan ends. *)
Inductive scan_end :=
| ScanReturned (rv : VbError_t)
| ScanDone (rest : list rec_poll)
| ScanStarved.

(** The [for] loop: [passes] passes are left, [REC_DISK_DELAY /
    REC_KEY_DELAY] at the start. *)
Fixpoint recovery_key_loop (passes : nat) (shared_flags gbb_flags : Z)
         (retval : VbError_t) (polls : list rec_poll)
  : State ui_state scan_end :=
  match passes with
  | O => ret (ScanDone polls)
  | S passes' =>
      match polls with
      | [] => ret ScanStarved
      | p :: rest =>
          r <- recovery_menu_pass shared_flags gbb_flags retval p ;;
          match r with
          | Some rv => ret (ScanReturned rv)
          | None =>
              recovery_key_loop passes' shared_flags gbb_flags retval rest
          end
      end
  end.

(** "Initialize menu to recovery menu", lines 937-940. *)
Definition recovery_menu_init : State ui_state unit :=
  with_menu (fun s =>
    (tt, mk_menu VB_MENU_RECOVERY VB_MENU_RECOVERY VB_RECOVERY_POWER_OFF
                 (selected s) (default_boot s))).

(** The [while (1)] of lines 942-1076.  [loads] are the results of the
    successive [VbTryLoadKernel] calls and [polls] what the key loops read;
    [None] when either is used up and the loop is still running. *)
Fixpoint recovery_menu_loop (shared_flags gbb_flags : Z)
         (loads : list VbError_t) (polls : list rec_poll)
  : State ui_state (option VbError_t) :=
  match loads with
  | [] => ret None
  | retval :: loads' =>
      ui_emit UiTryLoadKernelRemovable ;;
      ui_nv_set VB2_NV_RECOVERY_REQUEST VBNV_RECOVERY_NOT_REQUESTED ;;
      if VBERROR_SUCCESS =? retval then ret (Some VBERROR_SUCCESS)
      else
        m <- get_menu ;;
        (if negb (at_item m VB_MENU_RECOVERY VB_RECOVERY_DBG_INFO) then
           ui_emit (UiDisplayScreen (recovery_screen retval)) ;;
           vb2_print_current_menu
         else ret tt) ;;
        r <- recovery_key_loop
               (Z.to_nat (REC_DISK_DELAY / REC_KEY_DELAY))
               shared_flags gbb_flags retval polls ;;
        match r with
        | ScanReturned rv => ret (Some rv)
        | ScanStarved => ret None
        | ScanDone rest =>
            recovery_menu_loop shared_flags gbb_flags loads' rest
        end
  end.

(** The manual-recovery part of [vb2_recovery_menu], lines 934-1078. *)
Definition vb2_recovery_menu_manual (shared_flags gbb_flags : Z)
           (loads : list VbError_t) (polls : list rec_poll)
  : State ui_state (option VbError_t) :=
  recovery_menu_init ;;
  recovery_menu_loop shared_flags gbb_flags loads polls.

(** ** Vocabulary of the statements *)

(** A scratch bit, or any bit of a mask, is set in a flag word. *)
Definition flag_set (flags mask : Z) : Prop := Z.land flags mask <> 0.

(** The two reasons for which phases 1 and 2 do no sync at all. *)
Definition sync_disabled (cparams : VbCommonParams) : Prop :=
  Z.land (shared_flags (shared_data_blob cparams)) VBSD_EC_SOFTWARE_SYNC = 0
  \/ flag_set (gbb_flags cparams) GBB_FLAG_DISABLE_EC_SOFTWARE_SYNC.

Definition sync_enabled (cparams : VbCommonParams) : Prop :=
  flag_set (shared_flags (shared_data_blob cparams)) VBSD_EC_SOFTWARE_SYNC
  /\ Z.land (gbb_flags cparams) GBB_FLAG_DISABLE_EC_SOFTWARE_SYNC = 0.

(** The running-image query succeeded and reported RW, as line 206 tests
    it. *)
Definition reports_rw (answer : VbError_t * Z) : bool :=
  (fst answer =? VBERROR_SUCCESS) && (snd answer =? 1).

(** None of the calls satisfies [f]. *)
Definition none_of (f : ec_call -> bool) (l : list ec_call) : Prop :=
  forallb (fun c => negb (f c)) l = true.

(** The current index is an item of the current menu. *)
Definition index_in_range (m : menu_state) : Prop :=
  0 <= current_menu_idx m < snd (vb2_get_current_menu_size (current_menu m)).

Definition is_up_key (key : Z) : bool :=
  (key =? VB_BUTTON_VOL_UP) || (key =? VB_KEY_UP).

Definition is_down_key (key : Z) : bool :=
  (key =? VB_BUTTON_VOL_DOWN) || (key =? VB_KEY_DOWN).

Definition is_nav_key (key : Z) : bool := is_up_key key || is_down_key key.

(** ** Platforms and states used as concrete inputs *)

Definition digest0 : bytes := [x00; x01].
Definition image0 : bytes := [xaa; xbb; xcc].

(** A platform on which every callback succeeds, the EC is in RO and every
    digest matches. *)
Definition healthy_platform : Platform :=
  mk_platform
    (fun _ _ => (VBERROR_SUCCESS, 0))
    (fun _ _ _ => (VBERROR_SUCCESS, digest0))
    (fun _ _ _ => (VBERROR_SUCCESS, digest0))
    (fun _ _ _ => (VBERROR_SUCCESS, image0))
    (fun _ _ _ _ => VBERROR_SUCCESS)
    (fun _ _ => VBERROR_SUCCESS)
    (fun _ _ _ => VBERROR_SUCCESS)
    (fun _ _ => VBERROR_SUCCESS)
    (fun _ _ => VBERROR_SUCCESS).

(** A platform that reports the EC in RW. *)
Definition in_rw_platform : Platform :=
  mk_platform
    (fun _ _ => (VBERROR_SUCCESS, 1))
    (VbExEcHashImage healthy_platform)
    (VbExEcGetExpectedImageHash healthy_platform)
    (VbExEcGetExpectedImage healthy_platform)
    (VbExEcUpdateImage healthy_platform)
    (VbExEcJumpToRW healthy_platform)
    (VbExEcProtect healthy_platform)
    (VbExEcDisableJump healthy_platform)
    (VbExEcVbootDone healthy_platform).

Definition made_update (c : ec_call) : bool :=
  match c with EcUpdateImage _ _ _ => true | _ => false end.

(** A platform whose first image update fails with an error other than
    "reboot to RO" and whose later updates succeed. *)
Definition flaky_platform : Platform :=
  mk_platform
    (VbExEcRunningRW healthy_platform)
    (VbExEcHashImage healthy_platform)
    (VbExEcGetExpectedImageHash healthy_platform)
    (VbExEcGetExpectedImage healthy_platform)
    (fun h _ _ _ => if existsb made_update h then VBERROR_SUCCESS
                    else VBERROR_UNKNOWN)
    (VbExEcJumpToRW healthy_platform)
    (VbExEcProtect healthy_platform)
    (VbExEcDisableJump healthy_platform)
    (VbExEcVbootDone healthy_platform).

(** Parameters of a boot in recovery mode: the shared data hold the
    recovery reason [0x5a]. *)
Definition cparams_in_recovery : VbCommonParams :=
  mk_cparams (mk_shared VBSD_EC_SOFTWARE_SYNC 0 0x5a) 0.

(** A platform whose vboot-done notification fails. *)
Definition deaf_platform : Platform :=
  mk_platform
    (VbExEcRunningRW healthy_platform)
    (VbExEcHashImage healthy_platform)
    (VbExEcGetExpectedImageHash healthy_platform)
    (VbExEcGetExpectedImage healthy_platform)
    (VbExEcUpdateImage healthy_platform)
    (VbExEcJumpToRW healthy_platform)
    (VbExEcProtect healthy_platform)
    (VbExEcDisableJump healthy_platform)
    (fun _ _ => VBERROR_UNKNOWN).

Definition nv_zero : nv_store := fun _ => 0.

Definition cparams_sync_on : VbCommonParams :=
  mk_cparams (mk_shared VBSD_EC_SOFTWARE_SYNC 0 0) 0.

Definition cparams_sync_off : VbCommonParams :=
  mk_cparams (mk_shared 0 0 0) 0.

Definition world_of (flags reason : Z) (nv0 : nv_store) : world :=
  mk_world (mk_ctx flags reason nv0) [].

(** ** Further vocabulary and concrete inputs of the statements *)

(** An NV store with a recovery request of 5 pending and TRY_RO_SYNC
    set. *)
Definition nv_pending : nv_store :=
  fun k =>
    match k with
    | VB2_NV_RECOVERY_REQUEST => 5
    | VB2_NV_TRY_RO_SYNC => 1
    | _ => 0
    end.

(** A state in which only EC_RO_NEEDS_UPDATE is set. *)
Definition world_ro_pending : world :=
  world_of VB2_SD_FLAG_ECSYNC_EC_RO 0 nv_pending.

(** The same context once the EC has been told to jump to RW. *)
Definition world_ro_step : world :=
  mk_world (ctx world_ro_pending) [EcJumpToRW 0].

(** The history of callbacks only grows. *)
Definition grows {A} (m : M A) : Prop :=
  forall w, exists made, calls (snd (m w)) = calls w ++ made.

(** A computation whose first callback is [c]. *)
Definition starts_with {A} (c : ec_call) (m : M A) : Prop :=
  forall w, exists rest, calls (snd (m w)) = calls w ++ c :: rest.

(** The developer warning menu with the cursor on its Language item. *)
Definition menu_on_warning_language : menu_state :=
  mk_menu VB_MENU_DEV_WARNING VB_MENU_DEV_WARNING VB_WARN_LANGUAGE 0
          VB2_DEV_DEFAULT_BOOT_DISK.

(** ENTER from a keyboard flagged as trusted. *)
Definition trusted_enter (p : confirm_poll) : Prop :=
  cp_key p = 13 /\ flag_set (cp_key_flags p) VB_KEY_FLAG_TRUSTED_KEYBOARD.

(** The physical recovery button is found released, on a pass whose key is
    none of ENTER, SPACE, ESC. *)
Definition rec_button_released (cparams : VbCommonParams) (p : confirm_poll)
  : Prop :=
  Z.land (shared_flags (shared_data_blob cparams)) VBSD_BOOT_REC_SWITCH_VIRTUAL
  = 0
  /\ cp_key p <> 13 /\ cp_key p <> 32 /\ cp_key p <> 0x1b
  /\ cp_button p = 0.

(** Parameters with a physical recovery switch and no GBB flag. *)
Definition confirm_cparams_physical : VbCommonParams :=
  mk_cparams (mk_shared 0 0 0) 0.

(** Polls without shutdown request: no key with the recovery button held,
    no key with the button released, ENTER from an untrusted keyboard,
    ENTER from a trusted one. *)
Definition poll_button_down : confirm_poll := mk_confirm_poll 0 0 0 1.

Definition poll_button_up : confirm_poll := mk_confirm_poll 0 0 0 0.

Definition poll_untrusted_enter : confirm_poll := mk_confirm_poll 0 13 0 0.

Definition poll_trusted_enter : confirm_poll :=
  mk_confirm_poll 0 13 VB_KEY_FLAG_TRUSTED_KEYBOARD 0.

(** The menu after one pass is the same menu, and the index moved by at
    most one item in the direction of the key without leaving the menu. *)
Definition one_step (key : Z) (u u' : ui_state) : Prop :=
  let i := current_menu_idx (menu u) in
  let i' := current_menu_idx (menu u') in
  let size := snd (vb2_get_current_menu_size (current_menu (menu u))) in
  current_menu (menu u') = current_menu (menu u)
  /\ index_in_range (menu u')
  /\ (is_up_key key = true ->
      (i' = i \/ i' = i - 1) /\ (i = 0 -> i' = 0))
  /\ (is_down_key key = true ->
      (i' = i \/ i' = i + 1) /\ (i = size - 1 -> i' = size - 1)).

(** The menu is the one of [u] and the index is one of its items. *)
Definition same_menu_in_range (u u' : ui_state) : Prop :=
  current_menu (menu u') = current_menu (menu u)
  /\ index_in_range (menu u').

(** The UI before any call, with the initializers of the menu variables. *)
Definition ui_initial : ui_state := mk_ui initial_menu_state nv_zero [].

(** A poll of the developer loop with a key, no shutdown request and the
    audio still looping; a poll of the recovery loop with a key. *)
Definition dev_key (key : Z) : dev_poll :=
  mk_dev_poll 0 key 0 true VBERROR_NO_DISK_FOUND 1.

Definition rec_key (key : Z) : rec_poll := mk_rec_poll key 0 0 0 0 0.

Definition five_ups_then_down : list Z :=
  [VB_KEY_UP; VB_BUTTON_VOL_UP; VB_KEY_UP; VB_KEY_UP; VB_KEY_UP; VB_KEY_DOWN].

(** ** vboot_ui_menu.c: the developer and recovery flows as wholes *)

(** Modelled from the spec: [rollback_index.h] is not among the sources.
    The spec (section 4, Developer flow) names these as bits of the FWMP
    flags; each is a single bit and the bits differ. *)
Definition FWMP_DEV_DISABLE_BOOT : Z := Z.shiftl 1 0.

(** Modelled from the spec: a constant of the absent [rollback_index.h]. *)
Definition FWMP_DEV_ENABLE_USB : Z := Z.shiftl 1 2.

(** Modelled from the spec: a constant of the absent [rollback_index.h]. *)
Definition FWMP_DEV_ENABLE_LEGACY : Z := Z.shiftl 1 3.

(** The locals [allow_usb], [allow_legacy], [use_usb], [use_legacy] and
    [disable_dev_boot] of [vb2_developer_menu] once its policy is read. *)
Record dev_policy := mk_dev_policy {
  allow_usb : Z;
  allow_legacy : Z;
  use_usb : Z;
  use_legacy : Z;
  disable_dev_boot : Z
}.

(** Lines 587-621 of [vb2_developer_menu]: NV first, then the GBB flags,
    then the FWMP flags, each assignment in the order of the code. *)
Definition developer_policy (nv : nv_store) (gbb_flags fwmp_flags : Z)
  : dev_policy :=
  let allow_usb := vb2_nv_get nv VB2_NV_DEV_BOOT_USB in
  let allow_legacy := vb2_nv_get nv VB2_NV_DEV_BOOT_LEGACY in
  let default_boot := vb2_nv_get nv VB2_NV_DEV_DEFAULT_BOOT in
  let use_usb :=
    if default_boot =? VBNV_DEV_DEFAULT_BOOT_USB then 1 else 0 in
  let use_legacy :=
    if default_boot =? VBNV_DEV_DEFAULT_BOOT_LEGACY then 1 else 0 in
  let allow_usb :=
    if nonzero (Z.land gbb_flags GBB_FLAG_FORCE_DEV_BOOT_USB)
    then 1 else allow_usb in
  let allow_legacy :=
    if nonzero (Z.land gbb_flags GBB_FLAG_FORCE_DEV_BOOT_LEGACY)
    then 1 else allow_legacy in
  let use_legacy' :=
    if nonzero (Z.land gbb_flags GBB_FLAG_DEFAULT_DEV_BOOT_LEGACY)
    then 1 else use_legacy in
  let use_usb' :=
    if nonzero (Z.land gbb_flags GBB_FLAG_DEFAULT_DEV_BOOT_LEGACY)
    then 0 else use_usb in
  let allow_usb :=
    if nonzero (Z.land fwmp_flags FWMP_DEV_ENABLE_USB)
    then 1 else allow_usb in
  let allow_legacy :=
    if nonzero (Z.land fwmp_flags FWMP_DEV_ENABLE_LEGACY)
    then 1 else allow_legacy in
  let disable_dev_boot :=
    if nonzero (Z.land fwmp_flags FWMP_DEV_DISABLE_BOOT) then
      if nonzero (Z.land gbb_flags GBB_FLAG_FORCE_DEV_SWITCH_ON)
      then 0 else 1
    else 0 in
  mk_dev_policy allow_usb allow_legacy use_usb' use_legacy' disable_dev_boot.

(** Several calls at once, in their order. *)
Definition ui_emit_all (made : list ui_call) : State ui_state unit :=
  fun u => (tt, mk_ui (menu u) (ui_nv u) (ui_calls u ++ made)).

Definition get_ui_nv : State ui_state nv_store := fun u => (ui_nv u, u).

(** [default_boot = vb2_nv_get(ctx, VB2_NV_DEV_DEFAULT_BOOT);], line 591. *)
Definition set_default_boot (value : Z) : State ui_state unit :=
  with_menu (fun s =>
    (tt, mk_menu (current_menu s) (prev_menu s) (current_menu_idx s)
                 (selected s) value)).

(** The [while (disable_dev_boot)] of lines 624-646; the loop never changes
    [disable_dev_boot], so it ends only by [return].  Each pass runs one
    Confirm dialogue; [sessions] holds what each dialogue reads, and the
    result is [None] when the sessions are used up, or one of them is,
    while the loop is still waiting. *)
Fixpoint dev_disabled_loop (cparams : VbCommonParams)
         (sessions : list (list confirm_poll))
  : State ui_state (option VbError_t) :=
  match sessions with
  | [] => ret None
  | polls :: rest =>
      ui_emit (UiDisplayScreen VB_SCREEN_DEVELOPER_TO_NORM) ;;
      ui_emit UiDisplayDebugText ;;
      let (answer, made) := VbUserConfirmsMenu cparams 0 polls in
      ui_emit_all made ;;
      match answer with
      | None => ret None
      | Some rv =>
          if rv =? 1 then
            ui_nv_set VB2_NV_DISABLE_DEV_REQUEST 1 ;;
            ui_emit (UiDisplayScreen VB_SCREEN_TO_NORM_CONFIRMED) ;;
            ui_emit (UiSleepMs 5000) ;;
            ret (Some VBERROR_REBOOT_REQUIRED)
          else if rv =? -1 then ret (Some VBERROR_SHUTDOWN_REQUESTED)
          else dev_disabled_loop cparams rest
      end
  end.

(** The calls of the two flows: those of [ui_call], and the calls that
    only the code around the loops makes.  [VbCheckDisplayKey] belongs to
    another file; the call is recorded and what it does is not part of
    the model. *)
Inductive flow_call :=
| FlowUi (c : ui_call)
| FlowAudioOpen
| FlowTryLoadKernelFixed
| FlowNvCommit
| FlowCheckDisplayKey (key : Z).

Record flow_state := mk_flow {
  fl_menu : menu_state;
  fl_nv : nv_store;
  fl_calls : list flow_call
}.

Definition flow_emit (c : flow_call) : State flow_state unit :=
  fun f => (tt, mk_flow (fl_menu f) (fl_nv f) (fl_calls f ++ [c])).

(** A computation of the UI inside a flow.  The computations of the UI
    only add to their log, so it runs from an empty log and what it logged
    is added to the log of the flow. *)
Definition run_ui {A} (m : State ui_state A) : State flow_state A :=
  fun f =>
    let (a, u) := m (mk_ui (fl_menu f) (fl_nv f) []) in
    (a, mk_flow (menu u) (ui_nv u) (fl_calls f ++ map FlowUi (ui_calls u))).

(** How a flow ends when it ends: by [return], or in the legacy payload,
    to which [VbExLegacy] handed control. *)
Inductive flow_exit :=
| FlowReturned (rv : VbError_t)
| FlowLegacyBooted.

(** Modelled from the spec: [VbTryLoadKernel] for the fixed disk.  The
    function is not among the sources; the spec lists it as the kernel
    loader [try_load_kernel(ctx, flags)], which answers with an outcome.
    It is handed the context, and the comments of lines 80-84 and 946-951
    say that a failed load leaves a recovery request in NV.  So the load is
    a recorded call that answers [retval] and makes [load_nv] of the NV
    storage it finds; nothing is assumed about [load_nv]. *)
Definition VbTryLoadKernelFixed (retval : VbError_t)
           (load_nv : nv_store -> nv_store) : State flow_state VbError_t :=
  fun f =>
    (retval,
     mk_flow (fl_menu f) (load_nv (fl_nv f))
             (fl_calls f ++ [FlowTryLoadKernelFixed])).

(** After [fallout:], lines 846-864.  [p] holds what the legacy and USB
    attempts read; [fixed] is what [VbTryLoadKernel] returns for the fixed
    disk and [load_nv] is what it does to NV. *)
Definition developer_fallout (pol : dev_policy) (ctrl_d_pressed : Z)
           (p : dev_poll) (fixed : VbError_t)
           (load_nv : nv_store -> nv_store)
  : State flow_state (option flow_exit) :=
  back <- (if nonzero (use_legacy pol) && negb (nonzero ctrl_d_pressed)
           then run_ui (VbTryLegacyMenu (allow_legacy pol)
                                        (dp_rollback_lock p)
                                        (dp_legacy_returns p))
           else ret true) ;;
  if negb back then ret (Some FlowLegacyBooted)
  else
    r <- (if (nonzero (use_usb pol) && negb (nonzero ctrl_d_pressed))
             && nonzero (allow_usb pol)
          then
            rv <- run_ui (VbTryUsbMenu (dp_load_kernel p)) ;;
            if VBERROR_SUCCESS =? rv then
              run_ui (ui_emit UiAudioClose) ;; ret (Some VBERROR_SUCCESS)
            else ret None
          else ret None) ;;
    match r with
    | Some rv => ret (Some (FlowReturned rv))
    | None =>
        run_ui (ui_emit UiAudioClose) ;;
        retval <- VbTryLoadKernelFixed fixed load_nv ;;
        ret (Some (FlowReturned retval))
    end.

(** [vb2_developer_menu].  [fwmp_flags] is what [vb2_get_fwmp_flags]
    returns, [sessions] and [polls] are what the Confirm dialogues and the
    passes of the main loop read, and [last], [fixed] and [load_nv] are
    what the code after [fallout:] reads and what the load from the fixed
    disk does.  [None] when the inputs are used up and the function is
    still waiting. *)
Definition vb2_developer_menu (cparams : VbCommonParams) (fwmp_flags : Z)
           (sessions : list (list confirm_poll)) (polls : list dev_poll)
           (last : dev_poll) (fixed : VbError_t)
           (load_nv : nv_store -> nv_store)
  : State flow_state (option flow_exit) :=
  nv0 <- run_ui get_ui_nv ;;
  let pol := developer_policy nv0 (gbb_flags cparams) fwmp_flags in
  run_ui (set_default_boot (vb2_nv_get nv0 VB2_NV_DEV_DEFAULT_BOOT)) ;;
  if nonzero (disable_dev_boot pol) then
    r <- run_ui (dev_disabled_loop cparams sessions) ;;
    ret (option_map FlowReturned r)
  else
    run_ui (ui_emit (UiDisplayScreen VB_SCREEN_BASE)) ;;
    run_ui vb2_print_current_menu ;;
    flow_emit FlowAudioOpen ;;
    r <- run_ui (developer_menu_loop (gbb_flags cparams) (allow_usb pol)
                                     (allow_legacy pol) polls) ;;
    match r with
    | None => ret None
    | Some (DevReturned rv) => ret (Some (FlowReturned rv))
    | Some DevLegacyBooted => ret (Some FlowLegacyBooted)
    | Some (DevFallout ctrl_d_pressed) =>
        developer_fallout pol ctrl_d_pressed last fixed load_nv
    end.

(** [VbBootDeveloperMenu]: the screen is blanked when
    [vb2_developer_menu] returns. *)
Definition VbBootDeveloperMenu (cparams : VbCommonParams) (fwmp_flags : Z)
           (sessions : list (list confirm_poll)) (polls : list dev_poll)
           (last : dev_poll) (fixed : VbError_t)
           (load_nv : nv_store -> nv_store)
  : State flow_state (option flow_exit) :=
  r <- vb2_developer_menu cparams fwmp_flags sessions polls last fixed
                          load_nv ;;
  match r with
  | Some (FlowReturned retval) =>
      run_ui (ui_emit (UiDisplayScreen VB_SCREEN_BLANK)) ;;
      ret (Some (FlowReturned retval))
  | _ => ret r
  end.

(** The [while (1)] of the broken screen, lines 926-931; of a poll it
    reads the key and the shutdown request. *)
Fixpoint broken_screen_loop (gbb_flags : Z) (polls : list rec_poll)
  : State flow_state (option VbError_t) :=
  match polls with
  | [] => ret None
  | p :: rest =>
      flow_emit (FlowCheckDisplayKey (rp_key p)) ;;
      if nonzero (VbWantShutdownMenu gbb_flags (rp_shutdown_request p))
      then ret (Some VBERROR_SHUTDOWN_REQUESTED)
      else
        run_ui (ui_emit (UiSleepMs REC_KEY_DELAY)) ;;
        broken_screen_loop gbb_flags rest
  end.

(** [vb2_recovery_menu]: the broken screen when neither switch is on,
    manual recovery otherwise. *)
Definition vb2_recovery_menu (cparams : VbCommonParams)
           (loads : list VbError_t) (polls : list rec_poll)
  : State flow_state (option VbError_t) :=
  let shared := shared_data_blob cparams in
  if negb (nonzero (Z.land (shared_flags shared) VBSD_BOOT_DEV_SWITCH_ON))
     && negb (nonzero (Z.land (shared_flags shared) VBSD_BOOT_REC_SWITCH_ON))
  then
    run_ui (ui_nv_set VB2_NV_RECOVERY_SUBCODE
                      (shared_recovery_reason shared)) ;;
    flow_emit FlowNvCommit ;;
    run_ui (ui_emit (UiDisplayScreen VB_SCREEN_OS_BROKEN)) ;;
    broken_screen_loop (gbb_flags cparams) polls
  else
    run_ui (vb2_recovery_menu_manual (shared_flags shared)
                                     (gbb_flags cparams) loads polls).

(** [VbBootRecoveryMenu]. *)
Definition VbBootRecoveryMenu (cparams : VbCommonParams)
           (loads : list VbError_t) (polls : list rec_poll)
  : State flow_state (option VbError_t) :=
  r <- vb2_recovery_menu cparams loads polls ;;
  match r with
  | Some retval =>
      run_ui (ui_emit (UiDisplayScreen VB_SCREEN_BLANK)) ;;
      ret (Some retval)
  | None => ret None
  end.

(** ** vboot_ui_menu.c: the text of the menus *)

From Stdlib Require Strings.String Strings.Ascii.

Module MenuText.

Import Stdlib.Strings.Ascii Stdlib.Strings.String.

(** A string literal of the source that ends in a newline. *)
Definition line (s : string) : string :=
  (s ++ String "010"%char EmptyString)%string.

(** The string arrays of the six menus, lines 232-273. *)
Definition dev_warning_menu : list string :=
  [line "Developer Options"; line "Show Debug Info";
   line "Enable Root Verification"; line "Power Off"; line "Language"].

Definition dev_menu : list string :=
  [line "Boot Network Image (not working yet)"; line "Boot Legacy BIOS";
   line "Boot USB Image"; line "Boot Developer Image"; line "Cancel";
   line "Power Off"; line "Language"].

Definition to_normal_menu : list string :=
  [line "Confirm Enabling Verified Boot"; line "Cancel"; line "Power Off";
   line "Language"].

Definition recovery_menu : list string :=
  [line "Enable developer mode"; line "Show Debug Info"; line "Power Off";
   line "Language"].

Definition to_dev_menu : list string :=
  [line "Confirm enabling developer mode"; line "Cancel"; line "Power Off";
   line "Language"].

Definition languages_menu : list string := [line "US English"].

(** The [menu_array] output of [vb2_get_current_menu_size]. *)
Definition menu_array (menu : VB_MENU) : list string :=
  match menu with
  | VB_MENU_DEV_WARNING => dev_warning_menu
  | VB_MENU_DEV => dev_menu
  | VB_MENU_TO_NORM => to_normal_menu
  | VB_MENU_RECOVERY => recovery_menu
  | VB_MENU_TO_DEV => to_dev_menu
  | VB_MENU_LANGUAGES => languages_menu
  end.

(** Arithmetic on [uint32_t]. *)
Definition uint32 (x : Z) : Z := x mod 2 ^ 32.

(** One call of [VbExDisplayText]. *)
Record text_call := mk_text {
  tx_x : Z;
  tx_y : Z;
  tx_str : string;
  tx_highlight : Z
}.

(** The [for] loop of lines 347-352, with [count] passes left; [None] when
    [m[i]] is read past the end of the array. *)
Fixpoint print_items (m : list string) (count : nat)
         (i idx xindex yindex : Z) : option (list text_call) :=
  match count with
  | O => Some []
  | S count' =>
      match nth_error m (Z.to_nat i) with
      | None => None
      | Some s =>
          option_map
            (cons (mk_text xindex yindex s
                           (bool_of_int (if idx =? i then 1 else 0))))
            (print_items m count' (i + 1) idx xindex (uint32 (yindex + 1)))
      end
  end.

(** [vb2_print_current_menu], lines 328-355, as the calls of
    [VbExDisplayText] it makes: what [UiPrintMenu] stands for.  [dims] is
    what [VbExDisplayGetDimension] reports, two [uint32_t] values. *)
Definition print_current_menu_texts (dims : Z * Z) (s : menu_state)
  : option (list text_call) :=
  let size := snd (vb2_get_current_menu_size (current_menu s)) in
  let m := menu_array (current_menu s) in
  match nth_error m 0 with
  | None => None
  | Some first =>
      let xindex := uint32 (fst dims / 2 - Z.of_nat (length first) / 2) in
      let yindex := uint32 (snd dims / 2 - size / 2) in
      print_items m (Z.to_nat size) 0 (current_menu_idx s) xindex yindex
  end.

End MenuText.

(** ** Vocabulary of the further properties of the engine *)

(** [m] takes every state [s] to a state related to [s] by [R]. *)
Definition steps {S A} (R : S -> S -> Prop) (m : State S A) : Prop :=
  forall s, R s (snd (m s)).

(** The callbacks that only ask the EC or the AP firmware something. *)
Definition is_query (c : ec_call) : bool :=
  match c with
  | EcRunningRW _ | EcHashImage _ _ | EcGetExpectedImageHash _ _ => true
  | _ => false
  end.

(** The device a callback is addressed to, if any. *)
Definition call_device (c : ec_call) : option Z :=
  match c with
  | EcRunningRW d | EcHashImage d _ | EcGetExpectedImageHash d _
  | EcGetExpectedImage d _ | EcUpdateImage d _ _ | EcJumpToRW d
  | EcProtect d _ | EcDisableJump d => Some d
  | EcVbootDone _ | EcBatteryCutOff => None
  end.

Definition for_device (d : Z) (c : ec_call) : bool :=
  match call_device c with Some d' => d' =? d | None => true end.

(** A callback that reads, fetches or writes the RO image of a device
    other than the main EC. *)
Definition touches_pd_ro (c : ec_call) : bool :=
  match c with
  | EcHashImage d VB_SELECT_FIRMWARE_READONLY
  | EcGetExpectedImageHash d VB_SELECT_FIRMWARE_READONLY
  | EcGetExpectedImage d VB_SELECT_FIRMWARE_READONLY
  | EcUpdateImage d VB_SELECT_FIRMWARE_READONLY _ => nonzero d
  | _ => false
  end.

(** Between [w] and [w'] callbacks were only added, and each of them
    satisfies [p]. *)
Definition made_only (p : ec_call -> bool) (w w' : world) : Prop :=
  exists made, calls w' = calls w ++ made /\ forallb p made = true.

(** Every scratch bit set in [w] is still set in [w']. *)
Definition flags_grow (w w' : world) : Prop :=
  Z.land (sd_flags (ctx w)) (sd_flags (ctx w')) = sd_flags (ctx w).

(** The scratch flags of [w] and [w'] differ at most in the bits of
    [mask]. *)
Definition flags_within (mask : Z) (w w' : world) : Prop :=
  Z.ldiff (sd_flags (ctx w')) mask = Z.ldiff (sd_flags (ctx w)) mask.

Definition same_reason (w w' : world) : Prop :=
  sd_recovery_reason (ctx w') = sd_recovery_reason (ctx w).

Definition same_nv (w w' : world) : Prop := nv (ctx w') = nv (ctx w).

(** The platform never fails a query and its digests always have the
    length of the digests the AP firmware expects. *)
Definition queries_succeed (P : Platform) : Prop :=
  (forall h d, fst (VbExEcRunningRW P h d) = VBERROR_SUCCESS)
  /\ (forall h d s, fst (VbExEcHashImage P h d s) = VBERROR_SUCCESS)
  /\ (forall h d s, fst (VbExEcGetExpectedImageHash P h d s) = VBERROR_SUCCESS)
  /\ (forall h h' d s,
         length (snd (VbExEcHashImage P h d s))
         = length (snd (VbExEcGetExpectedImageHash P h' d s))).

(** The recovery reason is kept and scratch bits are only added. *)
Definition keeps_bits (w w' : world) : Prop :=
  same_reason w w' /\ flags_grow w w'.

(** From a normal-mode state, NV and the recovery reason are as before. *)
Definition quiet_in_normal_mode (w w' : world) : Prop :=
  sd_recovery_reason (ctx w) = 0 -> same_nv w w' /\ same_reason w w'.

(** A callback that leaves the RO image of the PD alone. *)
Definition leaves_pd_ro (c : ec_call) : bool := negb (touches_pd_ro c).

(** The NV key [k] is the key [a]. *)
Definition key_is (a k : vb2_nv_param) : bool :=
  if vb2_nv_param_eq_dec a k then true else false.

Definition no_key (k : vb2_nv_param) : bool := false.

(** Between [w] and [w'] the NV store was written at most at the keys of
    [free], with any value, and at the keys of [cleared], with 0. *)
Definition nv_writes (free cleared : vb2_nv_param -> bool) (w w' : world)
  : Prop :=
  forall k, free k = false ->
    nv (ctx w') k = nv (ctx w) k
    \/ (cleared k = true /\ nv (ctx w') k = 0).

(** ** Vocabulary of the further properties of the UI *)

(** Between [u] and [u'] calls were only added, and each of them satisfies
    [p]. *)
Definition ui_made_only (p : ui_call -> bool) (u u' : ui_state) : Prop :=
  exists made, ui_calls u' = ui_calls u ++ made /\ forallb p made = true.

(** The menus of the developer flow and of the recovery flow. *)
Definition dev_menu_family (m : VB_MENU) : bool :=
  match m with
  | VB_MENU_DEV_WARNING | VB_MENU_DEV | VB_MENU_TO_NORM => true
  | _ => false
  end.

Definition rec_menu_family (m : VB_MENU) : bool :=
  match m with
  | VB_MENU_RECOVERY | VB_MENU_TO_DEV => true
  | _ => false
  end.

(** The current menu belongs to the family, or it is the LANGUAGES menu
    entered from a menu of the family. *)
Definition in_flow (family : VB_MENU -> bool) (m : menu_state) : Prop :=
  family (current_menu m) = true
  \/ (current_menu m = VB_MENU_LANGUAGES /\ family (prev_menu m) = true).

(** The item under the cursor is the Power Off item of its menu. *)
Definition on_power_off (m : menu_state) : bool :=
  match current_menu m with
  | VB_MENU_DEV_WARNING => current_menu_idx m =? VB_WARN_POWER_OFF
  | VB_MENU_DEV => current_menu_idx m =? VB_DEV_POWER_OFF
  | VB_MENU_TO_NORM => current_menu_idx m =? VB_TO_NORM_POWER_OFF
  | VB_MENU_RECOVERY => current_menu_idx m =? VB_RECOVERY_POWER_OFF
  | VB_MENU_TO_DEV => current_menu_idx m =? VB_TO_DEV_POWER_OFF
  | VB_MENU_LANGUAGES => false
  end.

(** The three conditions on the shared flags under which the recovery
    menu may enable developer mode. *)
Definition may_enable_dev (shared_flags : Z) : bool :=
  nonzero (Z.land shared_flags VBSD_HONOR_VIRT_DEV_SWITCH)
  && negb (nonzero (Z.land shared_flags VBSD_BOOT_DEV_SWITCH_ON))
  && nonzero (Z.land shared_flags VBSD_BOOT_REC_SWITCH_ON).

(** An ENTER that Confirm accepts: it comes from a trusted keyboard, or
    the flags do not ask for one. *)
Definition accepted_enter (confirm_flags : Z) (p : confirm_poll) : Prop :=
  cp_key p = 13
  /\ (Z.land confirm_flags VB_CONFIRM_MUST_TRUST_KEYBOARD = 0
      \/ flag_set (cp_key_flags p) VB_KEY_FLAG_TRUSTED_KEYBOARD).

(** A key that refuses: ESC, or SPACE when the flags say so. *)
Definition refusing_key (confirm_flags : Z) (p : confirm_poll) : Prop :=
  cp_key p = 0x1b
  \/ (cp_key p = 32 /\ flag_set confirm_flags VB_CONFIRM_SPACE_MEANS_NO).

(** The physical recovery button is found held, on a pass whose key is none
    of ENTER, SPACE, ESC. *)
Definition rec_button_held (cparams : VbCommonParams) (p : confirm_poll)
  : Prop :=
  Z.land (shared_flags (shared_data_blob cparams)) VBSD_BOOT_REC_SWITCH_VIRTUAL
  = 0
  /\ cp_key p <> 13 /\ cp_key p <> 32 /\ cp_key p <> 0x1b
  /\ cp_button p <> 0.

(** A poll that by itself is no reason to end the dialogue: no shutdown is
    wanted, the key does not refuse and is no accepted ENTER. *)
Definition no_reason_yet (cparams : VbCommonParams) (confirm_flags : Z)
           (p : confirm_poll) : Prop :=
  VbWantShutdownMenu (gbb_flags cparams) (cp_shutdown_request p) = 0
  /\ ~ refusing_key confirm_flags p
  /\ ~ accepted_enter confirm_flags p.

(** Why Confirm may end with [rv] on the poll [p]; [held] says that the
    recovery button was found held on an earlier poll. *)
Definition confirm_reason (cparams : VbCommonParams) (confirm_flags rv : Z)
           (p : confirm_poll) (held : Prop) : Prop :=
  let shutdown :=
    VbWantShutdownMenu (gbb_flags cparams) (cp_shutdown_request p) in
  (rv = -1 /\ shutdown <> 0)
  \/ (rv = 0 /\ shutdown = 0 /\ refusing_key confirm_flags p)
  \/ (rv = 1 /\ shutdown = 0
      /\ (accepted_enter confirm_flags p
          \/ (rec_button_released cparams p /\ held))).

(** A property of the menu state that holds before holds after. *)
Definition menu_inv (I : menu_state -> Prop) (u u' : ui_state) : Prop :=
  I (menu u) -> I (menu u').

(** ** Vocabulary of the further properties of the two flows *)

(** Between [f] and [f'] calls were only added, and each of them satisfies
    [p]. *)
Definition flow_made_only (p : flow_call -> bool) (f f' : flow_state)
  : Prop :=
  exists made, fl_calls f' = fl_calls f ++ made /\ forallb p made = true.

Definition flow_menu_inv (I : menu_state -> Prop) (f f' : flow_state)
  : Prop :=
  I (fl_menu f) -> I (fl_menu f').

(** The two modes of [vb2_recovery_menu], by the test of lines 904-905. *)
Definition broken_recovery (cparams : VbCommonParams) : Prop :=
  Z.land (shared_flags (shared_data_blob cparams)) VBSD_BOOT_DEV_SWITCH_ON = 0
  /\ Z.land (shared_flags (shared_data_blob cparams)) VBSD_BOOT_REC_SWITCH_ON
     = 0.

Definition manual_recovery (cparams : VbCommonParams) : Prop :=
  flag_set (shared_flags (shared_data_blob cparams)) VBSD_BOOT_DEV_SWITCH_ON
  \/ flag_set (shared_flags (shared_data_blob cparams))
              VBSD_BOOT_REC_SWITCH_ON.

(** A flow entered with the initializers of the menu variables. *)
Definition flow_initial : flow_state := mk_flow initial_menu_state nv_zero [].

(** Parameters of a manual recovery: the recovery switch is on. *)
Definition cparams_manual : VbCommonParams :=
  mk_cparams (mk_shared VBSD_BOOT_REC_SWITCH_ON 0 0) 0.

(** What one pass of the developer loop may do to the NV store, and how it
    may end, when legacy boot is allowed as [allow_legacy] says: only the
    recovery request and the request to leave developer mode are written,
    the first only to clear it, the second only with REBOOT_REQUIRED. *)
Definition dev_pass_post (allow_legacy : Z) (r : loop_step)
           (nv nv' : nv_store) : Prop :=
  (forall k, k <> VB2_NV_RECOVERY_REQUEST ->
             k <> VB2_NV_DISABLE_DEV_REQUEST -> nv' k = nv k)
  /\ (nv' VB2_NV_RECOVERY_REQUEST = nv VB2_NV_RECOVERY_REQUEST
      \/ nv' VB2_NV_RECOVERY_REQUEST = VBNV_RECOVERY_NOT_REQUESTED)
  /\ ((r = StepReturn VBERROR_REBOOT_REQUIRED
       /\ nv' VB2_NV_DISABLE_DEV_REQUEST = 1)
      \/ (r <> StepReturn VBERROR_REBOOT_REQUIRED
          /\ nv' VB2_NV_DISABLE_DEV_REQUEST = nv VB2_NV_DISABLE_DEV_REQUEST))
  /\ (forall rv, r = StepReturn rv ->
        rv = VBERROR_SHUTDOWN_REQUESTED \/ rv = VBERROR_SUCCESS
        \/ rv = VBERROR_REBOOT_REQUIRED)
  /\ r <> StepContinue
  /\ (nonzero allow_legacy = false -> r <> StepLegacyBooted).

(** How the developer loop ended, as the way a pass ends: still running
    when the polls are used up. *)
Definition dev_exit_step (r : option dev_exit) : loop_step :=
  match r with
  | None => StepNext
  | Some (DevReturned rv) => StepReturn rv
  | Some (DevFallout _) => StepFallout
  | Some DevLegacyBooted => StepLegacyBooted
  end.

(** What the keys of the recovery menu may do to the NV store and how a
    pass may end: only the permission to boot from USB is written, and
    only with REBOOT_REQUIRED; a pass returns SHUTDOWN_REQUESTED, or, when
    the shared flags let the menu enable developer mode, the TPM error or
    REBOOT_REQUIRED. *)
Definition rec_key_post (shared_flags : Z) (r : option VbError_t)
           (nv nv' : nv_store) : Prop :=
  (forall k, k <> VB2_NV_DEV_BOOT_USB -> nv' k = nv k)
  /\ ((nv' VB2_NV_DEV_BOOT_USB = 1 /\ r = Some VBERROR_REBOOT_REQUIRED)
      \/ nv' VB2_NV_DEV_BOOT_USB = nv VB2_NV_DEV_BOOT_USB)
  /\ (forall rv, r = Some rv ->
        rv = VBERROR_SHUTDOWN_REQUESTED
        \/ ((rv = VBERROR_TPM_SET_BOOT_MODE_STATE
             \/ rv = VBERROR_REBOOT_REQUIRED)
            /\ may_enable_dev shared_flags = true)).

(** The code a key loop of the recovery menu returned, if it returned. *)
Definition scan_code (r : scan_end) : option VbError_t :=
  match r with ScanReturned rv => Some rv | _ => None end.

(** What the loop of the manual recovery may do to the NV store and how it
    may end: beside what its keys do, the recovery request is cleared, and
    the loop returns SUCCESS when a kernel was loaded. *)
Definition rec_loop_post (shared_flags : Z) (r : option VbError_t)
           (nv nv' : nv_store) : Prop :=
  (forall k, k <> VB2_NV_DEV_BOOT_USB -> k <> VB2_NV_RECOVERY_REQUEST ->
             nv' k = nv k)
  /\ (nv' VB2_NV_RECOVERY_REQUEST = nv VB2_NV_RECOVERY_REQUEST
      \/ nv' VB2_NV_RECOVERY_REQUEST = VBNV_RECOVERY_NOT_REQUESTED)
  /\ ((nv' VB2_NV_DEV_BOOT_USB = 1 /\ r = Some VBERROR_REBOOT_REQUIRED)
      \/ nv' VB2_NV_DEV_BOOT_USB = nv VB2_NV_DEV_BOOT_USB)
  /\ (forall rv, r = Some rv ->
        rv = VBERROR_SUCCESS
        \/ rv = VBERROR_SHUTDOWN_REQUESTED
        \/ ((rv = VBERROR_TPM_SET_BOOT_MODE_STATE
             \/ rv = VBERROR_REBOOT_REQUIRED)
            /\ may_enable_dev shared_flags = true)).

(** Calls by kind. *)
Definition not_removable_load (c : flow_call) : bool :=
  match c with FlowUi UiTryLoadKernelRemovable => false | _ => true end.

Definition not_legacy_call (c : flow_call) : bool :=
  match c with
  | FlowUi UiLegacy | FlowUi UiRollbackKernelLock => false
  | _ => true
  end.

Definition not_set_dev_mode (c : flow_call) : bool :=
  match c with FlowUi (UiSetVirtualDevMode _) => false | _ => true end.

(** No attempt to boot anything: no kernel load from either kind of disk
    and no legacy payload. *)
Definition not_boot_attempt (c : flow_call) : bool :=
  match c with
  | FlowUi UiLegacy | FlowUi UiRollbackKernelLock
  | FlowUi UiTryLoadKernelRemovable | FlowTryLoadKernelFixed => false
  | _ => true
  end.

(** What the broken screen does while it waits, and the blank screen that
    follows it. *)
Definition is_broken_wait (c : flow_call) : bool :=
  match c with
  | FlowCheckDisplayKey _ | FlowUi (UiSleepMs _)
  | FlowUi (UiDisplayScreen VB_SCREEN_BLANK) => true
  | _ => false
  end.

(** The part of a predicate on the calls of a flow that is about the
    calls of the UI. *)
Definition on_ui (p : flow_call -> bool) (c : ui_call) : bool := p (FlowUi c).

(** A returned code, or none, as the way a pass ends. *)
Definition code_step (r : option VbError_t) : loop_step :=
  match r with Some rv => StepReturn rv | None => StepNext end.

(** What the writes of the developer flow may do to the NV store, from
    [nv] to [nv'], and how the flow may end, when legacy boot is allowed
    as [allow_legacy] says, developer boot is disabled as [disabled] says
    and [fixed] is what the fixed disk answers.  What the load from the
    fixed disk writes is not counted here, see [dev_flow_load]. *)
Definition dev_flow_post (allow_legacy disabled : Z) (fixed : VbError_t)
           (r : option flow_exit) (nv nv' : nv_store) : Prop :=
  (forall k, k <> VB2_NV_RECOVERY_REQUEST ->
             k <> VB2_NV_DISABLE_DEV_REQUEST -> nv' k = nv k)
  /\ (nv' VB2_NV_RECOVERY_REQUEST = nv VB2_NV_RECOVERY_REQUEST
      \/ nv' VB2_NV_RECOVERY_REQUEST = VBNV_RECOVERY_NOT_REQUESTED)
  /\ (nv' VB2_NV_DISABLE_DEV_REQUEST = nv VB2_NV_DISABLE_DEV_REQUEST
      \/ (nv' VB2_NV_DISABLE_DEV_REQUEST = 1
          /\ r = Some (FlowReturned VBERROR_REBOOT_REQUIRED)))
  /\ (forall rv, r = Some (FlowReturned rv) ->
        rv = VBERROR_SHUTDOWN_REQUESTED \/ rv = VBERROR_SUCCESS
        \/ rv = VBERROR_REBOOT_REQUIRED \/ rv = fixed)
  /\ (nonzero allow_legacy = false -> r <> Some FlowLegacyBooted)
  /\ (nonzero disabled = true ->
      r = None \/ r = Some (FlowReturned VBERROR_REBOOT_REQUIRED)
      \/ r = Some (FlowReturned VBERROR_SHUTDOWN_REQUESTED)).

(** Every call but the load from the fixed disk. *)
Definition not_fixed_load (c : flow_call) : bool :=
  match c with FlowTryLoadKernelFixed => false | _ => true end.

(** How the developer flow ends with respect to the fixed disk, when it
    went from [f] to [f'] with the result [r] and its own writes left the
    NV storage [nv1].  Either the fixed disk was never asked and NV is
    [nv1]; or the load from the fixed disk was the last call before the
    blank screen, the flow returns its answer [fixed], and NV is what the
    load made of [nv1]. *)
Definition dev_flow_load (fixed : VbError_t) (load_nv : nv_store -> nv_store)
           (r : option flow_exit) (f f' : flow_state) (nv1 : nv_store)
  : Prop :=
  (fl_nv f' = nv1 /\ flow_made_only not_fixed_load f f')
  \/ (fl_nv f' = load_nv nv1
      /\ r = Some (FlowReturned fixed)
      /\ exists made,
           fl_calls f'
           = fl_calls f ++ made
             ++ [FlowTryLoadKernelFixed;
                 FlowUi (UiDisplayScreen VB_SCREEN_BLANK)]
           /\ forallb not_fixed_load made = true).

(** A load that failed and left a recovery request in NV. *)
Definition load_leaves_request (nv : nv_store) : nv_store :=
  vb2_nv_set nv VB2_NV_RECOVERY_REQUEST 0x5a.

Definition is_beep_or_sleep (c : ui_call) : bool :=
  match c with UiBeep _ _ | UiSleepMs _ => true | _ => false end.

(** Inputs of the developer flow used as concrete cases: NV with every
    key 0, one Confirm dialogue answered with ENTER, and the FWMP flag
    that disables developer boot. *)
Definition session_enter : list confirm_poll := [mk_confirm_poll 0 13 0 0].

(** Parameters of a recovery that was triggered by a failure: neither
    switch is on; the recovery reason is [0x5a]. *)
Definition cparams_broken : VbCommonParams :=
  mk_cparams (mk_shared 0 0 0x5a) 0.

(** Parameters of a manual recovery in which the virtual developer switch
    is honored, so that the menu may enable developer mode. *)
Definition cparams_manual_virt : VbCommonParams :=
  mk_cparams
    (mk_shared (Z.lor VBSD_BOOT_REC_SWITCH_ON VBSD_HONOR_VIRT_DEV_SWITCH) 0 0)
    0.

(** A poll of the recovery loop with a key, read from a trusted EC. *)
Definition rec_key_trusted (key : Z) : rec_poll := mk_rec_poll key 1 0 0 1 0.

(** A pass of the developer loop on which nothing happens: no shutdown is
    wanted, no key is read and the audio is still looping. *)
Definition idle_poll (gbb_flags : Z) (p : dev_poll) : Prop :=
  VbWantShutdownMenu gbb_flags (dp_shutdown_request p) = 0
  /\ dp_key p = 0 /\ dp_audio_looping p <> 0.

(** A pass on which Ctrl+D is read and no shutdown is wanted. *)
Definition ctrl_d_poll (gbb_flags : Z) (p : dev_poll) : Prop :=
  VbWantShutdownMenu gbb_flags (dp_shutdown_request p) = 0
  /\ dp_key p = 0x04.

(** Developer boot is not disabled: the FWMP does not ask for it, or the
    GBB forces the developer switch on. *)
Definition dev_boot_enabled (gbb_flags fwmp_flags : Z) : Prop :=
  Z.land fwmp_flags FWMP_DEV_DISABLE_BOOT = 0
  \/ flag_set gbb_flags GBB_FLAG_FORCE_DEV_SWITCH_ON.

(** Parameters and NV of a machine whose default boot target is USB and
    on which USB and legacy boot are allowed. *)
Definition nv_usb_default : nv_store :=
  fun k =>
    match k with
    | VB2_NV_DEV_BOOT_USB | VB2_NV_DEV_BOOT_LEGACY => 1
    | VB2_NV_DEV_DEFAULT_BOOT => VBNV_DEV_DEFAULT_BOOT_USB
    | _ => 0
    end.

(** The column and the first row of the text of a menu on a display of
    the dimensions [dims], as [vb2_print_current_menu] computes them. *)
Definition text_column (dims : Z * Z) (menu : VB_MENU) : Z :=
  MenuText.uint32
    (fst dims / 2
     - Z.of_nat (String.length (hd String.EmptyString
                                   (MenuText.menu_array menu))) / 2).

Definition text_row (dims : Z * Z) (menu : VB_MENU) (k : nat) : Z :=
  MenuText.uint32
    (snd dims / 2 - snd (vb2_get_current_menu_size menu) / 2 + Z.of_nat k).

(** The text is drawn highlighted. *)
Definition highlighted (t : MenuText.text_call) : bool :=
  nonzero (MenuText.tx_highlight t).

(** The developer menu with the cursor on "Boot USB Image". *)
Definition menu_on_dev_usb : menu_state :=
  mk_menu VB_MENU_DEV VB_MENU_DEV_WARNING VB_DEV_USB 0
          VB2_DEV_DEFAULT_BOOT_DISK.

(** ** Basic facts *)

Lemma nonzero_true (x : Z) : nonzero x = true <-> x <> 0.
Proof.
  unfold nonzero. rewrite negb_true_iff, Z.eqb_neq. reflexivity.
Qed.

Lemma nonzero_false (x : Z) : nonzero x = false <-> x = 0.
Proof.
  unfold nonzero. rewrite negb_false_iff, Z.eqb_eq. reflexivity.
Qed.

Lemma flag_set_lor (flags a b : Z) :
  flag_set flags (Z.lor a b) <-> flag_set flags a \/ flag_set flags b.
Proof.
  unfold flag_set. rewrite Z.land_lor_distr_r, Z.lor_eq_0_iff.
  destruct (Z.eq_dec (Z.land flags a) 0), (Z.eq_dec (Z.land flags b) 0);
    intuition congruence.
Qed.

Lemma vb2_nv_get_set_same (nv0 : nv_store) (k : vb2_nv_param) (v : Z) :
  vb2_nv_get (vb2_nv_set nv0 k v) k = v.
Proof.
  unfold vb2_nv_get, vb2_nv_set.
  destruct (vb2_nv_param_eq_dec k k); congruence.
Qed.

Lemma vb2_nv_get_set_other (nv0 : nv_store) (k k' : vb2_nv_param) (v : Z) :
  k <> k' -> vb2_nv_get (vb2_nv_set nv0 k v) k' = vb2_nv_get nv0 k'.
Proof.
  unfold vb2_nv_get, vb2_nv_set. intros Hk.
  destruct (vb2_nv_param_eq_dec k k'); congruence.
Qed.

(** ** ec_will_update_slowly *)

(** C10: [ec_will_update_slowly] returns true (1, and otherwise 0) exactly
    when at least one of the needs-update bits EC_RO, EC_RW, PD_RW is set
    in the scratch flags and the EC_SLOW_UPDATE shared flag is set; it
    leaves the whole state as it found it, and its result does not depend
    on the NV store (nor on the recovery reason or on the callbacks made
    before). *)
Theorem ec_will_update_slowly_iff (cparams : VbCommonParams) (w : world) :
  let r := ec_will_update_slowly cparams w in
  snd r = w
  /\ (fst r = 0 \/ fst r = 1)
  /\ (fst r <> 0 <->
      (flag_set (sd_flags (ctx w)) VB2_SD_FLAG_ECSYNC_EC_RO
       \/ flag_set (sd_flags (ctx w)) VB2_SD_FLAG_ECSYNC_EC_RW
       \/ flag_set (sd_flags (ctx w)) VB2_SD_FLAG_ECSYNC_PD_RW)
      /\ flag_set (shared_flags (shared_data_blob cparams))
                  VBSD_EC_SLOW_UPDATE)
  /\ (forall (nv' : nv_store) (reason' : Z) (calls' : list ec_call),
        fst (ec_will_update_slowly cparams
               (mk_world (mk_ctx (sd_flags (ctx w)) reason' nv') calls'))
        = fst r).
Proof.
  unfold ec_will_update_slowly, bind, ret, get_sd_flags. cbn [fst snd ctx sd_flags].
  split; [reflexivity|].
  assert (Hany : flag_set (sd_flags (ctx w)) VB2_SD_FLAG_ECSYNC_ANY <->
                 flag_set (sd_flags (ctx w)) VB2_SD_FLAG_ECSYNC_EC_RO
                 \/ flag_set (sd_flags (ctx w)) VB2_SD_FLAG_ECSYNC_EC_RW
                 \/ flag_set (sd_flags (ctx w)) VB2_SD_FLAG_ECSYNC_PD_RW).
  { unfold VB2_SD_FLAG_ECSYNC_ANY, VB2_SD_FLAG_ECSYNC_RW.
    rewrite !flag_set_lor. reflexivity. }
  rewrite <- Hany. unfold flag_set.
  destruct (nonzero (Z.land (sd_flags (ctx w)) VB2_SD_FLAG_ECSYNC_ANY)) eqn:Ha;
    destruct (nonzero (Z.land (shared_flags (shared_data_blob cparams))
                              VBSD_EC_SLOW_UPDATE)) eqn:Hs;
    cbn [andb];
    try apply nonzero_true in Ha; try apply nonzero_false in Ha;
    try apply nonzero_true in Hs; try apply nonzero_false in Hs.
  all: split; [auto|]; split; [|reflexivity].
  all: split; [intros H|intros [H1 H2]]; try lia; try tauto; try discriminate.
  all: try (split; assumption); congruence.
Qed.

(** ** The engine when sync is off or the boot is in recovery mode *)

(** Unfolding of the monad and of the accessors of the engine's state. *)
Ltac unfold_ec :=
  unfold or_return, request_recovery, nv_set, nv_get, get_recovery_reason,
    set_sd_flags, get_sd_flags, callback, bind, ret in *;
  cbn [fst snd ctx calls sd_flags sd_recovery_reason nv] in *.

Lemma phase1_when_disabled (P : Platform) (PD_SYNC : bool)
      (cparams : VbCommonParams) (w : world) :
  sync_disabled cparams ->
  ec_sync_phase1 P PD_SYNC cparams w = (VBERROR_SUCCESS, w).
Proof.
  intros [Hoff | Hgbb]; unfold ec_sync_phase1.
  - apply nonzero_false in Hoff. rewrite Hoff. reflexivity.
  - apply nonzero_true in Hgbb. rewrite Hgbb.
    destruct (negb _); reflexivity.
Qed.

Lemma phase2_when_disabled (P : Platform) (PD_SYNC : bool)
      (cparams : VbCommonParams) (w : world) :
  sync_disabled cparams ->
  ec_sync_phase2 P PD_SYNC cparams w = (VBERROR_SUCCESS, w).
Proof.
  intros [Hoff | Hgbb]; unfold ec_sync_phase2.
  - apply nonzero_false in Hoff. rewrite Hoff. reflexivity.
  - apply nonzero_true in Hgbb. rewrite Hgbb.
    destruct (negb _); reflexivity.
Qed.

(** What phase 3 does, case by case. *)
Lemma phase3_cases (P : Platform) (cparams : VbCommonParams) (w : world) :
  let in_recovery :=
    bool_of_int (shared_recovery_reason (shared_data_blob cparams)) in
  let done_rv := VbExEcVbootDone P (calls w) in_recovery in
  let cutoff := vb2_nv_get (nv (ctx w)) VB2_NV_BATTERY_CUTOFF_REQUEST in
  ec_sync_phase3 P cparams w =
  if nonzero done_rv then
    (done_rv, mk_world (ctx w) (calls w ++ [EcVbootDone in_recovery]))
  else if nonzero cutoff then
    (VBERROR_SHUTDOWN_REQUESTED,
     mk_world (mk_ctx (sd_flags (ctx w)) (sd_recovery_reason (ctx w))
                      (vb2_nv_set (nv (ctx w)) VB2_NV_BATTERY_CUTOFF_REQUEST 0))
              (calls w ++ [EcVbootDone in_recovery; EcBatteryCutOff]))
  else
    (VBERROR_SUCCESS, mk_world (ctx w) (calls w ++ [EcVbootDone in_recovery])).
Proof.
  intros in_recovery done_rv cutoff.
  unfold ec_sync_phase3. unfold_ec.
  fold in_recovery. fold done_rv.
  destruct (nonzero done_rv); [reflexivity|].
  cbn [ctx nv]. fold cutoff. destruct (nonzero cutoff); [|reflexivity].
  cbn [ctx calls sd_flags sd_recovery_reason nv].
  rewrite <- app_assoc. reflexivity.
Qed.

(** C3: when the EC_SOFTWARE_SYNC shared flag is clear or the
    DISABLE_EC_SOFTWARE_SYNC GBB flag is set, phases 1 and 2 return SUCCESS
    at once and leave the whole state (scratch flags, NV store, history of
    callbacks) as it was, so they make no callback at all; and the
    callbacks phase 3 makes include no image update, protect, jump or
    disable-jump. *)
Theorem sync_disabled_no_flash_write (P : Platform) (PD_SYNC : bool)
        (cparams : VbCommonParams) (w : world) :
  sync_disabled cparams ->
  ec_sync_phase1 P PD_SYNC cparams w = (VBERROR_SUCCESS, w)
  /\ ec_sync_phase2 P PD_SYNC cparams w = (VBERROR_SUCCESS, w)
  /\ exists made,
       calls (snd (ec_sync_phase3 P cparams w)) = calls w ++ made
       /\ none_of is_flash_write made.
Proof.
  intros Hdis. split; [|split].
  - apply phase1_when_disabled, Hdis.
  - apply phase2_when_disabled, Hdis.
  - rewrite phase3_cases.
    repeat match goal with |- context [if ?b then _ else _] => destruct b end;
      cbn [snd calls]; eexists; (split; [reflexivity|]); reflexivity.
Qed.

Lemma sync_disabled_no_flash_write_witness :
  sync_disabled cparams_sync_off
  /\ ec_sync_phase1 healthy_platform true cparams_sync_off
       (world_of VB2_SD_FLAG_ECSYNC_EC_RW 0 nv_zero)
     = (VBERROR_SUCCESS, world_of VB2_SD_FLAG_ECSYNC_EC_RW 0 nv_zero).
Proof.
  split.
  - left. reflexivity.
  - apply (sync_disabled_no_flash_write healthy_platform true cparams_sync_off).
    left. reflexivity.
Defined.

(** C5: in recovery mode (non-zero recovery reason) phase 2 returns SUCCESS
    at once and leaves the whole state as it was: scratch flags and NV store
    are unchanged and the history of callbacks has not grown, so no
    callback of any kind was made. *)
Theorem phase2_recovery_noop (P : Platform) (PD_SYNC : bool)
        (cparams : VbCommonParams) (w : world) :
  sd_recovery_reason (ctx w) <> 0 ->
  ec_sync_phase2 P PD_SYNC cparams w = (VBERROR_SUCCESS, w).
Proof.
  intros Hrec. apply nonzero_true in Hrec.
  unfold ec_sync_phase2.
  destruct (negb _); [reflexivity|].
  destruct (nonzero (Z.land (gbb_flags cparams) _)); [reflexivity|].
  unfold_ec. rewrite Hrec. reflexivity.
Qed.

Lemma phase2_recovery_noop_witness :
  sd_recovery_reason (ctx (world_of VB2_SD_FLAG_ECSYNC_ANY 0x12 nv_zero)) <> 0
  /\ ec_sync_phase2 healthy_platform true cparams_sync_on
       (world_of VB2_SD_FLAG_ECSYNC_ANY 0x12 nv_zero)
     = (VBERROR_SUCCESS, world_of VB2_SD_FLAG_ECSYNC_ANY 0x12 nv_zero).
Proof.
  split.
  - cbn. lia.
  - apply (phase2_recovery_noop healthy_platform true cparams_sync_on).
    cbn. lia.
Defined.

(** ** Phase 3 *)

(** C7 as stated fails: with the vboot-done notification failing and NV
    BATTERY_CUTOFF_REQUEST zero, phase 3 does not return SUCCESS; it
    returns the error of the notification. *)
Lemma phase3_error_with_zero_cutoff :
  vb2_nv_get (nv (ctx (world_of 0 0 nv_zero))) VB2_NV_BATTERY_CUTOFF_REQUEST
  = 0
  /\ fst (ec_sync_phase3 deaf_platform cparams_sync_on (world_of 0 0 nv_zero))
     = VBERROR_UNKNOWN
  /\ fst (ec_sync_phase3 deaf_platform cparams_sync_on (world_of 0 0 nv_zero))
     <> VBERROR_SUCCESS.
Proof.
  split; [reflexivity | split; [reflexivity | discriminate]].
Qed.

(** C7: phase 3 first calls vboot-done with the recovery-mode flag, which
    is 1 when the recovery reason of the shared data is non-zero and 0
    when it is zero.  If that call fails, its error is returned and
    nothing else happens, whatever NV BATTERY_CUTOFF_REQUEST holds.  If it
    succeeds and NV BATTERY_CUTOFF_REQUEST is non-zero, that key is set to
    0 (the other keys and the scratch flags keep their values),
    battery-cutoff is called, and the result is SHUTDOWN_REQUESTED.  If it
    succeeds and the key is zero, the result is SUCCESS and the context is
    unchanged.  In every case the first callback made is vboot-done, so
    battery-cutoff never comes before it. *)
Theorem phase3_vboot_done_then_cutoff (P : Platform)
        (cparams : VbCommonParams) (w : world) :
  let in_recovery :=
    if shared_recovery_reason (shared_data_blob cparams) =? 0 then 0 else 1 in
  let done_rv := VbExEcVbootDone P (calls w) in_recovery in
  let cutoff := vb2_nv_get (nv (ctx w)) VB2_NV_BATTERY_CUTOFF_REQUEST in
  let r := ec_sync_phase3 P cparams w in
  exists rest,
    calls (snd r) = calls w ++ EcVbootDone in_recovery :: rest
    /\ if done_rv =? VBERROR_SUCCESS then
         if cutoff =? 0 then
           fst r = VBERROR_SUCCESS /\ rest = [] /\ ctx (snd r) = ctx w
         else
           fst r = VBERROR_SHUTDOWN_REQUESTED
           /\ rest = [EcBatteryCutOff]
           /\ vb2_nv_get (nv (ctx (snd r))) VB2_NV_BATTERY_CUTOFF_REQUEST = 0
           /\ (forall k, k <> VB2_NV_BATTERY_CUTOFF_REQUEST ->
                         vb2_nv_get (nv (ctx (snd r))) k
                         = vb2_nv_get (nv (ctx w)) k)
           /\ sd_flags (ctx (snd r)) = sd_flags (ctx w)
       else
         fst r = done_rv /\ fst r <> VBERROR_SUCCESS
         /\ rest = [] /\ ctx (snd r) = ctx w.
Proof.
  intros in_recovery done_rv cutoff r. subst r.
  assert (Hflag : bool_of_int (shared_recovery_reason (shared_data_blob cparams))
                  = in_recovery).
  { unfold bool_of_int, nonzero, in_recovery.
    destruct (shared_recovery_reason (shared_data_blob cparams) =? 0);
      reflexivity. }
  rewrite phase3_cases. rewrite Hflag. fold done_rv. fold cutoff.
  unfold nonzero, VBERROR_SUCCESS.
  destruct (done_rv =? 0) eqn:Hd; [destruct (cutoff =? 0) |];
    cbn [negb fst snd calls ctx nv sd_flags].
  - exists []. auto.
  - exists [EcBatteryCutOff].
    split; [reflexivity|]. split; [reflexivity|]. split; [reflexivity|].
    split; [apply vb2_nv_get_set_same|]. split; [|reflexivity].
    intros k Hk. apply vb2_nv_get_set_other. congruence.
  - apply Z.eqb_neq in Hd. exists []. auto.
Qed.

Lemma phase3_vboot_done_then_cutoff_witness :
  exists rest,
    calls (snd (ec_sync_phase3 healthy_platform cparams_in_recovery
                               (world_of 0 0 nv_zero)))
    = calls (world_of 0 0 nv_zero) ++ EcVbootDone 1 :: rest
    /\ fst (ec_sync_phase3 healthy_platform cparams_in_recovery
                           (world_of 0 0 nv_zero)) = VBERROR_SUCCESS
    /\ rest = []
    /\ ctx (snd (ec_sync_phase3 healthy_platform cparams_in_recovery
                                (world_of 0 0 nv_zero)))
       = ctx (world_of 0 0 nv_zero).
Proof.
  exact (phase3_vboot_done_then_cutoff healthy_platform cparams_in_recovery
           (world_of 0 0 nv_zero)).
Defined.

(** ** Phase 1 in recovery mode *)

(** [check_ec_active] in recovery mode: one query, the IN_RW bit noted,
    and a reboot request exactly when the query reported RW. *)
Lemma check_ec_active_recovery (P : Platform) (devidx : Z) (w : world) :
  sd_recovery_reason (ctx w) <> 0 ->
  let answer := VbExEcRunningRW P (calls w) devidx in
  check_ec_active P devidx w =
  (if reports_rw answer then VBERROR_EC_REBOOT_TO_RO_REQUIRED
   else VBERROR_SUCCESS,
   mk_world
     (mk_ctx (if nonzero (snd answer)
              then Z.lor (sd_flags (ctx w)) (IN_RW devidx)
              else sd_flags (ctx w))
             (sd_recovery_reason (ctx w))
             (if reports_rw answer
              then vb2_nv_set (nv (ctx w)) VB2_NV_RECOVERY_REQUEST
                              (sd_recovery_reason (ctx w))
              else nv (ctx w)))
     (calls w ++ [EcRunningRW devidx])).
Proof.
  intros Hrec answer. apply nonzero_true in Hrec.
  unfold check_ec_active, reports_rw. unfold_ec. fold answer.
  destruct answer as [rv in_rw]. cbn [fst snd].
  destruct (nonzero in_rw); cbn [ctx sd_recovery_reason sd_flags nv calls];
    rewrite Hrec;
    destruct ((rv =? VBERROR_SUCCESS) && (in_rw =? 1));
    cbn [ctx sd_recovery_reason sd_flags nv calls]; try reflexivity;
    destruct w as [[f r n] h]; reflexivity.
Qed.

(** Phase 1 in recovery mode is the one or two running-image checks. *)
Lemma phase1_recovery_cases (P : Platform) (PD_SYNC : bool)
      (cparams : VbCommonParams) (w : world) :
  sd_recovery_reason (ctx w) <> 0 ->
  sync_enabled cparams ->
  let ec := VbExEcRunningRW P (calls w) 0 in
  let pd := VbExEcRunningRW P (calls w ++ [EcRunningRW 0]) 1 in
  let w0 := snd (check_ec_active P 0 w) in
  let w1 := snd (check_ec_active P 1 w0) in
  ec_sync_phase1 P PD_SYNC cparams w =
  if reports_rw ec then (VBERROR_EC_REBOOT_TO_RO_REQUIRED, w0)
  else if do_pd_sync PD_SYNC cparams then
         if reports_rw pd then (VBERROR_EC_REBOOT_TO_RO_REQUIRED, w1)
         else (VBERROR_SUCCESS, w1)
       else (VBERROR_SUCCESS, w0).
Proof.
  intros Hrec [Hon Hgbb] ec pd w0 w1. subst w1 w0.
  apply nonzero_true in Hon. apply nonzero_false in Hgbb.
  unfold ec_sync_phase1. rewrite Hon, Hgbb. cbn [negb].
  unfold bind at 1. rewrite (check_ec_active_recovery P 0 w Hrec).
  fold ec. cbn [snd]. destruct (reports_rw ec) eqn:Hec.
  - reflexivity.
  - change (nonzero VBERROR_SUCCESS) with false. cbv iota.
    apply nonzero_true in Hrec.
    destruct (do_pd_sync PD_SYNC cparams).
    + unfold bind at 1.
      rewrite check_ec_active_recovery
        by (cbn [ctx sd_recovery_reason]; apply nonzero_true; exact Hrec).
      cbn [calls ctx sd_flags sd_recovery_reason nv snd]. fold pd.
      destruct (reports_rw pd) eqn:Hpd.
      * reflexivity.
      * change (nonzero VBERROR_SUCCESS) with false. cbv iota.
        unfold_ec. rewrite Hrec. reflexivity.
    + unfold_ec. change (nonzero VBERROR_SUCCESS) with false. cbv iota.
      cbn [ctx sd_recovery_reason]. rewrite Hrec. reflexivity.
Qed.

(** C4: in recovery mode with sync enabled, phase 1 makes no hash,
    expected-hash, expected-image or update callback.  If the
    running-image query of a device it checks (the EC, and the PD when PD
    sync is configured and the EC did not ask for a reboot) succeeds and
    reports RW, phase 1 writes the recovery reason of this boot to NV
    RECOVERY_REQUEST and returns REBOOT_TO_RO_REQUIRED; in every other case
    (RO reported, or the query failed) it returns SUCCESS and leaves the NV
    store as it was. *)
Theorem phase1_recovery_mode (P : Platform) (PD_SYNC : bool)
        (cparams : VbCommonParams) (w : world) :
  sd_recovery_reason (ctx w) <> 0 ->
  sync_enabled cparams ->
  let r := ec_sync_phase1 P PD_SYNC cparams w in
  let ec := VbExEcRunningRW P (calls w) 0 in
  let pd := VbExEcRunningRW P (calls w ++ [EcRunningRW 0]) 1 in
  (exists made,
     calls (snd r) = calls w ++ made /\ none_of is_hash_or_update made)
  /\ if reports_rw ec || (do_pd_sync PD_SYNC cparams && reports_rw pd)
     then fst r = VBERROR_EC_REBOOT_TO_RO_REQUIRED
          /\ vb2_nv_get (nv (ctx (snd r))) VB2_NV_RECOVERY_REQUEST
             = sd_recovery_reason (ctx w)
     else fst r = VBERROR_SUCCESS /\ nv (ctx (snd r)) = nv (ctx w).
Proof.
  intros Hrec Hon r ec pd. subst r.
  rewrite (phase1_recovery_cases P PD_SYNC cparams w Hrec Hon).
  rewrite (check_ec_active_recovery P 0 w Hrec). fold ec.
  cbn [snd].
  rewrite check_ec_active_recovery by exact Hrec.
  cbn [calls ctx sd_flags sd_recovery_reason nv snd]. fold pd.
  destruct (reports_rw ec) eqn:Hec; cbn [orb fst snd calls ctx nv].
  - split.
    + exists [EcRunningRW 0]. split; reflexivity.
    + split; [reflexivity | apply vb2_nv_get_set_same].
  - destruct (do_pd_sync PD_SYNC cparams); cbn [andb].
    + destruct (reports_rw pd) eqn:Hpd; cbn [fst snd calls ctx nv]; split;
        try (exists [EcRunningRW 0; EcRunningRW 1];
             rewrite <- app_assoc; split; reflexivity).
      * split; [reflexivity | apply vb2_nv_get_set_same].
      * split; reflexivity.
    + split.
      * exists [EcRunningRW 0]. split; reflexivity.
      * split; reflexivity.
Qed.

Lemma phase1_recovery_mode_witness :
  sd_recovery_reason (ctx (world_of 0 0x12 nv_zero)) <> 0
  /\ sync_enabled cparams_sync_on
  /\ fst (ec_sync_phase1 in_rw_platform false cparams_sync_on
            (world_of 0 0x12 nv_zero))
     = VBERROR_EC_REBOOT_TO_RO_REQUIRED
  /\ vb2_nv_get
       (nv (ctx (snd (ec_sync_phase1 in_rw_platform false cparams_sync_on
                        (world_of 0 0x12 nv_zero)))))
       VB2_NV_RECOVERY_REQUEST = 0x12.
Proof.
  assert (Hrec : sd_recovery_reason (ctx (world_of 0 0x12 nv_zero)) <> 0)
    by (cbn; lia).
  assert (Hon : sync_enabled cparams_sync_on)
    by (split; [cbv; discriminate | reflexivity]).
  split; [exact Hrec|]. split; [exact Hon|].
  exact (proj2 (phase1_recovery_mode in_rw_platform false cparams_sync_on
                  (world_of 0 0x12 nv_zero) Hrec Hon)).
Defined.

(** ** Phase 2: the RO update and its retries *)

(** The loop of two attempts, by the results of the attempts. *)
Lemma ro_update_loop_two (P : Platform) (devidx : Z) (w : world) :
  let try1 := update_ec P devidx VB_SELECT_FIRMWARE_READONLY w in
  let try2 := update_ec P devidx VB_SELECT_FIRMWARE_READONLY (snd try1) in
  ro_update_loop P RO_RETRIES 0 devidx w =
  if fst try1 =? VBERROR_SUCCESS then (0, snd try1)
  else if fst try2 =? VBERROR_SUCCESS then (1, snd try2)
  else (2, snd try2).
Proof.
  intros try1 try2. subst try2 try1.
  unfold RO_RETRIES, ro_update_loop, bind, ret.
  destruct (update_ec P devidx VB_SELECT_FIRMWARE_READONLY w) as [rv1 w1].
  cbn [fst snd]. destruct (rv1 =? VBERROR_SUCCESS); [reflexivity|].
  destruct (update_ec P devidx VB_SELECT_FIRMWARE_READONLY w1) as [rv2 w2].
  cbn [fst snd]. destruct (rv2 =? VBERROR_SUCCESS); reflexivity.
Qed.

(** C6: let the RO-update step of [sync_one_ec] be reached (the RW-update
    and jump steps fell through) with EC_RO_NEEDS_UPDATE set, and let the
    first RO update attempt fail.  If the second attempt succeeds, the step
    falls through and NV RECOVERY_REQUEST after the step equals its value
    right after TRY_RO_SYNC was cleared, which is its value when the step
    was entered.  If the second attempt fails too, the step returns
    REBOOT_TO_RO_REQUIRED and so does [sync_one_ec]. *)
Theorem ro_update_retry_restores_recovery_request
        (P : Platform) (devidx : Z) (cparams : VbCommonParams)
        (w0 wa w : world) :
  sync_rw_update P devidx (select_rw_of cparams) w0 = (None, wa) ->
  sync_jump_to_rw P devidx wa = (None, w) ->
  flag_set (sd_flags (ctx w)) VB2_SD_FLAG_ECSYNC_EC_RO ->
  let w1 := snd (nv_set VB2_NV_TRY_RO_SYNC 0 w) in
  let try1 := update_ec P devidx VB_SELECT_FIRMWARE_READONLY w1 in
  let try2 := update_ec P devidx VB_SELECT_FIRMWARE_READONLY (snd try1) in
  fst try1 <> VBERROR_SUCCESS ->
  let step := sync_ro_update P devidx w in
  if fst try2 =? VBERROR_SUCCESS then
    fst step = None
    /\ vb2_nv_get (nv (ctx (snd step))) VB2_NV_RECOVERY_REQUEST
       = vb2_nv_get (nv (ctx w1)) VB2_NV_RECOVERY_REQUEST
    /\ vb2_nv_get (nv (ctx w1)) VB2_NV_RECOVERY_REQUEST
       = vb2_nv_get (nv (ctx w)) VB2_NV_RECOVERY_REQUEST
    /\ vb2_nv_get (nv (ctx w1)) VB2_NV_TRY_RO_SYNC = 0
  else
    fst step = Some VBERROR_EC_REBOOT_TO_RO_REQUIRED
    /\ fst (sync_one_ec P devidx cparams w0)
       = VBERROR_EC_REBOOT_TO_RO_REQUIRED.
Proof.
  intros Hrw Hjump Hro w1 try1 try2 Hfail step.
  apply nonzero_true in Hro. apply Z.eqb_neq in Hfail.
  assert (Hstep : step =
            if fst try2 =? VBERROR_SUCCESS then
              (None,
               snd (request_recovery
                      (vb2_nv_get (nv (ctx w1)) VB2_NV_RECOVERY_REQUEST)
                      (snd try2)))
            else (Some VBERROR_EC_REBOOT_TO_RO_REQUIRED, snd try2)).
  { subst step. unfold sync_ro_update.
    unfold bind at 1. unfold get_sd_flags at 1. rewrite Hro.
    unfold bind at 1. change (nv_set VB2_NV_TRY_RO_SYNC 0 w) with (tt, w1).
    unfold bind at 1. unfold nv_get at 1.
    unfold bind at 1. rewrite ro_update_loop_two.
    fold try1. fold try2. rewrite Hfail.
    destruct (fst try2 =? VBERROR_SUCCESS); reflexivity. }
  rewrite Hstep. destruct (fst try2 =? VBERROR_SUCCESS) eqn:H2.
  - cbn [fst snd]. split; [reflexivity|]. split; [|split].
    + unfold request_recovery, nv_set. cbn [snd ctx nv].
      apply vb2_nv_get_set_same.
    + subst w1. unfold nv_set. cbn [snd ctx nv].
      apply vb2_nv_get_set_other. discriminate.
    + subst w1. unfold nv_set. cbn [snd ctx nv].
      apply vb2_nv_get_set_same.
  - cbn [fst]. split; [reflexivity|].
    unfold sync_one_ec, or_return.
    unfold bind at 1. rewrite Hrw.
    unfold bind at 1. rewrite Hjump.
    unfold bind at 1. fold step. rewrite Hstep. reflexivity.
Qed.

Lemma ro_update_retry_restores_recovery_request_witness :
  sync_rw_update flaky_platform 0 (select_rw_of cparams_sync_on)
                 world_ro_pending = (None, world_ro_pending)
  /\ sync_jump_to_rw flaky_platform 0 world_ro_pending = (None, world_ro_step)
  /\ flag_set (sd_flags (ctx world_ro_step)) VB2_SD_FLAG_ECSYNC_EC_RO
  /\ fst (update_ec flaky_platform 0 VB_SELECT_FIRMWARE_READONLY
            (snd (nv_set VB2_NV_TRY_RO_SYNC 0 world_ro_step)))
     <> VBERROR_SUCCESS
  /\ fst (sync_ro_update flaky_platform 0 world_ro_step) = None
  /\ vb2_nv_get (nv (ctx (snd (sync_ro_update flaky_platform 0
                                 world_ro_step))))
                VB2_NV_RECOVERY_REQUEST = 5.
Proof.
  assert (H1 : sync_rw_update flaky_platform 0 (select_rw_of cparams_sync_on)
                 world_ro_pending = (None, world_ro_pending))
    by reflexivity.
  assert (H2 : sync_jump_to_rw flaky_platform 0 world_ro_pending
               = (None, world_ro_step)) by reflexivity.
  assert (H3 : flag_set (sd_flags (ctx world_ro_step))
                        VB2_SD_FLAG_ECSYNC_EC_RO)
    by (cbv; discriminate).
  assert (H4 : fst (update_ec flaky_platform 0 VB_SELECT_FIRMWARE_READONLY
                      (snd (nv_set VB2_NV_TRY_RO_SYNC 0 world_ro_step)))
               <> VBERROR_SUCCESS)
    by (cbv; discriminate).
  split; [exact H1|]. split; [exact H2|]. split; [exact H3|].
  split; [exact H4|].
  pose proof (ro_update_retry_restores_recovery_request
                flaky_platform 0 cparams_sync_on
                world_ro_pending world_ro_pending world_ro_step
                H1 H2 H3 H4) as H.
  cbv zeta in H.
  change (fst (update_ec flaky_platform 0 VB_SELECT_FIRMWARE_READONLY
                 (snd (update_ec flaky_platform 0 VB_SELECT_FIRMWARE_READONLY
                         (snd (nv_set VB2_NV_TRY_RO_SYNC 0 world_ro_step)))))
          =? VBERROR_SUCCESS) with true in H.
  cbv iota in H. destruct H as [Ha [Hb _]].
  split; [exact Ha | exact Hb].
Defined.

(** ** Phase 2: which device gets its RW image updated *)

(** The RW-update step of [sync_one_ec] tests the mask of both RW bits. *)
Lemma sync_rw_update_runs_iff (P : Platform) (devidx : Z)
      (select_rw : VbSelectFirmware_t) (w : world) :
  sync_rw_update P devidx select_rw w =
  if nonzero (Z.land (sd_flags (ctx w)) VB2_SD_FLAG_ECSYNC_RW) then
    let r := update_ec P devidx select_rw w in
    (if negb (fst r =? VBERROR_SUCCESS)
     then Some VBERROR_EC_REBOOT_TO_RO_REQUIRED else None, snd r)
  else (None, w).
Proof.
  unfold sync_rw_update. unfold_ec.
  destruct (nonzero _); [|reflexivity].
  destruct (update_ec P devidx select_rw w) as [rv w'].
  cbn [fst snd]. destruct (negb _); reflexivity.
Qed.

Lemma grows_ret {A} (a : A) : grows (ret a).
Proof. intros w. exists []. cbn. rewrite app_nil_r. reflexivity. Qed.

Lemma grows_bind {A B} (m : M A) (k : A -> M B) :
  grows m -> (forall a, grows (k a)) -> grows (bind m k).
Proof.
  intros Hm Hk w. unfold bind.
  destruct (Hm w) as [made1 H1]. destruct (m w) as [a w1]. cbn [snd] in *.
  destruct (Hk a w1) as [made2 H2]. exists (made1 ++ made2).
  rewrite H2, H1, app_assoc. reflexivity.
Qed.

Lemma grows_callback {A} (answer : list ec_call -> A) (c : ec_call) :
  grows (callback answer c).
Proof. intros w. exists [c]. reflexivity. Qed.

Lemma grows_nv_set (k : vb2_nv_param) (v : Z) : grows (nv_set k v).
Proof. intros w. exists []. cbn. rewrite app_nil_r. reflexivity. Qed.

Lemma grows_nv_get (k : vb2_nv_param) : grows (nv_get k).
Proof. intros w. exists []. cbn. rewrite app_nil_r. reflexivity. Qed.

Lemma grows_get_sd_flags : grows get_sd_flags.
Proof. intros w. exists []. cbn. rewrite app_nil_r. reflexivity. Qed.

Lemma grows_get_recovery_reason : grows get_recovery_reason.
Proof. intros w. exists []. cbn. rewrite app_nil_r. reflexivity. Qed.

Lemma grows_set_sd_flags (f : Z) : grows (set_sd_flags f).
Proof. intros w. exists []. cbn. rewrite app_nil_r. reflexivity. Qed.

Lemma grows_request_recovery (r : Z) : grows (request_recovery r).
Proof. apply grows_nv_set. Qed.

Create HintDb grows_db.
#[local] Hint Resolve grows_ret grows_callback grows_nv_set grows_nv_get
  grows_get_sd_flags grows_get_recovery_reason grows_set_sd_flags
  grows_request_recovery : grows_db.

(** Goes through a computation written with [bind], [if] and [match]. *)
Ltac grows_tac :=
  repeat first
    [ progress auto with grows_db
    | apply grows_bind
    | match goal with |- forall _, grows _ => intro end
    | match goal with
      | |- grows (if ?b then _ else _) => destruct b
      | |- grows (let (_, _) := ?p in _) => destruct p
      | |- grows (match ?o with Some _ => _ | None => _ end) => destruct o
      end ].

Lemma grows_check_ec_hash (P : Platform) (devidx : Z)
      (select : VbSelectFirmware_t) : grows (check_ec_hash P devidx select).
Proof. unfold check_ec_hash. grows_tac. Qed.

#[local] Hint Resolve grows_check_ec_hash : grows_db.

Lemma grows_update_ec (P : Platform) (devidx : Z)
      (select : VbSelectFirmware_t) : grows (update_ec P devidx select).
Proof. unfold update_ec. grows_tac. Qed.

#[local] Hint Resolve grows_update_ec : grows_db.

Lemma grows_protect_ec (P : Platform) (devidx : Z)
      (select : VbSelectFirmware_t) : grows (protect_ec P devidx select).
Proof. unfold protect_ec. grows_tac. Qed.

#[local] Hint Resolve grows_protect_ec : grows_db.

Lemma grows_ro_update_loop (P : Platform) (devidx : Z) (n : nat) :
  forall num_tries, grows (ro_update_loop P n num_tries devidx).
Proof.
  induction n as [|n IH]; intros num_tries; cbn [ro_update_loop].
  - apply grows_ret.
  - apply grows_bind; [auto with grows_db|].
    intros rv. destruct (rv =? VBERROR_SUCCESS); [apply grows_ret | apply IH].
Qed.

#[local] Hint Resolve grows_ro_update_loop : grows_db.

Lemma grows_sync_jump_to_rw (P : Platform) (devidx : Z) :
  grows (sync_jump_to_rw P devidx).
Proof. unfold sync_jump_to_rw. grows_tac. Qed.

Lemma grows_sync_ro_update (P : Platform) (devidx : Z) :
  grows (sync_ro_update P devidx).
Proof. unfold sync_ro_update. grows_tac. Qed.

Lemma grows_sync_protect_and_lock (P : Platform) (devidx : Z)
      (select_rw : VbSelectFirmware_t) :
  grows (sync_protect_and_lock P devidx select_rw).
Proof. unfold sync_protect_and_lock. grows_tac. Qed.

#[local] Hint Resolve grows_sync_jump_to_rw grows_sync_ro_update
  grows_sync_protect_and_lock : grows_db.

Lemma starts_with_bind {A B} (c : ec_call) (m : M A) (k : A -> M B) :
  starts_with c m -> (forall a, grows (k a)) -> starts_with c (bind m k).
Proof.
  intros Hm Hk w. unfold bind.
  destruct (Hm w) as [rest1 H1]. destruct (m w) as [a w1]. cbn [snd] in *.
  destruct (Hk a w1) as [made2 H2]. exists (rest1 ++ made2).
  rewrite H2, H1, <- app_assoc. reflexivity.
Qed.

Lemma starts_with_callback {A} (answer : list ec_call -> A) (c : ec_call) :
  starts_with c (callback answer c).
Proof. intros w. exists []. reflexivity. Qed.

Lemma update_ec_starts (P : Platform) (devidx : Z)
      (select : VbSelectFirmware_t) :
  starts_with (EcGetExpectedImage devidx select) (update_ec P devidx select).
Proof.
  unfold update_ec. apply starts_with_bind; [apply starts_with_callback|].
  grows_tac.
Qed.

(** C1, the code at the failing input: the scratch flags hold
    PD_RW_NEEDS_UPDATE only, so the EC's own bit EC_RW_NEEDS_UPDATE is
    clear, and [sync_one_ec] for device 0 (the EC) still starts the RW
    update: its first callback fetches the expected RW image of device 0,
    whatever the platform answers. *)
Theorem sync_one_ec_updates_on_other_device_bit
        (P : Platform) (cparams : VbCommonParams) (reason : Z)
        (nv0 : nv_store) (history : list ec_call) :
  let w := mk_world (mk_ctx VB2_SD_FLAG_ECSYNC_PD_RW reason nv0) history in
  Z.land (sd_flags (ctx w)) (WHICH_EC 0 (select_rw_of cparams)) = 0
  /\ exists rest,
       calls (snd (sync_one_ec P 0 cparams w))
       = history ++ EcGetExpectedImage 0 (select_rw_of cparams) :: rest.
Proof.
  intros w. split.
  - unfold select_rw_of. destruct (nonzero _); reflexivity.
  - unfold sync_one_ec, or_return. unfold bind at 1.
    rewrite sync_rw_update_runs_iff.
    change (nonzero (Z.land (sd_flags (ctx w)) VB2_SD_FLAG_ECSYNC_RW))
      with true.
    cbv iota zeta.
    destruct (update_ec_starts P 0 (select_rw_of cparams) w) as [rest1 H1].
    destruct (update_ec P 0 (select_rw_of cparams) w) as [rv w1].
    cbn [fst snd calls] in *. destruct (negb _).
    + exists rest1. exact H1.
    + assert (Hrest : grows
                (or_return (sync_jump_to_rw P 0)
                   (or_return (sync_ro_update P 0)
                      (sync_protect_and_lock P 0 (select_rw_of cparams)))))
        by (unfold or_return; grows_tac).
      destruct (Hrest w1) as [made H2]. unfold or_return in H2.
      exists (rest1 ++ made). rewrite H2, H1, <- app_assoc. reflexivity.
Qed.

(** C1, end to end: on a platform where every callback succeeds, with PD
    sync compiled in, phase 2 entered with PD_RW_NEEDS_UPDATE only rewrites
    the RW image of device 0 before it reaches device 1. *)
Example phase2_rewrites_ec_for_pd_bit :
  calls (snd (ec_sync_phase2 healthy_platform true cparams_sync_on
                (world_of VB2_SD_FLAG_ECSYNC_PD_RW 0 nv_zero)))
  = [ EcGetExpectedImage 0 VB_SELECT_FIRMWARE_A;
      EcUpdateImage 0 VB_SELECT_FIRMWARE_A image0;
      EcHashImage 0 VB_SELECT_FIRMWARE_A;
      EcGetExpectedImageHash 0 VB_SELECT_FIRMWARE_A;
      EcJumpToRW 0;
      EcProtect 0 VB_SELECT_FIRMWARE_READONLY;
      EcProtect 0 VB_SELECT_FIRMWARE_A;
      EcDisableJump 0;
      EcGetExpectedImage 1 VB_SELECT_FIRMWARE_A;
      EcUpdateImage 1 VB_SELECT_FIRMWARE_A image0;
      EcHashImage 1 VB_SELECT_FIRMWARE_A;
      EcGetExpectedImageHash 1 VB_SELECT_FIRMWARE_A;
      EcJumpToRW 1;
      EcProtect 1 VB_SELECT_FIRMWARE_READONLY;
      EcProtect 1 VB_SELECT_FIRMWARE_A;
      EcDisableJump 1 ].
Proof. vm_compute. reflexivity. Qed.

(** ** The Language menu *)

(** C2 as stated fails: from the developer warning menu with the cursor on
    Language (index 4), committing Language and then the one item of the
    LANGUAGES menu comes back to the developer warning menu at index 0, not
    at index 4. *)
Lemma language_round_trip_loses_index :
  language_item (current_menu menu_on_warning_language)
  = Some (current_menu_idx menu_on_warning_language)
  /\ current_menu (snd (commit_item menu_on_warning_language))
     = VB_MENU_LANGUAGES
  /\ current_menu
       (snd (commit_item (snd (commit_item menu_on_warning_language))))
     = current_menu menu_on_warning_language
  /\ current_menu_idx
       (snd (commit_item (snd (commit_item menu_on_warning_language)))) = 0
  /\ current_menu_idx
       (snd (commit_item (snd (commit_item menu_on_warning_language))))
     <> current_menu_idx menu_on_warning_language.
Proof. cbv. repeat split; discriminate. Qed.

(** C2 amended: for every menu [m] with a Language item, at index [i],
    committing that item switches to the LANGUAGES menu at index 0, and
    committing any item [j] of the LANGUAGES menu then restores [m] as the
    current menu, with the index at 0, LANGUAGES as previous menu and
    [selected] reset; both commits return SUCCESS. *)
Theorem language_round_trip_restores_menu
        (m : VB_MENU) (i j : Z) (s : menu_state) :
  language_item m = Some i ->
  current_menu s = m ->
  current_menu_idx s = i ->
  let r1 := commit_item s in
  let in_languages :=
    mk_menu (current_menu (snd r1)) (prev_menu (snd r1)) j
            (selected (snd r1)) (default_boot (snd r1)) in
  let r2 := commit_item in_languages in
  fst r1 = VBERROR_SUCCESS
  /\ current_menu (snd r1) = VB_MENU_LANGUAGES
  /\ current_menu_idx (snd r1) = 0
  /\ fst r2 = VBERROR_SUCCESS
  /\ current_menu (snd r2) = m
  /\ current_menu_idx (snd r2) = 0
  /\ prev_menu (snd r2) = VB_MENU_LANGUAGES
  /\ selected (snd r2) = 0.
Proof.
  intros Hlang Hm Hi. destruct s as [cm pm idx sel db].
  cbn [current_menu current_menu_idx] in Hm, Hi. subst cm idx.
  destruct m; cbn [language_item] in Hlang; inversion Hlang; subst i;
    cbv; repeat split.
Qed.

Lemma language_round_trip_restores_menu_witness :
  language_item VB_MENU_RECOVERY = Some VB_RECOVERY_LANGUAGE
  /\ current_menu
       (snd (commit_item
               (snd (commit_item
                       (mk_menu VB_MENU_RECOVERY VB_MENU_RECOVERY
                                VB_RECOVERY_LANGUAGE 0 0)))))
     = VB_MENU_RECOVERY
  /\ current_menu_idx
       (snd (commit_item
               (snd (commit_item
                       (mk_menu VB_MENU_RECOVERY VB_MENU_RECOVERY
                                VB_RECOVERY_LANGUAGE 0 0))))) = 0.
Proof.
  split; [reflexivity|].
  pose proof (language_round_trip_restores_menu
                VB_MENU_RECOVERY VB_RECOVERY_LANGUAGE 0
                (mk_menu VB_MENU_RECOVERY VB_MENU_RECOVERY
                         VB_RECOVERY_LANGUAGE 0 0)
                eq_refl eq_refl eq_refl) as H.
  cbv zeta in H. destruct H as (_ & _ & _ & _ & Hmenu & Hidx & _).
  split; [exact Hmenu | exact Hidx].
Defined.

(** ** Confirmation *)

(** C8 as stated fails: with MUST_TRUST_KEYBOARD set and a physical
    recovery switch, pressing and releasing the recovery button makes
    Confirm return YES (1) although no event of the run carries
    TRUSTED_KEYBOARD (and no key was pressed at all). *)
Lemma confirm_yes_without_trusted_keyboard :
  flag_set VB_CONFIRM_MUST_TRUST_KEYBOARD VB_CONFIRM_MUST_TRUST_KEYBOARD
  /\ fst (VbUserConfirmsMenu confirm_cparams_physical
            VB_CONFIRM_MUST_TRUST_KEYBOARD
            [poll_button_down; poll_button_up]) = Some 1
  /\ Forall (fun p => Z.land (cp_key_flags p) VB_KEY_FLAG_TRUSTED_KEYBOARD = 0)
            [poll_button_down; poll_button_up].
Proof.
  split; [cbv; discriminate|]. split; [reflexivity|].
  repeat constructor.
Qed.

(** A pass that answers YES. *)
Lemma confirm_pass_yes (cparams : VbCommonParams) (confirm_flags pressed : Z)
      (p : confirm_poll) (out : list ui_call) :
  flag_set confirm_flags VB_CONFIRM_MUST_TRUST_KEYBOARD ->
  confirm_pass cparams confirm_flags pressed p = (ConfirmReturn 1, out) ->
  trusted_enter p \/ (rec_button_released cparams p /\ pressed <> 0).
Proof.
  intros Hmust. apply nonzero_true in Hmust.
  unfold confirm_pass, trusted_enter, rec_button_released, flag_set.
  rewrite Hmust. cbn [andb].
  destruct (nonzero (VbWantShutdownMenu _ _)); [discriminate|].
  destruct (cp_key p =? 13) eqn:K13.
  { apply Z.eqb_eq in K13.
    destruct (nonzero (Z.land (cp_key_flags p) _)) eqn:Ht; cbn [negb];
      [|discriminate].
    apply nonzero_true in Ht. intros _. left. split; assumption. }
  destruct (cp_key p =? 32) eqn:K32.
  { destruct (nonzero (Z.land confirm_flags VB_CONFIRM_SPACE_MEANS_NO));
      discriminate. }
  destruct (cp_key p =? 27) eqn:K27; [discriminate|].
  apply Z.eqb_neq in K13, K32, K27.
  destruct (nonzero (Z.land (shared_flags _) _)) eqn:Hv; cbn [negb];
    [discriminate|].
  apply nonzero_false in Hv.
  destruct (nonzero (cp_button p)) eqn:Hb; [discriminate|].
  apply nonzero_false in Hb.
  destruct (nonzero pressed) eqn:Hp; [|discriminate].
  apply nonzero_true in Hp. intros _. right. repeat split; assumption.
Qed.

(** A pass that keeps waiting remembers a press of the recovery button. *)
Lemma confirm_pass_again (cparams : VbCommonParams)
      (confirm_flags pressed pressed' : Z) (p : confirm_poll)
      (out : list ui_call) :
  confirm_pass cparams confirm_flags pressed p = (ConfirmAgain pressed', out) ->
  pressed' = pressed \/ cp_button p <> 0.
Proof.
  unfold confirm_pass.
  repeat match goal with
         | |- context [if ?b then _ else _] => destruct b eqn:?
         end;
    intros H; inversion H; subst; auto.
  right. apply nonzero_true. assumption.
Qed.

(** YES is answered on some poll, which is a trusted ENTER or the release
    of the physical recovery button after a press. *)
Lemma confirm_loop_yes (cparams : VbCommonParams) (confirm_flags : Z)
      (polls : list confirm_poll) :
  flag_set confirm_flags VB_CONFIRM_MUST_TRUST_KEYBOARD ->
  forall pressed,
    fst (confirm_loop cparams confirm_flags pressed polls) = Some 1 ->
    exists pre p post,
      polls = pre ++ p :: post
      /\ fst (confirm_loop cparams confirm_flags pressed pre) = None
      /\ (trusted_enter p
          \/ (rec_button_released cparams p
              /\ (pressed <> 0 \/ Exists (fun q => cp_button q <> 0) pre))).
Proof.
  intros Hmust. induction polls as [|p rest IH]; intros pressed Hyes.
  - discriminate.
  - cbn [confirm_loop] in Hyes.
    destruct (confirm_pass cparams confirm_flags pressed p) as [[rv|pressed'] out]
      eqn:Hpass.
    + cbn [fst] in Hyes. inversion Hyes; subst rv.
      exists [], p, rest. split; [reflexivity|]. split; [reflexivity|].
      destruct (confirm_pass_yes _ _ _ _ _ Hmust Hpass) as [Ht | [Hr Hp]];
        [left; exact Ht | right; split; [exact Hr | left; exact Hp]].
    + destruct (confirm_loop cparams confirm_flags pressed' rest)
        as [r out'] eqn:Hrest.
      cbn [fst] in Hyes. subst r.
      destruct (IH pressed') as (pre & q & post & Hsplit & Hnone & Hwhy).
      { rewrite Hrest. reflexivity. }
      exists (p :: pre), q, post. split; [rewrite Hsplit; reflexivity|].
      split.
      * cbn [confirm_loop]. rewrite Hpass.
        destruct (confirm_loop cparams confirm_flags pressed' pre).
        cbn [fst] in *. exact Hnone.
      * destruct Hwhy as [Ht | [Hr Hp]]; [left; exact Ht|].
        right. split; [exact Hr|].
        destruct Hp as [Hp | Hex].
        -- destruct (confirm_pass_again _ _ _ _ _ _ Hpass) as [He | Hb].
           ++ left. congruence.
           ++ right. apply Exists_cons_hd. exact Hb.
        -- right. apply Exists_cons_tl. exact Hex.
Qed.

(** C8 amended: with MUST_TRUST_KEYBOARD set, for every sequence of polls
    (shutdown requests, keys with their flags, recovery button), Confirm
    returns YES (1) only on a poll that is either an ENTER carrying
    TRUSTED_KEYBOARD or, when the recovery switch is physical, the release
    of the recovery button after an earlier poll saw it pressed; before
    that poll the loop was still waiting.  An ENTER without
    TRUSTED_KEYBOARD (and no shutdown request) makes one beep of 120 ms at
    400 Hz, sleeps 20 ms and goes on with the next poll as if the key had
    not been pressed. *)
Theorem confirm_yes_needs_trusted_source
        (cparams : VbCommonParams) (confirm_flags : Z) :
  flag_set confirm_flags VB_CONFIRM_MUST_TRUST_KEYBOARD ->
  (forall polls,
      fst (VbUserConfirmsMenu cparams confirm_flags polls) = Some 1 ->
      exists pre p post,
        polls = pre ++ p :: post
        /\ fst (VbUserConfirmsMenu cparams confirm_flags pre) = None
        /\ (trusted_enter p
            \/ (rec_button_released cparams p
                /\ Exists (fun q => cp_button q <> 0) pre)))
  /\ (forall pressed p rest,
         VbWantShutdownMenu (gbb_flags cparams) (cp_shutdown_request p) = 0 ->
         cp_key p = 13 ->
         Z.land (cp_key_flags p) VB_KEY_FLAG_TRUSTED_KEYBOARD = 0 ->
         confirm_loop cparams confirm_flags pressed (p :: rest)
         = (fst (confirm_loop cparams confirm_flags pressed rest),
            UiBeep 120 400 :: UiSleepMs 20
              :: snd (confirm_loop cparams confirm_flags pressed rest))).
Proof.
  intros Hmust. split.
  - intros polls Hyes. unfold VbUserConfirmsMenu in *.
    destruct (confirm_loop_yes cparams confirm_flags polls Hmust 0 Hyes)
      as (pre & p & post & Hsplit & Hnone & Hwhy).
    exists pre, p, post. split; [exact Hsplit|]. split; [exact Hnone|].
    destruct Hwhy as [Ht | [Hr [Hp | Hex]]].
    + left. exact Ht.
    + exfalso. apply Hp. reflexivity.
    + right. split; assumption.
  - intros pressed p rest Hshut Hkey Hflag.
    apply nonzero_true in Hmust.
    cbn [confirm_loop]. unfold confirm_pass.
    rewrite Hshut, Hkey, Hmust, Hflag.
    change (nonzero 0) with false. cbn [negb andb Z.eqb Pos.eqb].
    destruct (confirm_loop cparams confirm_flags pressed rest).
    reflexivity.
Qed.

Lemma confirm_yes_needs_trusted_source_witness :
  flag_set VB_CONFIRM_MUST_TRUST_KEYBOARD VB_CONFIRM_MUST_TRUST_KEYBOARD
  /\ VbUserConfirmsMenu confirm_cparams_physical VB_CONFIRM_MUST_TRUST_KEYBOARD
       [poll_untrusted_enter; poll_trusted_enter]
     = (Some 1, [UiBeep 120 400; UiSleepMs 20]).
Proof.
  assert (Hmust : flag_set VB_CONFIRM_MUST_TRUST_KEYBOARD
                           VB_CONFIRM_MUST_TRUST_KEYBOARD)
    by (cbv; discriminate).
  split; [exact Hmust|].
  exact (proj2 (confirm_yes_needs_trusted_source confirm_cparams_physical
                  VB_CONFIRM_MUST_TRUST_KEYBOARD Hmust)
               0 poll_untrusted_enter [poll_trusted_enter]
               eq_refl eq_refl eq_refl).
Defined.

(** ** Navigation with Up and Down *)

Lemma up_is_not_down (key : Z) :
  is_up_key key = true -> is_down_key key = false.
Proof.
  unfold is_up_key, is_down_key. rewrite orb_true_iff, orb_false_iff.
  rewrite !Z.eqb_eq, !Z.eqb_neq.
  unfold VB_BUTTON_VOL_UP, VB_KEY_UP, VB_BUTTON_VOL_DOWN, VB_KEY_DOWN. lia.
Qed.

Lemma nav_key_not_control (key : Z) :
  is_nav_key key = true ->
  (key =? 0) = false /\ (key =? 0x04) = false /\ (key =? 0x0c) = false
  /\ (key =? 0x15) = false.
Proof.
  unfold is_nav_key, is_up_key, is_down_key. rewrite !orb_true_iff.
  rewrite !Z.eqb_eq, !Z.eqb_neq.
  unfold VB_BUTTON_VOL_UP, VB_KEY_UP, VB_BUTTON_VOL_DOWN, VB_KEY_DOWN. lia.
Qed.

Lemma menu_key_up_step (key : Z) (u : ui_state) :
  is_up_key key = true -> index_in_range (menu u) ->
  one_step key u (snd (menu_key_up u)).
Proof.
  intros Hup Hin. pose proof (up_is_not_down key Hup) as Hnd.
  unfold one_step, index_in_range in *. rewrite Hup, Hnd.
  unfold menu_key_up, vb2_print_current_menu, set_menu_idx, with_menu,
    ui_emit, get_menu, bind, ret.
  destruct u as [[cm pm idx sel db] nv0 out].
  cbn [menu current_menu current_menu_idx] in *.
  destruct (vb2_get_current_menu_size cm) as [rv size] eqn:Hsize.
  cbn [snd] in *.
  destruct (idx >? 0) eqn:Hpos;
    cbn [snd menu current_menu current_menu_idx];
    rewrite ?Hsize; cbn [snd];
    [apply Z.gtb_lt in Hpos | rewrite Z.gtb_ltb in Hpos; apply Z.ltb_ge in Hpos];
    (split; [reflexivity|]); (split; [lia|]);
    (split; [intros _; lia | intros H; discriminate H]).
Qed.

Lemma menu_key_down_step (key : Z) (u : ui_state) :
  is_up_key key = false -> is_down_key key = true ->
  index_in_range (menu u) ->
  one_step key u (snd (menu_key_down u)).
Proof.
  intros Hnu Hdown Hin.
  unfold one_step, index_in_range in *. rewrite Hnu, Hdown.
  unfold menu_key_down, vb2_print_current_menu, set_menu_idx, with_menu,
    ui_emit, get_menu, bind, ret.
  destruct u as [[cm pm idx sel db] nv0 out].
  cbn [menu current_menu current_menu_idx] in *.
  destruct (vb2_get_current_menu_size cm) as [rv size] eqn:Hsize.
  cbn [snd] in *.
  destruct (idx <? size - 1) eqn:Hlt;
    cbn [snd menu current_menu current_menu_idx];
    rewrite ?Hsize; cbn [snd];
    [apply Z.ltb_lt in Hlt | apply Z.ltb_ge in Hlt];
    (split; [reflexivity|]); (split; [lia|]);
    (split; [intros H; discriminate H | intros _; lia]).
Qed.

Lemma one_step_refl (key : Z) (u u' : ui_state) :
  menu u' = menu u -> index_in_range (menu u) -> one_step key u u'.
Proof.
  intros Hsame Hin. unfold one_step. rewrite Hsame.
  unfold index_in_range in *.
  split; [reflexivity|]. split; [exact Hin|]. split; intros _; lia.
Qed.

(** One pass of the developer loop on an Up or Down key. *)
Lemma developer_menu_pass_nav (gbb_flags allow_usb allow_legacy : Z)
      (p : dev_poll) (u : ui_state) :
  is_nav_key (dp_key p) = true -> index_in_range (menu u) ->
  one_step (dp_key p) u
           (snd (developer_menu_pass gbb_flags allow_usb allow_legacy p u))
  /\ (fst (developer_menu_pass gbb_flags allow_usb allow_legacy p u) = StepNext
      \/ fst (developer_menu_pass gbb_flags allow_usb allow_legacy p u)
         = StepReturn VBERROR_SHUTDOWN_REQUESTED).
Proof.
  intros Hnav Hin.
  destruct (nav_key_not_control _ Hnav) as (K0 & K4 & Kc & K15).
  unfold developer_menu_pass.
  destruct (nonzero (VbWantShutdownMenu gbb_flags (dp_shutdown_request p))).
  - split; [|right; reflexivity].
    apply one_step_refl; [reflexivity | exact Hin].
  - rewrite K0, K4, Kc, K15.
    unfold is_nav_key in Hnav. fold (is_up_key (dp_key p)).
    fold (is_down_key (dp_key p)).
    destruct (is_up_key (dp_key p)) eqn:Hup.
    + split; [|left].
      * unfold bind at 1. unfold ret.
        pose proof (menu_key_up_step _ u Hup Hin) as H.
        destruct (menu_key_up u). exact H.
      * unfold bind, ret. destruct (menu_key_up u). reflexivity.
    + cbn [orb] in Hnav. rewrite Hnav. split; [|left].
      * unfold bind at 1. unfold ret.
        pose proof (menu_key_down_step _ u Hup Hnav Hin) as H.
        destruct (menu_key_down u). exact H.
      * unfold bind, ret. destruct (menu_key_down u). reflexivity.
Qed.

(** One pass of the key loop of the recovery menu on an Up or Down key. *)
Lemma recovery_menu_pass_nav (shared_flags gbb_flags : Z) (retval : VbError_t)
      (p : rec_poll) (u : ui_state) :
  is_nav_key (rp_key p) = true -> index_in_range (menu u) ->
  one_step (rp_key p) u
           (snd (recovery_menu_pass shared_flags gbb_flags retval p u)).
Proof.
  intros Hnav Hin.
  destruct (nav_key_not_control _ Hnav) as (K0 & _).
  assert (Hkey : one_step (rp_key p) u
                   (snd (recovery_menu_key shared_flags retval p u))
                 /\ fst (recovery_menu_key shared_flags retval p u) = StepNext).
  { unfold recovery_menu_key. rewrite K0.
    unfold is_nav_key in Hnav. fold (is_up_key (rp_key p)).
    fold (is_down_key (rp_key p)).
    destruct (is_up_key (rp_key p)) eqn:Hup.
    - unfold bind, ret.
      pose proof (menu_key_up_step _ u Hup Hin) as H.
      destruct (menu_key_up u). split; [exact H | reflexivity].
    - cbn [orb] in Hnav. rewrite Hnav. unfold bind, ret.
      pose proof (menu_key_down_step _ u Hup Hnav Hin) as H.
      destruct (menu_key_down u). split; [exact H | reflexivity]. }
  destruct Hkey as [Hstep Hnext].
  unfold recovery_menu_pass. unfold bind at 1.
  destruct (recovery_menu_key shared_flags retval p u) as [r u1].
  cbn [fst snd] in *. subst r.
  destruct (nonzero (VbWantShutdownMenu gbb_flags (rp_shutdown_request p)));
    [exact Hstep|].
  unfold bind, ret, ui_emit. cbn [snd].
  unfold one_step, index_in_range in *. cbn [menu]. exact Hstep.
Qed.

Lemma one_step_same_menu (key : Z) (u u' : ui_state) :
  one_step key u u' -> same_menu_in_range u u'.
Proof. intros (Hm & Hin & _). split; assumption. Qed.

Lemma same_menu_in_range_trans (u u1 u2 : ui_state) :
  same_menu_in_range u u1 -> same_menu_in_range u1 u2 ->
  same_menu_in_range u u2.
Proof.
  intros [Hm1 Hi1] [Hm2 Hi2]. split; [congruence | exact Hi2].
Qed.

(** The developer loop over Up and Down keys. *)
Lemma developer_menu_loop_nav (gbb_flags allow_usb allow_legacy : Z)
      (polls : list dev_poll) :
  Forall (fun p => is_nav_key (dp_key p) = true) polls ->
  forall u, index_in_range (menu u) ->
    same_menu_in_range u
      (snd (developer_menu_loop gbb_flags allow_usb allow_legacy polls u)).
Proof.
  induction 1 as [|p rest Hp Hrest IH]; intros u Hin.
  - split; [reflexivity | exact Hin].
  - cbn [developer_menu_loop]. unfold bind at 1.
    destruct (developer_menu_pass_nav gbb_flags allow_usb allow_legacy p u
                Hp Hin) as [Hstep Hres].
    apply one_step_same_menu in Hstep.
    destruct (developer_menu_pass gbb_flags allow_usb allow_legacy p u)
      as [r u1].
    cbn [fst snd] in *.
    destruct Hres as [Hr | Hr]; subst r.
    + destruct (nonzero (dp_audio_looping p)); [|exact Hstep].
      eapply same_menu_in_range_trans; [exact Hstep|].
      apply IH. apply Hstep.
    + exact Hstep.
Qed.

(** The key loop of one disk scan over Up and Down keys; the polls it
    leaves are still Up and Down keys. *)
Lemma recovery_key_loop_nav (shared_flags gbb_flags : Z) (retval : VbError_t)
      (passes : nat) :
  forall polls u,
    Forall (fun p => is_nav_key (rp_key p) = true) polls ->
    index_in_range (menu u) ->
    same_menu_in_range u
      (snd (recovery_key_loop passes shared_flags gbb_flags retval polls u))
    /\ (forall rest,
           fst (recovery_key_loop passes shared_flags gbb_flags retval polls u)
           = ScanDone rest ->
           Forall (fun p => is_nav_key (rp_key p) = true) rest).
Proof.
  induction passes as [|passes IH]; intros polls u Hall Hin.
  - cbn. split; [split; [reflexivity | exact Hin]|].
    intros rest H. inversion H; subst. exact Hall.
  - cbn [recovery_key_loop]. destruct polls as [|p rest].
    + cbn. split; [split; [reflexivity | exact Hin]|]. discriminate.
    + inversion Hall as [|? ? Hp Hrest]; subst.
      unfold bind.
      pose proof (recovery_menu_pass_nav shared_flags gbb_flags retval p u
                    Hp Hin) as Hstep.
      apply one_step_same_menu in Hstep.
      destruct (recovery_menu_pass shared_flags gbb_flags retval p u)
        as [r u1].
      cbn [snd] in Hstep. destruct r as [rv|].
      * cbn. split; [exact Hstep | discriminate].
      * destruct (IH rest u1 Hrest (proj2 Hstep)) as [Hsame Hleft].
        split; [|exact Hleft].
        eapply same_menu_in_range_trans; [exact Hstep | exact Hsame].
Qed.

Lemma display_keeps_menu (b : bool) (c : ui_call) (w : ui_state) :
  menu (snd ((if b then ui_emit c ;; vb2_print_current_menu else ret tt) w))
  = menu w.
Proof. destruct b; reflexivity. Qed.

(** The recovery loop over Up and Down keys. *)
Lemma recovery_menu_loop_nav (shared_flags gbb_flags : Z)
      (loads : list VbError_t) :
  forall polls u,
    Forall (fun p => is_nav_key (rp_key p) = true) polls ->
    index_in_range (menu u) ->
    same_menu_in_range u
      (snd (recovery_menu_loop shared_flags gbb_flags loads polls u)).
Proof.
  induction loads as [|retval loads IH]; intros polls u Hall Hin.
  - split; [reflexivity | exact Hin].
  - cbn [recovery_menu_loop].
    unfold bind at 1. unfold ui_emit at 1.
    unfold bind at 1. unfold ui_nv_set at 1. cbn [menu ui_nv ui_calls].
    destruct (VBERROR_SUCCESS =? retval).
    { split; [reflexivity | exact Hin]. }
    unfold bind at 1. unfold get_menu at 1. cbn [menu].
    unfold bind at 1.
    match goal with
    | |- context [(if ?b then ?x else ?y) ?w] =>
        pose proof (display_keeps_menu b
                      (UiDisplayScreen (recovery_screen retval)) w) as Hu1;
        destruct ((if b then x else y) w) as [[] u1]
    end.
    cbn [snd menu] in Hu1.
    assert (Hin1 : index_in_range (menu u1)) by (rewrite Hu1; exact Hin).
    unfold bind at 1.
    destruct (recovery_key_loop_nav shared_flags gbb_flags retval
                (Z.to_nat (REC_DISK_DELAY / REC_KEY_DELAY)) polls u1 Hall Hin1)
      as [Hsame Hleft].
    assert (Hbase : same_menu_in_range u u1).
    { split; [rewrite Hu1; reflexivity | exact Hin1]. }
    destruct (recovery_key_loop (Z.to_nat (REC_DISK_DELAY / REC_KEY_DELAY))
                shared_flags gbb_flags retval polls u1) as [r u2].
    cbn [fst snd] in *.
    pose proof (same_menu_in_range_trans _ _ _ Hbase Hsame) as H2.
    destruct r as [rv | rest |]; try exact H2.
    eapply same_menu_in_range_trans; [exact H2|].
    apply IH; [apply Hleft; reflexivity | apply Hsame].
Qed.

(** C9: in the developer loop and in the recovery loop, starting from a
    menu whose index is one of its items, for every sequence of polls whose
    keys are Up/Down (arrow keys or volume buttons), and whatever the
    shutdown requests, the audio timeout and the results of the disk scans,
    the current menu stays the same and the index stays in [0, size-1];
    and on every single pass the index moves by at most one item in the
    direction of the key, Up at index 0 and Down at index size-1 leaving it
    where it is. *)
Theorem menu_index_clamped
        (gbb_flags allow_usb allow_legacy shared_flags : Z)
        (dev_polls : list dev_poll) (loads : list VbError_t)
        (rec_polls : list rec_poll) (u : ui_state) :
  index_in_range (menu u) ->
  Forall (fun p => is_nav_key (dp_key p) = true) dev_polls ->
  Forall (fun p => is_nav_key (rp_key p) = true) rec_polls ->
  same_menu_in_range u
    (snd (developer_menu_loop gbb_flags allow_usb allow_legacy dev_polls u))
  /\ same_menu_in_range u
       (snd (recovery_menu_loop shared_flags gbb_flags loads rec_polls u))
  /\ (forall p : dev_poll,
         is_nav_key (dp_key p) = true ->
         one_step (dp_key p) u
           (snd (developer_menu_pass gbb_flags allow_usb allow_legacy p u)))
  /\ (forall (p : rec_poll) (retval : VbError_t),
         is_nav_key (rp_key p) = true ->
         one_step (rp_key p) u
           (snd (recovery_menu_pass shared_flags gbb_flags retval p u))).
Proof.
  intros Hin Hdev Hrec. split; [|split; [|split]].
  - apply developer_menu_loop_nav; assumption.
  - apply recovery_menu_loop_nav; assumption.
  - intros p Hp. apply developer_menu_pass_nav; assumption.
  - intros p retval Hp. apply recovery_menu_pass_nav; assumption.
Qed.

Lemma menu_index_clamped_witness :
  index_in_range (menu ui_initial)
  /\ Forall (fun p => is_nav_key (dp_key p) = true)
            (map dev_key five_ups_then_down)
  /\ Forall (fun p => is_nav_key (rp_key p) = true)
            (map rec_key five_ups_then_down)
  /\ same_menu_in_range ui_initial
       (snd (developer_menu_loop 0 0 0 (map dev_key five_ups_then_down)
               ui_initial))
  /\ same_menu_in_range ui_initial
       (snd (recovery_menu_loop 0 0 [VBERROR_NO_DISK_FOUND]
               (map rec_key five_ups_then_down) ui_initial)).
Proof.
  assert (H1 : index_in_range (menu ui_initial)) by (cbv; split; [discriminate | reflexivity]).
  assert (H2 : Forall (fun p => is_nav_key (dp_key p) = true)
                      (map dev_key five_ups_then_down))
    by (repeat constructor).
  assert (H3 : Forall (fun p => is_nav_key (rp_key p) = true)
                      (map rec_key five_ups_then_down))
    by (repeat constructor).
  split; [exact H1|]. split; [exact H2|]. split; [exact H3|].
  destruct (menu_index_clamped 0 0 0 0 (map dev_key five_ups_then_down)
              [VBERROR_NO_DISK_FOUND] (map rec_key five_ups_then_down)
              ui_initial H1 H2 H3) as (Hd & Hr & _).
  split; [exact Hd | exact Hr].
Defined.

(** Five Ups from "Power Off" (index 3) of the developer warning menu stop
    at index 0; Downs stop at index 4, the last of its five items. *)
Example developer_loop_clamps_at_both_ends :
  current_menu_idx
    (menu (snd (developer_menu_loop 0 0 0
                  (map dev_key [VB_KEY_UP; VB_KEY_UP; VB_KEY_UP; VB_KEY_UP;
                                VB_KEY_UP])
                  ui_initial))) = 0
  /\ current_menu_idx
       (menu (snd (developer_menu_loop 0 0 0
                     (map dev_key [VB_KEY_DOWN; VB_BUTTON_VOL_DOWN;
                                   VB_KEY_DOWN])
                     ui_initial))) = 4.
Proof. split; vm_compute; reflexivity. Qed.

(** The recovery menu starts at "Power Off" (index 2) of its four items. *)
Example recovery_loop_clamps_at_both_ends :
  current_menu_idx
    (menu (snd (vb2_recovery_menu_manual 0 0 [VBERROR_NO_DISK_FOUND]
                  (map rec_key [VB_KEY_UP; VB_KEY_UP; VB_KEY_UP])
                  ui_initial))) = 0
  /\ current_menu_idx
       (menu (snd (vb2_recovery_menu_manual 0 0 [VBERROR_NO_DISK_FOUND]
                     (map rec_key [VB_KEY_DOWN; VB_KEY_DOWN; VB_KEY_DOWN])
                     ui_initial))) = 3.
Proof. split; vm_compute; reflexivity. Qed.

(** ** Further properties of the engine: which callbacks are made *)

Lemma steps_ret {S A} (R : S -> S -> Prop) (a : A) :
  (forall s, R s s) -> steps R (@ret S A a).
Proof. intros Hrefl s. apply Hrefl. Qed.

Lemma steps_bind {S A B} (R : S -> S -> Prop)
      (m : State S A) (k : A -> State S B) :
  (forall s1 s2 s3, R s1 s2 -> R s2 s3 -> R s1 s3) ->
  steps R m -> (forall a, steps R (k a)) -> steps R (bind m k).
Proof.
  intros Htrans Hm Hk s. unfold bind.
  pose proof (Hm s) as H1. destruct (m s) as [a s1]. cbn [snd] in H1.
  exact (Htrans _ _ _ H1 (Hk a s1)).
Qed.

Lemma made_only_refl (p : ec_call -> bool) (w : world) : made_only p w w.
Proof. exists []. rewrite app_nil_r. split; reflexivity. Qed.

Lemma made_only_trans (p : ec_call -> bool) (w1 w2 w3 : world) :
  made_only p w1 w2 -> made_only p w2 w3 -> made_only p w1 w3.
Proof.
  intros (m1 & H1 & P1) (m2 & H2 & P2). exists (m1 ++ m2).
  rewrite H2, H1, app_assoc, forallb_app, P1, P2. split; reflexivity.
Qed.

Lemma made_only_weaken (p q : ec_call -> bool) (w w' : world) :
  (forall c, p c = true -> q c = true) ->
  made_only p w w' -> made_only q w w'.
Proof.
  intros Hpq (made & H & Hp). exists made. split; [exact H|].
  rewrite forallb_forall in *. auto.
Qed.

Lemma made_only_same_calls (p : ec_call -> bool) (w w' : world) :
  calls w' = calls w -> made_only p w w'.
Proof. intros H. exists []. rewrite app_nil_r. split; [exact H | reflexivity]. Qed.

Lemma steps_made_callback {A} (p : ec_call -> bool)
      (answer : list ec_call -> A) (c : ec_call) :
  p c = true -> steps (made_only p) (callback answer c).
Proof. intros Hp w. exists [c]. cbn. rewrite Hp. split; reflexivity. Qed.

(** Goes through a computation of the engine for [made_only p]; the
    callbacks are left as goals [p c = true]. *)
Ltac made_tac :=
  repeat first
    [ apply steps_ret; intro; apply made_only_refl
    | apply steps_bind; [apply made_only_trans | |]
    | apply steps_made_callback
    | match goal with
      | |- forall _, steps _ _ => intro
      | |- steps _ (if ?b then _ else _) => destruct b
      | |- steps _ (let (_, _) := ?x in _) => destruct x
      | |- steps _ (match ?o with Some _ => _ | None => _ end) => destruct o
      | |- steps _ get_sd_flags => intro; apply made_only_refl
      | |- steps _ get_recovery_reason => intro; apply made_only_refl
      | |- steps _ (nv_get _) => intro; apply made_only_refl
      | |- steps _ (set_sd_flags _) => intro; apply made_only_same_calls; reflexivity
      | |- steps _ (nv_set _ _) => intro; apply made_only_same_calls; reflexivity
      | |- steps _ (request_recovery _) => intro; apply made_only_same_calls; reflexivity
      end ].

Lemma check_ec_hash_made (P : Platform) (p : ec_call -> bool)
      (devidx : Z) (select : VbSelectFirmware_t) :
  p (EcHashImage devidx select) = true ->
  p (EcGetExpectedImageHash devidx select) = true ->
  steps (made_only p) (check_ec_hash P devidx select).
Proof. intros H1 H2. unfold check_ec_hash. made_tac; assumption. Qed.

Lemma check_ec_active_made (P : Platform) (p : ec_call -> bool) (devidx : Z) :
  p (EcRunningRW devidx) = true ->
  steps (made_only p) (check_ec_active P devidx).
Proof. intros H1. unfold check_ec_active. made_tac; assumption. Qed.

Lemma update_ec_made (P : Platform) (p : ec_call -> bool)
      (devidx : Z) (select : VbSelectFirmware_t) :
  p (EcGetExpectedImage devidx select) = true ->
  (forall image, p (EcUpdateImage devidx select image) = true) ->
  p (EcHashImage devidx select) = true ->
  p (EcGetExpectedImageHash devidx select) = true ->
  steps (made_only p) (update_ec P devidx select).
Proof.
  intros H1 H2 H3 H4. unfold update_ec. made_tac; auto.
Qed.

Lemma protect_ec_made (P : Platform) (p : ec_call -> bool)
      (devidx : Z) (select : VbSelectFirmware_t) :
  p (EcProtect devidx select) = true ->
  steps (made_only p) (protect_ec P devidx select).
Proof. intros H1. unfold protect_ec. made_tac; assumption. Qed.

Lemma ro_update_loop_made (P : Platform) (p : ec_call -> bool) (devidx : Z)
      (n : nat) :
  steps (made_only p) (update_ec P devidx VB_SELECT_FIRMWARE_READONLY) ->
  forall num_tries, steps (made_only p) (ro_update_loop P n num_tries devidx).
Proof.
  intros Hup. induction n as [|n IH]; intros num_tries; cbn [ro_update_loop].
  - made_tac.
  - apply steps_bind; [apply made_only_trans | exact Hup |].
    intros rv. destruct (rv =? VBERROR_SUCCESS); [made_tac | apply IH].
Qed.

Lemma for_device_refl_calls (d : Z) :
  for_device d (EcRunningRW d) = true
  /\ (forall s, for_device d (EcHashImage d s) = true)
  /\ (forall s, for_device d (EcGetExpectedImageHash d s) = true)
  /\ (forall s, for_device d (EcGetExpectedImage d s) = true)
  /\ (forall s i, for_device d (EcUpdateImage d s i) = true)
  /\ for_device d (EcJumpToRW d) = true
  /\ (forall s, for_device d (EcProtect d s) = true)
  /\ for_device d (EcDisableJump d) = true.
Proof. unfold for_device; cbn; repeat split; intros; apply Z.eqb_refl. Qed.

(** X4: every callback [sync_one_ec] makes for a device is addressed to
    that device, whatever the scratch flags are and whatever the platform
    answers. *)
Theorem sync_one_ec_own_device (P : Platform) (devidx : Z)
      (cparams : VbCommonParams) :
  steps (made_only (for_device devidx)) (sync_one_ec P devidx cparams).
Proof.
  destruct (for_device_refl_calls devidx)
    as (H1 & H2 & H3 & H4 & H5 & H6 & H7 & H8).
  assert (Hup : forall s,
             steps (made_only (for_device devidx)) (update_ec P devidx s))
    by (intros s; apply update_ec_made; auto).
  unfold sync_one_ec, or_return, sync_rw_update, sync_jump_to_rw,
    sync_ro_update, sync_protect_and_lock.
  made_tac; auto.
Qed.

(** X1: whatever the platform answers and whatever the mode, phase 1 only
    asks questions: every callback it makes is a running-image query, an
    image-hash request or an expected-hash request.  It never fetches an
    image, updates, protects, jumps or disables jumps. *)
Theorem phase1_only_queries (P : Platform) (PD_SYNC : bool)
        (cparams : VbCommonParams) (w : world) :
  made_only is_query w (snd (ec_sync_phase1 P PD_SYNC cparams w)).
Proof.
  revert w. change (steps (made_only is_query)
                          (ec_sync_phase1 P PD_SYNC cparams)).
  unfold ec_sync_phase1. made_tac; reflexivity.
Qed.

(** X2: phase 1 returns SUCCESS or REBOOT_TO_RO_REQUIRED and nothing
    else: the error codes of the callbacks and of [check_ec_hash] never
    reach the caller. *)
Theorem phase1_result_codes (P : Platform) (PD_SYNC : bool)
        (cparams : VbCommonParams) (w : world) :
  fst (ec_sync_phase1 P PD_SYNC cparams w) = VBERROR_SUCCESS
  \/ fst (ec_sync_phase1 P PD_SYNC cparams w)
     = VBERROR_EC_REBOOT_TO_RO_REQUIRED.
Proof.
  unfold ec_sync_phase1, bind, ret.
  repeat match goal with
         | |- context [let (_, _) := ?x in _] => destruct x
         | |- context [if ?b then _ else _] => destruct b
         end;
    cbn [fst]; auto.
Qed.

(** X3: when PD sync is not compiled in, or is disabled by the GBB flag,
    every callback of phase 1 and of phase 2 is addressed to device 0. *)
Theorem callbacks_stay_on_device (P : Platform) (PD_SYNC : bool)
        (cparams : VbCommonParams) (w : world) :
  do_pd_sync PD_SYNC cparams = false ->
  made_only (for_device 0) w (snd (ec_sync_phase1 P PD_SYNC cparams w))
  /\ made_only (for_device 0) w (snd (ec_sync_phase2 P PD_SYNC cparams w)).
Proof.
  intros Hpd. split.
  - revert w. change (steps (made_only (for_device 0))
                            (ec_sync_phase1 P PD_SYNC cparams)).
    unfold ec_sync_phase1. rewrite Hpd. made_tac; reflexivity.
  - revert w. change (steps (made_only (for_device 0))
                            (ec_sync_phase2 P PD_SYNC cparams)).
    unfold ec_sync_phase2. rewrite Hpd. made_tac; reflexivity.
Qed.

Lemma callbacks_stay_on_device_witness :
  do_pd_sync false cparams_sync_on = false
  /\ made_only (for_device 0) (world_of VB2_SD_FLAG_ECSYNC_EC_RW 0 nv_zero)
       (snd (ec_sync_phase2 healthy_platform false cparams_sync_on
               (world_of VB2_SD_FLAG_ECSYNC_EC_RW 0 nv_zero))).
Proof.
  split; [reflexivity|].
  apply (callbacks_stay_on_device healthy_platform false cparams_sync_on).
  reflexivity.
Defined.

(** ** Further properties of the engine: scratch flags and NV *)

(** Equalities of flag words, bit by bit. *)
Ltac bitwise :=
  apply Z.bits_inj'; intros n Hn;
  repeat match goal with
         | H : @eq Z _ _ |- _ =>
             apply (f_equal (fun z => Z.testbit z n)) in H; cbv beta in H;
             revert H
         end;
  rewrite ?Z.ldiff_spec, ?Z.land_spec, ?Z.lor_spec, ?Z.lnot_spec, ?Z.bits_0
    by exact Hn;
  repeat match goal with
         | |- context [Z.testbit ?x n] => destruct (Z.testbit x n)
         end;
  cbn; intros; congruence.

Lemma ldiff_lor_same (f b : Z) : Z.ldiff (Z.lor f b) b = Z.ldiff f b.
Proof. bitwise. Qed.

Lemma ldiff_land_lnot (f b : Z) : Z.ldiff (Z.land f (Z.lnot b)) b = Z.ldiff f b.
Proof. bitwise. Qed.

Lemma land_of_within (f f' b c : Z) :
  Z.land b c = 0 -> Z.ldiff f' b = Z.ldiff f b -> Z.land f' c = Z.land f c.
Proof. intros H1 H2. bitwise. Qed.

Lemma within_weaken_l (f f' b b' : Z) :
  Z.ldiff f' b = Z.ldiff f b ->
  Z.ldiff f' (Z.lor b b') = Z.ldiff f (Z.lor b b').
Proof. intros H. bitwise. Qed.

Lemma within_weaken_r (f f' b b' : Z) :
  Z.ldiff f' b' = Z.ldiff f b' ->
  Z.ldiff f' (Z.lor b b') = Z.ldiff f (Z.lor b b').
Proof. intros H. bitwise. Qed.

Lemma land_lor_absorb (f b : Z) : Z.land f (Z.lor f b) = f.
Proof. bitwise. Qed.

Lemma land_subset_trans (f f' f'' : Z) :
  Z.land f f' = f -> Z.land f' f'' = f' -> Z.land f f'' = f.
Proof. intros H1 H2. bitwise. Qed.

(** Runs a computation of the engine by cases on every answer and test. *)
Ltac run_ec :=
  unfold_ec;
  repeat (match goal with
          | |- context [if ?b then _ else _] => destruct b eqn:?
          | |- context [let (_, _) := ?x in _] => destruct x eqn:?
          end;
          cbn [fst snd ctx calls sd_flags sd_recovery_reason nv] in *).

Lemma check_ec_hash_effect (P : Platform) (d : Z) (s : VbSelectFirmware_t)
      (w : world) :
  let r := check_ec_hash P d s w in
  same_reason w (snd r)
  /\ (sd_flags (ctx (snd r)) = sd_flags (ctx w)
      \/ sd_flags (ctx (snd r)) = Z.lor (sd_flags (ctx w)) (WHICH_EC d s))
  /\ (fst r = VB2_SUCCESS -> same_nv w (snd r)).
Proof.
  unfold check_ec_hash, same_reason, same_nv. run_ec;
    (split; [reflexivity|]); split; auto; discriminate.
Qed.

Lemma check_ec_hash_healthy (P : Platform) (d : Z) (s : VbSelectFirmware_t)
      (w : world) :
  queries_succeed P -> fst (check_ec_hash P d s w) = VB2_SUCCESS.
Proof.
  intros (_ & Hh & He & Hlen). unfold check_ec_hash. unfold_ec.
  pose proof (Hh (calls w) d s) as H1.
  pose proof (He (calls w ++ [EcHashImage d s]) d s) as H2.
  pose proof (Hlen (calls w) (calls w ++ [EcHashImage d s]) d s) as H3.
  destruct (VbExEcHashImage P (calls w) d s) as [rv h].
  cbn [fst snd] in *. subst rv. change (nonzero VBERROR_SUCCESS) with false.
  cbv iota. cbn [calls].
  destruct (VbExEcGetExpectedImageHash P (calls w ++ [EcHashImage d s]) d s)
    as [rv' h'].
  cbn [fst snd] in *. subst rv'. change (nonzero VBERROR_SUCCESS) with false.
  cbv iota. rewrite H3, Z.eqb_refl. cbn [negb].
  destruct (nonzero (vb2_safe_memcmp h h')); reflexivity.
Qed.

Lemma check_ec_active_effect (P : Platform) (d : Z) (w : world) :
  let r := check_ec_active P d w in
  same_reason w (snd r)
  /\ (sd_flags (ctx (snd r)) = sd_flags (ctx w)
      \/ sd_flags (ctx (snd r)) = Z.lor (sd_flags (ctx w)) (IN_RW d))
  /\ (sd_recovery_reason (ctx w) = 0 ->
      fst (VbExEcRunningRW P (calls w) d) = VBERROR_SUCCESS ->
      fst r = VBERROR_SUCCESS /\ same_nv w (snd r))
  /\ (fst r = VBERROR_SUCCESS -> same_nv w (snd r)).
Proof.
  unfold check_ec_active, same_reason, same_nv. run_ec;
    (split; [reflexivity|]); (split; [auto|]); split;
    try (intros; discriminate); try (intros; reflexivity);
    intros Hrec Hrv; try (split; reflexivity);
    try (rewrite Hrec in *; discriminate);
    try (apply negb_true_iff, Z.eqb_neq in Heqb1; congruence);
    try (apply negb_true_iff, Z.eqb_neq in Heqb0; congruence).
Qed.

(** Goes through a computation for a relation with the given proofs of
    reflexivity and transitivity; the functions it calls are taken from
    the hypotheses. *)
Ltac steps_go refl trans :=
  repeat first
    [ assumption
    | match goal with
      | H : forall a b, steps _ _ |- steps _ _ => apply H
      | H : forall a, steps _ _ |- steps _ _ => apply H
      end
    | apply steps_ret; exact refl
    | match goal with
      | |- forall _, steps _ _ => intro
      | |- steps _ (if ?b then _ else _) => destruct b
      | |- steps _ (let (_, _) := ?x in _) => destruct x
      | |- steps _ (match ?o with Some _ => _ | None => _ end) => destruct o
      | |- steps _ (bind _ _) => apply steps_bind; [exact trans | |]
      | |- steps _ get_sd_flags => intro; apply refl
      | |- steps _ get_recovery_reason => intro; apply refl
      | |- steps _ (nv_get _) => intro; apply refl
      end ].

Lemma keeps_bits_refl (w : world) : keeps_bits w w.
Proof. split; [reflexivity | apply Z.land_diag]. Qed.

Lemma keeps_bits_trans (w1 w2 w3 : world) :
  keeps_bits w1 w2 -> keeps_bits w2 w3 -> keeps_bits w1 w3.
Proof.
  unfold keeps_bits, same_reason, flags_grow. intros [R1 F1] [R2 F2].
  split; [congruence | eapply land_subset_trans; eassumption].
Qed.

Lemma keeps_bits_of_lor (w w' : world) (b : Z) :
  same_reason w w' ->
  sd_flags (ctx w') = sd_flags (ctx w)
  \/ sd_flags (ctx w') = Z.lor (sd_flags (ctx w)) b ->
  keeps_bits w w'.
Proof.
  intros Hr Hf. split; [exact Hr|]. unfold flags_grow.
  destruct Hf as [-> | ->]; [apply Z.land_diag | apply land_lor_absorb].
Qed.

(** X5: phase 1 never clears a scratch bit and never changes the recovery
    reason of the boot: every bit set on entry (needs-update or in-RW) is
    still set on exit, whatever the platform answers. *)
Theorem phase1_only_adds_flags (P : Platform) (PD_SYNC : bool)
        (cparams : VbCommonParams) (w : world) :
  flags_grow w (snd (ec_sync_phase1 P PD_SYNC cparams w))
  /\ same_reason w (snd (ec_sync_phase1 P PD_SYNC cparams w)).
Proof.
  assert (Hhash : forall d s, steps keeps_bits (check_ec_hash P d s)).
  { intros d s w0. destruct (check_ec_hash_effect P d s w0) as (Hr & Hf & _).
    eapply keeps_bits_of_lor; eassumption. }
  assert (Hact : forall d, steps keeps_bits (check_ec_active P d)).
  { intros d w0. destruct (check_ec_active_effect P d w0) as (Hr & Hf & _).
    eapply keeps_bits_of_lor; eassumption. }
  assert (H : steps keeps_bits (ec_sync_phase1 P PD_SYNC cparams)).
  { unfold ec_sync_phase1. steps_go keeps_bits_refl keeps_bits_trans. }
  destruct (H w) as [Hr Hf]. split; assumption.
Qed.

Lemma quiet_refl (w : world) : quiet_in_normal_mode w w.
Proof. intros _. split; reflexivity. Qed.

Lemma quiet_trans (w1 w2 w3 : world) :
  quiet_in_normal_mode w1 w2 -> quiet_in_normal_mode w2 w3 ->
  quiet_in_normal_mode w1 w3.
Proof.
  unfold quiet_in_normal_mode, same_nv, same_reason. intros H1 H2 Hn.
  destruct (H1 Hn) as [N1 R1].
  destruct (H2 (eq_trans R1 Hn)) as [N2 R2]. split; congruence.
Qed.

(** X6: on a platform whose queries never fail and whose digests have the
    expected length, phase 1 of a normal-mode boot writes nothing to NV:
    a digest that differs only schedules an update, and "update pending
    while the EC runs RW" is answered with REBOOT_TO_RO_REQUIRED without a
    recovery request. *)
Theorem phase1_healthy_keeps_nv (P : Platform) (PD_SYNC : bool)
        (cparams : VbCommonParams) (w : world) :
  queries_succeed P ->
  sd_recovery_reason (ctx w) = 0 ->
  nv (ctx (snd (ec_sync_phase1 P PD_SYNC cparams w))) = nv (ctx w).
Proof.
  intros Hq Hnormal.
  assert (Hhash : forall d s, steps quiet_in_normal_mode (check_ec_hash P d s)).
  { intros d s w0 _. destruct (check_ec_hash_effect P d s w0) as (Hr & _ & Hn).
    split; [apply Hn, check_ec_hash_healthy, Hq | exact Hr]. }
  assert (Hact : forall d, steps quiet_in_normal_mode (check_ec_active P d)).
  { intros d w0 Hn0.
    destruct (check_ec_active_effect P d w0) as (Hr & _ & Hn & _).
    split; [apply Hn; [exact Hn0 | apply Hq] | exact Hr]. }
  assert (H : steps quiet_in_normal_mode (ec_sync_phase1 P PD_SYNC cparams)).
  { unfold ec_sync_phase1. steps_go quiet_refl quiet_trans. }
  apply (H w Hnormal).
Qed.

Lemma phase1_healthy_keeps_nv_witness :
  queries_succeed healthy_platform
  /\ sd_recovery_reason (ctx (world_of 0 0 nv_pending)) = 0
  /\ nv (ctx (snd (ec_sync_phase1 healthy_platform true cparams_sync_on
                     (world_of 0 0 nv_pending))))
     = nv_pending.
Proof.
  assert (Hq : queries_succeed healthy_platform)
    by (repeat split; intros; reflexivity).
  split; [exact Hq|]. split; [reflexivity|].
  exact (phase1_healthy_keeps_nv healthy_platform true cparams_sync_on
           (world_of 0 0 nv_pending) Hq eq_refl).
Defined.

(** Runs phase 1 by cases, noting what each check leaves behind. *)
Ltac run_phase1 :=
  repeat (cbv beta iota;
          match goal with
          | |- context [check_ec_active ?P ?d ?w] =>
              let H := fresh "Hact" in
              pose proof (check_ec_active_effect P d w) as H; cbv zeta in H;
              destruct (check_ec_active P d w) as [? ?]; cbn [fst snd] in H
          | |- context [check_ec_hash ?P ?d ?s ?w] =>
              let H := fresh "Hhash" in
              pose proof (check_ec_hash_effect P d s w) as H; cbv zeta in H;
              destruct (check_ec_hash P d s w) as [? ?]; cbn [fst snd] in H
          | |- context [if ?b then _ else _] => destruct b eqn:?
          end).

(** X7: in a normal-mode boot with sync enabled, when phase 1 returns
    SUCCESS the scratch flags it leaves never say both "an RW image needs
    an update" and "a device runs RW": phase 2 is not entered with an RW
    update pending on a running RW image. *)
Theorem phase1_success_not_pending_in_rw (P : Platform) (PD_SYNC : bool)
        (cparams : VbCommonParams) (w : world) :
  sync_enabled cparams ->
  sd_recovery_reason (ctx w) = 0 ->
  fst (ec_sync_phase1 P PD_SYNC cparams w) = VBERROR_SUCCESS ->
  ~ (flag_set (sd_flags (ctx (snd (ec_sync_phase1 P PD_SYNC cparams w))))
              VB2_SD_FLAG_ECSYNC_RW
     /\ flag_set (sd_flags (ctx (snd (ec_sync_phase1 P PD_SYNC cparams w))))
                 VB2_SD_FLAG_ECSYNC_IN_RW).
Proof.
  intros [Hon Hgbb] Hnormal.
  apply nonzero_true in Hon. apply nonzero_false in Hgbb.
  unfold ec_sync_phase1. rewrite Hon, Hgbb. cbn [negb].
  unfold bind, ret, get_recovery_reason, nv_get, get_sd_flags.
  run_phase1; cbn [fst snd]; intros Hres; try discriminate Hres;
    unfold flag_set, same_reason in *;
    repeat match goal with H : _ /\ _ |- _ => destruct H end.
  all: try match goal with
           | Hb : nonzero (sd_recovery_reason (ctx ?x)) = true |- _ =>
               assert (E : sd_recovery_reason (ctx x) = 0) by congruence;
               rewrite E in Hb; discriminate Hb
           end.
  all: match goal with
       | Hb : _ && _ = false |- _ =>
           apply andb_false_iff in Hb; destruct Hb as [Hb | Hb];
           apply nonzero_false in Hb; intros [? ?]; congruence
       end.
Qed.

Lemma phase1_success_not_pending_in_rw_witness :
  sync_enabled cparams_sync_on
  /\ sd_recovery_reason (ctx (world_of VB2_SD_FLAG_ECSYNC_EC_RW 0 nv_zero)) = 0
  /\ fst (ec_sync_phase1 healthy_platform false cparams_sync_on
            (world_of VB2_SD_FLAG_ECSYNC_EC_RW 0 nv_zero)) = VBERROR_SUCCESS
  /\ ~ (flag_set
          (sd_flags
             (ctx (snd (ec_sync_phase1 healthy_platform false cparams_sync_on
                          (world_of VB2_SD_FLAG_ECSYNC_EC_RW 0 nv_zero)))))
          VB2_SD_FLAG_ECSYNC_RW
        /\ flag_set
             (sd_flags
                (ctx (snd (ec_sync_phase1 healthy_platform false
                             cparams_sync_on
                             (world_of VB2_SD_FLAG_ECSYNC_EC_RW 0 nv_zero)))))
             VB2_SD_FLAG_ECSYNC_IN_RW).
Proof.
  assert (Hon : sync_enabled cparams_sync_on)
    by (split; [cbv; discriminate | reflexivity]).
  split; [exact Hon|]. split; [reflexivity|]. split; [reflexivity|].
  exact (phase1_success_not_pending_in_rw healthy_platform false
           cparams_sync_on (world_of VB2_SD_FLAG_ECSYNC_EC_RW 0 nv_zero)
           Hon eq_refl eq_refl).
Defined.

(** ** Further properties of the engine: phase 2 *)

(** Runs a computation by cases, taking what the checks leave behind from
    their lemmas. *)
Ltac run_checks :=
  unfold_ec;
  repeat (cbv beta iota;
          cbn [fst snd ctx calls sd_flags sd_recovery_reason nv] in *;
          match goal with
          | |- context [check_ec_active ?P ?d ?w] =>
              let H := fresh "Hact" in
              pose proof (check_ec_active_effect P d w) as H; cbv zeta in H;
              destruct (check_ec_active P d w) as [? ?]; cbn [fst snd] in H
          | |- context [check_ec_hash ?P ?d ?s ?w] =>
              let H := fresh "Hhash" in
              pose proof (check_ec_hash_effect P d s w) as H; cbv zeta in H;
              destruct (check_ec_hash P d s w) as [? ?]; cbn [fst snd] in H
          | |- context [if ?b then _ else _] => destruct b eqn:?
          | |- context [let (_, _) := ?x in _] => destruct x eqn:?
          end).

Lemma update_ec_effect (P : Platform) (d : Z) (s : VbSelectFirmware_t)
      (w : world) :
  let r := update_ec P d s w in
  same_reason w (snd r)
  /\ flags_within (WHICH_EC d s) w (snd r)
  /\ (fst r = VBERROR_SUCCESS ->
      Z.land (sd_flags (ctx (snd r))) (WHICH_EC d s) = 0
      /\ same_nv w (snd r)).
Proof.
  unfold update_ec, same_reason, same_nv, flags_within.
  run_checks; cbn [fst snd ctx calls sd_flags sd_recovery_reason nv] in *;
    repeat match goal with
           | H : _ /\ _ |- _ => destruct H
           | H : _ \/ _ |- _ => destruct H
           end;
    unfold same_reason, same_nv in *;
    cbn [fst snd ctx calls sd_flags sd_recovery_reason nv] in *;
    (split; [congruence|]);
    (split;
     [ repeat match goal with H : sd_flags _ = _ |- _ => rewrite H end;
       rewrite ?ldiff_lor_same, ?ldiff_land_lnot; reflexivity |]);
    intros Hres.
  all: try (cbv in Hres; discriminate Hres).
  all: try (subst; discriminate).
  all: try match goal with
           | Hn : negb (?x =? VBERROR_SUCCESS) = true |- _ =>
               rewrite Hres in Hn; discriminate Hn
           end.
  all: match goal with
       | Hz : nonzero (Z.land _ _) = false,
         Hv : vb2_failed ?rc = false, Hk : ?rc = VB2_SUCCESS -> _ |- _ =>
           apply nonzero_false in Hz; split; [exact Hz|];
           destruct rc; try discriminate Hv; rewrite (Hk eq_refl); reflexivity
       end.
Qed.

Lemma select_rw_not_readonly (cparams : VbCommonParams) :
  is_readonly (select_rw_of cparams) = false.
Proof. unfold select_rw_of. destruct (nonzero _); reflexivity. Qed.

Lemma rw_bit_in_mask (f d : Z) (s : VbSelectFirmware_t) :
  is_readonly s = false ->
  Z.land f VB2_SD_FLAG_ECSYNC_RW = 0 -> Z.land f (WHICH_EC d s) = 0.
Proof.
  intros Hs. unfold WHICH_EC, VB2_SD_FLAG_ECSYNC_RW. rewrite Hs.
  rewrite Z.land_lor_distr_r, Z.lor_eq_0_iff. intros [H1 H2].
  destruct (nonzero d); assumption.
Qed.

Lemma ro_bit_apart (d : Z) (s : VbSelectFirmware_t) :
  is_readonly s = false ->
  Z.land VB2_SD_FLAG_ECSYNC_EC_RO (WHICH_EC d s) = 0.
Proof.
  intros Hs. unfold WHICH_EC. rewrite Hs. destruct (nonzero d); reflexivity.
Qed.

Lemma sync_rw_update_effect (P : Platform) (d : Z) (s : VbSelectFirmware_t)
      (w : world) :
  is_readonly s = false ->
  let r := sync_rw_update P d s w in
  same_reason w (snd r)
  /\ flags_within (WHICH_EC d s) w (snd r)
  /\ (fst r = None -> Z.land (sd_flags (ctx (snd r))) (WHICH_EC d s) = 0)
  /\ (fst r = None \/ fst r = Some VBERROR_EC_REBOOT_TO_RO_REQUIRED).
Proof.
  intros Hs. cbv zeta. rewrite sync_rw_update_runs_iff.
  destruct (nonzero (Z.land (sd_flags (ctx w)) VB2_SD_FLAG_ECSYNC_RW)) eqn:Hm.
  - destruct (update_ec_effect P d s w) as (Hr & Hf & Hok).
    cbv zeta. cbn [fst snd].
    split; [exact Hr|]. split; [exact Hf|].
    destruct (fst (update_ec P d s w) =? VBERROR_SUCCESS) eqn:Hrv; cbn [negb].
    + split; [|left; reflexivity].
      intros _. apply Z.eqb_eq in Hrv. apply Hok, Hrv.
    + split; [discriminate | right; reflexivity].
  - cbn [fst snd]. split; [reflexivity|]. split; [reflexivity|].
    split; [|left; reflexivity].
    intros _. apply nonzero_false in Hm. apply rw_bit_in_mask; assumption.
Qed.

Lemma sync_jump_to_rw_effect (P : Platform) (d : Z) (w : world) :
  let r := sync_jump_to_rw P d w in
  same_reason w (snd r)
  /\ sd_flags (ctx (snd r)) = sd_flags (ctx w)
  /\ (fst r = None \/ fst r = Some VBERROR_EC_REBOOT_TO_RO_REQUIRED).
Proof.
  unfold sync_jump_to_rw, same_reason. run_ec; auto.
Qed.

Lemma sync_ro_update_effect (P : Platform) (d : Z) (w : world) :
  let r := sync_ro_update P d w in
  same_reason w (snd r)
  /\ flags_within VB2_SD_FLAG_ECSYNC_EC_RO w (snd r)
  /\ (fst r = None ->
      Z.land (sd_flags (ctx (snd r))) VB2_SD_FLAG_ECSYNC_EC_RO = 0)
  /\ (fst r = None \/ fst r = Some VBERROR_EC_REBOOT_TO_RO_REQUIRED)
  /\ (Z.land (sd_flags (ctx w)) VB2_SD_FLAG_ECSYNC_EC_RO = 0 -> snd r = w).
Proof.
  cbv zeta. destruct (sync_ro_update P d w) as [res w'] eqn:E.
  cbn [fst snd]. unfold sync_ro_update in E.
  unfold bind at 1 in E. unfold get_sd_flags at 1 in E.
  unfold same_reason, flags_within.
  destruct (nonzero (Z.land (sd_flags (ctx w)) VB2_SD_FLAG_ECSYNC_EC_RO))
    eqn:Hro.
  2:{ apply nonzero_false in Hro. inversion E; subst res w'.
      repeat split; auto. }
  apply nonzero_true in Hro.
  unfold bind at 1 in E.
  set (w1 := snd (nv_set VB2_NV_TRY_RO_SYNC 0 w)) in *.
  change (nv_set VB2_NV_TRY_RO_SYNC 0 w) with (tt, w1) in E.
  unfold bind at 1 in E. unfold nv_get at 1 in E.
  unfold bind at 1 in E. rewrite ro_update_loop_two in E.
  destruct (update_ec_effect P d VB_SELECT_FIRMWARE_READONLY w1)
    as (Hr1 & Hf1 & Hok1).
  destruct (update_ec_effect P d VB_SELECT_FIRMWARE_READONLY
              (snd (update_ec P d VB_SELECT_FIRMWARE_READONLY w1)))
    as (Hr2 & Hf2 & Hok2).
  change (WHICH_EC d VB_SELECT_FIRMWARE_READONLY)
    with VB2_SD_FLAG_ECSYNC_EC_RO in *.
  unfold same_reason, flags_within in *.
  assert (Hw1r : sd_recovery_reason (ctx w1) = sd_recovery_reason (ctx w))
    by reflexivity.
  assert (Hw1f : sd_flags (ctx w1) = sd_flags (ctx w)) by reflexivity.
  destruct (fst (update_ec P d VB_SELECT_FIRMWARE_READONLY w1)
            =? VBERROR_SUCCESS) eqn:E1.
  - apply Z.eqb_eq in E1. destruct (Hok1 E1) as [Hz1 _].
    inversion E; subst res w'.
    split; [congruence|]. split; [congruence|].
    split; [intros _; exact Hz1|]. split; [left; reflexivity|].
    intros Hz. contradiction.
  - destruct (fst (update_ec P d VB_SELECT_FIRMWARE_READONLY
                     (snd (update_ec P d VB_SELECT_FIRMWARE_READONLY w1)))
              =? VBERROR_SUCCESS) eqn:E2.
    + apply Z.eqb_eq in E2. destruct (Hok2 E2) as [Hz2 _].
      inversion E; subst res w'.
      cbn [fst snd ctx sd_flags sd_recovery_reason].
      split; [congruence|]. split; [congruence|].
      split; [intros _; exact Hz2|]. split; [left; reflexivity|].
      intros Hz. contradiction.
    + inversion E; subst res w'.
      split; [congruence|]. split; [congruence|].
      split; [discriminate|]. split; [right; reflexivity|].
      intros Hz. contradiction.
Qed.

Lemma sync_protect_and_lock_effect (P : Platform) (d : Z)
      (s : VbSelectFirmware_t) (w : world) :
  let r := sync_protect_and_lock P d s w in
  same_reason w (snd r)
  /\ sd_flags (ctx (snd r)) = sd_flags (ctx w)
  /\ (fst r = VBERROR_SUCCESS ->
      calls (snd r)
      = calls w ++ [EcProtect d VB_SELECT_FIRMWARE_READONLY;
                    EcProtect d s; EcDisableJump d]
      /\ same_nv w (snd r)).
Proof.
  unfold sync_protect_and_lock, protect_ec, same_reason, same_nv.
  run_ec; (split; [reflexivity|]); (split; [reflexivity|]); intros Hres;
    try (cbv in Hres; discriminate Hres).
  all: try match goal with
           | Hn : negb (?x =? VBERROR_SUCCESS) = true |- _ =>
               rewrite Hres in Hn; discriminate Hn
           end.
  all: try match goal with H : false = true |- _ => discriminate H end.
  all: rewrite <- !app_assoc; split; reflexivity.
Qed.

(** What [sync_one_ec] leaves behind. *)
Lemma sync_one_ec_effect (P : Platform) (d : Z) (cparams : VbCommonParams)
      (w : world) :
  let r := sync_one_ec P d cparams w in
  let b := WHICH_EC d (select_rw_of cparams) in
  same_reason w (snd r)
  /\ flags_within (Z.lor b VB2_SD_FLAG_ECSYNC_EC_RO) w (snd r)
  /\ (fst r = VBERROR_SUCCESS ->
      Z.land (sd_flags (ctx (snd r))) b = 0
      /\ Z.land (sd_flags (ctx (snd r))) VB2_SD_FLAG_ECSYNC_EC_RO = 0
      /\ exists before,
           calls (snd r)
           = calls w ++ before
               ++ [EcProtect d VB_SELECT_FIRMWARE_READONLY;
                   EcProtect d (select_rw_of cparams); EcDisableJump d]).
Proof.
  cbv zeta. pose proof (select_rw_not_readonly cparams) as Hs.
  set (sel := select_rw_of cparams) in *.
  set (b := WHICH_EC d sel).
  assert (Hany : forall c : ec_call, (fun _ : ec_call => true) c = true)
    by reflexivity.
  assert (G1 : steps (made_only (fun _ => true)) (sync_rw_update P d sel))
    by (unfold sync_rw_update; made_tac; reflexivity).
  assert (G2 : steps (made_only (fun _ => true)) (sync_jump_to_rw P d))
    by (unfold sync_jump_to_rw; made_tac; reflexivity).
  assert (G3 : steps (made_only (fun _ => true)) (sync_ro_update P d))
    by (unfold sync_ro_update; made_tac; reflexivity).
  destruct (sync_one_ec P d cparams w) as [res w'] eqn:E.
  cbn [fst snd]. unfold sync_one_ec, or_return in E. fold sel in E.
  unfold bind at 1 in E.
  destruct (sync_rw_update_effect P d sel w Hs) as (R1 & F1 & Z1 & C1).
  specialize (G1 w).
  destruct (sync_rw_update P d sel w) as [r1 w1]. cbn [fst snd] in *.
  fold b in F1, Z1. unfold same_reason, flags_within in *.
  destruct r1 as [rv1|].
  { destruct C1 as [C1 | C1]; [discriminate C1|]. inversion C1; subst rv1.
    inversion E; subst res w'.
    split; [exact R1|]. split; [apply within_weaken_l, F1|].
    intros Hres. cbv in Hres. discriminate Hres. }
  specialize (Z1 eq_refl).
  unfold bind at 1 in E.
  destruct (sync_jump_to_rw_effect P d w1) as (R2 & F2 & C2).
  specialize (G2 w1).
  destruct (sync_jump_to_rw P d w1) as [r2 w2]. cbn [fst snd] in *.
  unfold same_reason in *.
  destruct r2 as [rv2|].
  { destruct C2 as [C2 | C2]; [discriminate C2|]. inversion C2; subst rv2.
    inversion E; subst res w'.
    split; [congruence|]. split; [rewrite F2; apply within_weaken_l, F1|].
    intros Hres. cbv in Hres. discriminate Hres. }
  unfold bind at 1 in E.
  destruct (sync_ro_update_effect P d w2) as (R3 & F3 & Z3 & C3 & _).
  specialize (G3 w2).
  destruct (sync_ro_update P d w2) as [r3 w3]. cbn [fst snd] in *.
  unfold same_reason, flags_within in *.
  assert (F13 : Z.ldiff (sd_flags (ctx w3)) (Z.lor b VB2_SD_FLAG_ECSYNC_EC_RO)
                = Z.ldiff (sd_flags (ctx w)) (Z.lor b VB2_SD_FLAG_ECSYNC_EC_RO)).
  { rewrite (within_weaken_r _ _ b _ F3), F2. apply within_weaken_l, F1. }
  destruct r3 as [rv3|].
  { destruct C3 as [C3 | C3]; [discriminate C3|]. inversion C3; subst rv3.
    inversion E; subst res w'.
    split; [congruence|]. split; [exact F13|].
    intros Hres. cbv in Hres. discriminate Hres. }
  specialize (Z3 eq_refl).
  destruct (sync_protect_and_lock_effect P d sel w3) as (R4 & F4 & C4).
  rewrite E in *. cbn [fst snd] in *. unfold same_reason in *.
  split; [congruence|]. split; [rewrite F4; exact F13|].
  intros Hres. destruct (C4 Hres) as [Hcalls _].
  rewrite F4. split; [|split; [exact Z3|]].
  - rewrite (land_of_within _ _ _ b (ro_bit_apart d sel Hs) F3), F2.
    exact Z1.
  - destruct G1 as (m1 & Hm1 & _). destruct G2 as (m2 & Hm2 & _).
    destruct G3 as (m3 & Hm3 & _).
    exists (m1 ++ m2 ++ m3).
    rewrite Hcalls, Hm3, Hm2, Hm1, <- !app_assoc. reflexivity.
Qed.

(** X8: when [sync_one_ec] returns SUCCESS for a device, the last three
    callbacks it made are, in this order, protect of the RO image, protect
    of the active RW slot, and disable-jump, all for that device. *)
Theorem sync_one_ec_success_locks_last (P : Platform) (d : Z)
        (cparams : VbCommonParams) (w : world) :
  fst (sync_one_ec P d cparams w) = VBERROR_SUCCESS ->
  exists before,
    calls (snd (sync_one_ec P d cparams w))
    = calls w ++ before
        ++ [EcProtect d VB_SELECT_FIRMWARE_READONLY;
            EcProtect d (select_rw_of cparams); EcDisableJump d].
Proof.
  intros Hres.
  destruct (sync_one_ec_effect P d cparams w) as (_ & _ & Hok).
  destruct (Hok Hres) as (_ & _ & Hcalls). exact Hcalls.
Qed.

Lemma sync_one_ec_success_locks_last_witness :
  fst (sync_one_ec healthy_platform 0 cparams_sync_on
         (world_of VB2_SD_FLAG_ECSYNC_EC_RW 0 nv_zero)) = VBERROR_SUCCESS
  /\ exists before,
       calls (snd (sync_one_ec healthy_platform 0 cparams_sync_on
                     (world_of VB2_SD_FLAG_ECSYNC_EC_RW 0 nv_zero)))
       = calls (world_of VB2_SD_FLAG_ECSYNC_EC_RW 0 nv_zero) ++ before
           ++ [EcProtect 0 VB_SELECT_FIRMWARE_READONLY;
               EcProtect 0 (select_rw_of cparams_sync_on); EcDisableJump 0].
Proof.
  split; [reflexivity|].
  exact (sync_one_ec_success_locks_last healthy_platform 0 cparams_sync_on
           (world_of VB2_SD_FLAG_ECSYNC_EC_RW 0 nv_zero) eq_refl).
Defined.

Lemma which_ec_rw (d : Z) (s : VbSelectFirmware_t) :
  is_readonly s = false ->
  WHICH_EC d s = if nonzero d then VB2_SD_FLAG_ECSYNC_PD_RW
                 else VB2_SD_FLAG_ECSYNC_EC_RW.
Proof. intros Hs. unfold WHICH_EC. rewrite Hs. reflexivity. Qed.

(** X9: in a normal-mode boot with sync enabled, when phase 2 returns
    SUCCESS the scratch flags it leaves have EC_RO_NEEDS_UPDATE and
    EC_RW_NEEDS_UPDATE clear, and PD_RW_NEEDS_UPDATE clear as well when PD
    sync is compiled in and not disabled by the GBB flag. *)
Theorem phase2_success_clears_needs_update (P : Platform) (PD_SYNC : bool)
        (cparams : VbCommonParams) (w : world) :
  sync_enabled cparams ->
  sd_recovery_reason (ctx w) = 0 ->
  fst (ec_sync_phase2 P PD_SYNC cparams w) = VBERROR_SUCCESS ->
  let f' := sd_flags (ctx (snd (ec_sync_phase2 P PD_SYNC cparams w))) in
  Z.land f' VB2_SD_FLAG_ECSYNC_EC_RO = 0
  /\ Z.land f' VB2_SD_FLAG_ECSYNC_EC_RW = 0
  /\ (do_pd_sync PD_SYNC cparams = true ->
      Z.land f' VB2_SD_FLAG_ECSYNC_PD_RW = 0).
Proof.
  intros [Hon Hgbb] Hnormal. cbv zeta.
  apply nonzero_true in Hon. apply nonzero_false in Hgbb.
  pose proof (select_rw_not_readonly cparams) as Hs.
  destruct (ec_sync_phase2 P PD_SYNC cparams w) as [res w'] eqn:E.
  cbn [fst snd]. intros Hres. subst res.
  unfold ec_sync_phase2 in E. rewrite Hon, Hgbb in E. cbn [negb] in E.
  unfold bind at 1 in E. unfold get_recovery_reason at 1 in E.
  rewrite Hnormal in E. change (nonzero 0) with false in E. cbv iota in E.
  unfold bind at 1 in E.
  destruct (sync_one_ec_effect P 0 cparams w) as (R0 & F0 & Ok0).
  rewrite (which_ec_rw 0 _ Hs) in F0, Ok0.
  change (nonzero 0) with false in F0, Ok0. cbv iota in F0, Ok0.
  destruct (sync_one_ec P 0 cparams w) as [rv0 w0]. cbn [fst snd] in *.
  destruct (rv0 =? VBERROR_SUCCESS) eqn:E0; cbn [negb] in E.
  2:{ inversion E; subst rv0. discriminate E0. }
  apply Z.eqb_eq in E0. destruct (Ok0 E0) as (Zrw & Zro & _).
  destruct (do_pd_sync PD_SYNC cparams).
  - unfold bind at 1 in E.
    destruct (sync_one_ec_effect P 1 cparams w0) as (R1 & F1 & Ok1).
    rewrite (which_ec_rw 1 _ Hs) in F1, Ok1.
    change (nonzero 1) with true in F1, Ok1. cbv iota in F1, Ok1.
    destruct (sync_one_ec P 1 cparams w0) as [rv1 w1]. cbn [fst snd] in *.
    destruct (rv1 =? VBERROR_SUCCESS) eqn:E1; cbn [negb] in E.
    2:{ inversion E; subst rv1. discriminate E1. }
    apply Z.eqb_eq in E1. destruct (Ok1 E1) as (Zpd & Zro1 & _).
    inversion E; subst w'. unfold flags_within in F1.
    split; [exact Zro1|]. split; [|intros _; exact Zpd].
    rewrite (land_of_within
               _ _ (Z.lor VB2_SD_FLAG_ECSYNC_PD_RW VB2_SD_FLAG_ECSYNC_EC_RO)
               VB2_SD_FLAG_ECSYNC_EC_RW eq_refl F1).
    exact Zrw.
  - inversion E; subst w'.
    split; [exact Zro|]. split; [exact Zrw | discriminate].
Qed.

Lemma phase2_success_clears_needs_update_witness :
  sync_enabled cparams_sync_on
  /\ sd_recovery_reason (ctx (world_of VB2_SD_FLAG_ECSYNC_ANY 0 nv_zero)) = 0
  /\ fst (ec_sync_phase2 healthy_platform true cparams_sync_on
            (world_of VB2_SD_FLAG_ECSYNC_ANY 0 nv_zero)) = VBERROR_SUCCESS
  /\ Z.land
       (sd_flags
          (ctx (snd (ec_sync_phase2 healthy_platform true cparams_sync_on
                       (world_of VB2_SD_FLAG_ECSYNC_ANY 0 nv_zero)))))
       VB2_SD_FLAG_ECSYNC_EC_RO = 0.
Proof.
  assert (Hon : sync_enabled cparams_sync_on)
    by (split; [cbv; discriminate | reflexivity]).
  split; [exact Hon|]. split; [reflexivity|]. split; [reflexivity|].
  exact (proj1 (phase2_success_clears_needs_update healthy_platform true
                  cparams_sync_on (world_of VB2_SD_FLAG_ECSYNC_ANY 0 nv_zero)
                  Hon eq_refl eq_refl)).
Defined.

Lemma leaves_pd_ro_rw (d : Z) (cparams : VbCommonParams) :
  leaves_pd_ro (EcHashImage d (select_rw_of cparams)) = true
  /\ leaves_pd_ro (EcGetExpectedImageHash d (select_rw_of cparams)) = true
  /\ leaves_pd_ro (EcGetExpectedImage d (select_rw_of cparams)) = true
  /\ (forall image,
         leaves_pd_ro (EcUpdateImage d (select_rw_of cparams) image) = true).
Proof.
  unfold select_rw_of. destruct (nonzero (firmware_index _));
    repeat split; reflexivity.
Qed.

(** [sync_one_ec] entered with EC_RO_NEEDS_UPDATE clear does not touch an
    RO image at all. *)
Lemma sync_one_ec_leaves_pd_ro (P : Platform) (d : Z)
      (cparams : VbCommonParams) (w : world) :
  Z.land (sd_flags (ctx w)) VB2_SD_FLAG_ECSYNC_EC_RO = 0 ->
  made_only leaves_pd_ro w (snd (sync_one_ec P d cparams w)).
Proof.
  intros Hro. pose proof (select_rw_not_readonly cparams) as Hs.
  destruct (leaves_pd_ro_rw d cparams) as (L1 & L2 & L3 & L4).
  set (sel := select_rw_of cparams) in *.
  assert (G1 : steps (made_only leaves_pd_ro) (sync_rw_update P d sel))
    by (unfold sync_rw_update; made_tac; auto).
  assert (G2 : steps (made_only leaves_pd_ro) (sync_jump_to_rw P d))
    by (unfold sync_jump_to_rw; made_tac; reflexivity).
  assert (G4 : steps (made_only leaves_pd_ro) (sync_protect_and_lock P d sel))
    by (unfold sync_protect_and_lock; made_tac; reflexivity).
  destruct (sync_one_ec P d cparams w) as [res w'] eqn:E.
  cbn [snd]. unfold sync_one_ec, or_return in E. fold sel in E.
  unfold bind at 1 in E.
  destruct (sync_rw_update_effect P d sel w Hs) as (_ & F1 & _).
  specialize (G1 w).
  destruct (sync_rw_update P d sel w) as [r1 w1]. cbn [fst snd] in *.
  destruct r1 as [rv1|]; [inversion E; subst; exact G1|].
  unfold bind at 1 in E.
  destruct (sync_jump_to_rw_effect P d w1) as (_ & F2 & _).
  specialize (G2 w1).
  destruct (sync_jump_to_rw P d w1) as [r2 w2]. cbn [fst snd] in *.
  pose proof (made_only_trans _ _ _ _ G1 G2) as G12.
  destruct r2 as [rv2|]; [inversion E; subst; exact G12|].
  unfold bind at 1 in E.
  assert (Hro2 : Z.land (sd_flags (ctx w2)) VB2_SD_FLAG_ECSYNC_EC_RO = 0).
  { rewrite F2. unfold flags_within in F1.
    rewrite (land_of_within _ _ (WHICH_EC d sel) VB2_SD_FLAG_ECSYNC_EC_RO
               (eq_trans (Z.land_comm _ _) (ro_bit_apart d sel Hs)) F1).
    exact Hro. }
  destruct (sync_ro_update_effect P d w2) as (_ & _ & _ & _ & Hsame).
  specialize (Hsame Hro2).
  destruct (sync_ro_update P d w2) as [r3 w3]. cbn [fst snd] in *. subst w3.
  destruct r3 as [rv3|]; [inversion E; subst; exact G12|].
  specialize (G4 w2). rewrite E in G4. cbn [snd] in G4.
  exact (made_only_trans _ _ _ _ G12 G4).
Qed.

(** X10: the RO image of a device other than the main EC is never hashed,
    fetched or updated, by phase 1 or by phase 2, whatever the scratch
    flags are on entry and whatever the platform answers: [sync_one_ec]
    tests EC_RO_NEEDS_UPDATE for every device, but that bit is clear once
    device 0 has been synced. *)
Theorem engine_never_touches_pd_ro (P : Platform) (PD_SYNC : bool)
        (cparams : VbCommonParams) (w : world) :
  made_only leaves_pd_ro w (snd (ec_sync_phase1 P PD_SYNC cparams w))
  /\ made_only leaves_pd_ro w (snd (ec_sync_phase2 P PD_SYNC cparams w)).
Proof.
  destruct (leaves_pd_ro_rw 0 cparams) as (A1 & A2 & A3 & A4).
  destruct (leaves_pd_ro_rw 1 cparams) as (B1 & B2 & B3 & B4).
  split.
  - revert w. change (steps (made_only leaves_pd_ro)
                            (ec_sync_phase1 P PD_SYNC cparams)).
    unfold ec_sync_phase1. made_tac; auto.
  - assert (G0 : steps (made_only leaves_pd_ro) (sync_one_ec P 0 cparams)).
    { unfold sync_one_ec, or_return, sync_rw_update, sync_jump_to_rw,
        sync_ro_update, sync_protect_and_lock.
      made_tac; auto. }
    destruct (ec_sync_phase2 P PD_SYNC cparams w) as [res w'] eqn:E.
    cbn [snd]. unfold ec_sync_phase2 in E.
    destruct (negb _); [inversion E; apply made_only_refl|].
    destruct (nonzero (Z.land (gbb_flags cparams) _));
      [inversion E; apply made_only_refl|].
    unfold bind at 1 in E. unfold get_recovery_reason at 1 in E.
    destruct (nonzero (sd_recovery_reason (ctx w)));
      [inversion E; apply made_only_refl|].
    unfold bind at 1 in E.
    destruct (sync_one_ec_effect P 0 cparams w) as (_ & _ & Ok0).
    specialize (G0 w).
    destruct (sync_one_ec P 0 cparams w) as [rv0 w0]. cbn [fst snd] in *.
    destruct (rv0 =? VBERROR_SUCCESS) eqn:E0; cbn [negb] in E;
      [|inversion E; subst; exact G0].
    apply Z.eqb_eq in E0. destruct (Ok0 E0) as (_ & Zro & _).
    destruct (do_pd_sync PD_SYNC cparams); [|inversion E; subst; exact G0].
    unfold bind at 1 in E.
    pose proof (sync_one_ec_leaves_pd_ro P 1 cparams w0 Zro) as G1.
    destruct (sync_one_ec P 1 cparams w0) as [rv1 w1]. cbn [snd] in G1.
    pose proof (made_only_trans _ _ _ _ G0 G1) as G01.
    destruct (negb (rv1 =? VBERROR_SUCCESS)); inversion E; subst; exact G01.
Qed.

(** X11: the three tiers of failure of protect, jump and image update.
    REBOOT_TO_RO_REQUIRED answered by the platform is passed on and the
    context (scratch flags, NV) is left as it was; any other failure
    records the recovery reason of that step in NV RECOVERY_REQUEST:
    EC_PROTECT, EC_JUMP_RW or EC_UPDATE.  The helpers [protect_ec] and
    [update_ec] return the code the platform answered.  In [sync_one_ec]
    the jump step and the RW update step report every failure as
    REBOOT_TO_RO_REQUIRED, whatever the code was, and the protect step
    returns the code of a failed protect of the RO image as it is. *)
Theorem reboot_answer_not_recorded (P : Platform) (d : Z)
        (s : VbSelectFirmware_t) (w : world) :
  (let a := VbExEcProtect P (calls w) d s in
   let r := protect_ec P d s w in
   fst r = a
   /\ (a = VBERROR_SUCCESS \/ a = VBERROR_EC_REBOOT_TO_RO_REQUIRED ->
       ctx (snd r) = ctx w)
   /\ (a <> VBERROR_SUCCESS -> a <> VBERROR_EC_REBOOT_TO_RO_REQUIRED ->
       vb2_nv_get (nv (ctx (snd r))) VB2_NV_RECOVERY_REQUEST
       = VB2_RECOVERY_EC_PROTECT))
  /\ (Z.land (sd_flags (ctx w)) (IN_RW d) = 0 ->
      let a := VbExEcJumpToRW P (calls w) d in
      let r := sync_jump_to_rw P d w in
      (a = VBERROR_SUCCESS -> fst r = None /\ ctx (snd r) = ctx w)
      /\ (a = VBERROR_EC_REBOOT_TO_RO_REQUIRED ->
          fst r = Some VBERROR_EC_REBOOT_TO_RO_REQUIRED
          /\ ctx (snd r) = ctx w)
      /\ (a <> VBERROR_SUCCESS -> a <> VBERROR_EC_REBOOT_TO_RO_REQUIRED ->
          fst r = Some VBERROR_EC_REBOOT_TO_RO_REQUIRED
          /\ vb2_nv_get (nv (ctx (snd r))) VB2_NV_RECOVERY_REQUEST
             = VB2_RECOVERY_EC_JUMP_RW))
  /\ (fst (VbExEcGetExpectedImage P (calls w) d s) = VBERROR_SUCCESS ->
      let a := VbExEcUpdateImage P (calls w ++ [EcGetExpectedImage d s]) d s
                 (snd (VbExEcGetExpectedImage P (calls w) d s)) in
      let r := update_ec P d s w in
      (a = VBERROR_EC_REBOOT_TO_RO_REQUIRED ->
       fst r = VBERROR_EC_REBOOT_TO_RO_REQUIRED /\ ctx (snd r) = ctx w)
      /\ (a <> VBERROR_SUCCESS -> a <> VBERROR_EC_REBOOT_TO_RO_REQUIRED ->
          fst r = a
          /\ vb2_nv_get (nv (ctx (snd r))) VB2_NV_RECOVERY_REQUEST
             = VB2_RECOVERY_EC_UPDATE
          /\ sd_flags (ctx (snd r)) = sd_flags (ctx w)))
  /\ (flag_set (sd_flags (ctx w)) VB2_SD_FLAG_ECSYNC_RW ->
      fst (update_ec P d s w) <> VBERROR_SUCCESS ->
      sync_rw_update P d s w
      = (Some VBERROR_EC_REBOOT_TO_RO_REQUIRED, snd (update_ec P d s w)))
  /\ (VbExEcProtect P (calls w) d VB_SELECT_FIRMWARE_READONLY
      <> VBERROR_SUCCESS ->
      sync_protect_and_lock P d s w
      = protect_ec P d VB_SELECT_FIRMWARE_READONLY w
      /\ fst (sync_protect_and_lock P d s w)
         = VbExEcProtect P (calls w) d VB_SELECT_FIRMWARE_READONLY).
Proof.
  split; [|split; [|split; [|split]]].
  - cbv zeta. unfold protect_ec. unfold_ec.
    destruct (VbExEcProtect P (calls w) d s =? VBERROR_EC_REBOOT_TO_RO_REQUIRED)
      eqn:Er;
      [|destruct (VbExEcProtect P (calls w) d s =? VBERROR_SUCCESS) eqn:Es];
      cbn [negb fst snd ctx nv];
      rewrite ?Z.eqb_eq, ?Z.eqb_neq in *;
      (split; [reflexivity|]); split; intros; try reflexivity;
      try congruence; try tauto;
      try (destruct w as [[f r n] h]; reflexivity);
      try apply vb2_nv_get_set_same.
  - intros Hin. cbv zeta. unfold sync_jump_to_rw. unfold_ec.
    apply nonzero_false in Hin. rewrite Hin. cbn [negb].
    destruct (VbExEcJumpToRW P (calls w) d =? VBERROR_SUCCESS) eqn:Es;
      [|destruct (VbExEcJumpToRW P (calls w) d
                  =? VBERROR_EC_REBOOT_TO_RO_REQUIRED) eqn:Er];
      cbn [negb fst snd ctx nv];
      rewrite ?Z.eqb_eq, ?Z.eqb_neq in *;
      repeat split; intros; try reflexivity; try congruence;
      try (rewrite Es in *; discriminate);
      try (destruct w as [[f r n] h]; reflexivity);
      try apply vb2_nv_get_set_same.
  - intros Himg. cbv zeta. unfold update_ec. unfold_ec.
    destruct (VbExEcGetExpectedImage P (calls w) d s) as [rv want].
    cbn [fst snd] in *. subst rv. change (nonzero VBERROR_SUCCESS) with false.
    cbv iota. cbn [calls].
    destruct (VbExEcUpdateImage P (calls w ++ [EcGetExpectedImage d s]) d s
                want =? VBERROR_SUCCESS) eqn:Es;
      [|destruct (VbExEcUpdateImage P (calls w ++ [EcGetExpectedImage d s])
                    d s want =? VBERROR_EC_REBOOT_TO_RO_REQUIRED) eqn:Er];
      cbn [negb fst snd ctx nv sd_flags];
      rewrite ?Z.eqb_eq, ?Z.eqb_neq in *.
    + split; intros; [rewrite Es in *; discriminate | congruence].
    + split; intros; [|congruence].
      split; [assumption | destruct w as [[f r n] h]; reflexivity].
    + split; intros; [congruence|].
      split; [reflexivity|]. split; [apply vb2_nv_get_set_same | reflexivity].
  - intros Hf Hfail. unfold sync_rw_update, bind, get_sd_flags, ret.
    apply nonzero_true in Hf. rewrite Hf.
    destruct (update_ec P d s w) as [rv w']. cbn [fst snd] in *.
    apply Z.eqb_neq in Hfail. rewrite Hfail. reflexivity.
  - intros Hp.
    assert (Hfst : fst (protect_ec P d VB_SELECT_FIRMWARE_READONLY w)
                   = VbExEcProtect P (calls w) d VB_SELECT_FIRMWARE_READONLY).
    { unfold protect_ec. unfold_ec.
      repeat match goal with
             | |- context [if ?b then _ else _] => destruct b
             end; reflexivity. }
    assert (E : sync_protect_and_lock P d s w
                = protect_ec P d VB_SELECT_FIRMWARE_READONLY w).
    { unfold sync_protect_and_lock. unfold bind at 1.
      destruct (protect_ec P d VB_SELECT_FIRMWARE_READONLY w) as [rv w'].
      cbn [fst snd] in *. subst rv.
      apply Z.eqb_neq in Hp. rewrite Hp. reflexivity. }
    split; [exact E | rewrite E; exact Hfst].
Qed.

(** ** Further properties of the UI: shutdown requests and menus *)

(** X12: [VbWantShutdownMenu] answers 0 or 1 and never shuts down for the
    power button: setting the power-button bit of the request changes
    nothing, and neither does the lid-closed bit when the GBB flag
    DISABLE_LID_SHUTDOWN is set; without that flag a closed lid is a
    shutdown request. *)
Theorem shutdown_ignores_power_button (gbb_flags request : Z) :
  (VbWantShutdownMenu gbb_flags request = 0
   \/ VbWantShutdownMenu gbb_flags request = 1)
  /\ VbWantShutdownMenu gbb_flags
       (Z.lor request VB_SHUTDOWN_REQUEST_POWER_BUTTON)
     = VbWantShutdownMenu gbb_flags request
  /\ (flag_set gbb_flags GBB_FLAG_DISABLE_LID_SHUTDOWN ->
      VbWantShutdownMenu gbb_flags
        (Z.lor request VB_SHUTDOWN_REQUEST_LID_CLOSED)
      = VbWantShutdownMenu gbb_flags request)
  /\ (Z.land gbb_flags GBB_FLAG_DISABLE_LID_SHUTDOWN = 0 ->
      VbWantShutdownMenu gbb_flags
        (Z.lor request VB_SHUTDOWN_REQUEST_LID_CLOSED) = 1).
Proof.
  unfold VbWantShutdownMenu, bool_of_int, flag_set.
  split; [destruct (nonzero _); auto|]. split; [|split].
  - destruct (nonzero (Z.land gbb_flags GBB_FLAG_DISABLE_LID_SHUTDOWN)).
    + replace (Z.land
                 (Z.land (Z.lor request VB_SHUTDOWN_REQUEST_POWER_BUTTON)
                         (Z.lnot VB_SHUTDOWN_REQUEST_LID_CLOSED))
                 (Z.lnot VB_SHUTDOWN_REQUEST_POWER_BUTTON))
        with (Z.land (Z.land request (Z.lnot VB_SHUTDOWN_REQUEST_LID_CLOSED))
                     (Z.lnot VB_SHUTDOWN_REQUEST_POWER_BUTTON))
        by bitwise.
      reflexivity.
    + replace (Z.land (Z.lor request VB_SHUTDOWN_REQUEST_POWER_BUTTON)
                      (Z.lnot VB_SHUTDOWN_REQUEST_POWER_BUTTON))
        with (Z.land request (Z.lnot VB_SHUTDOWN_REQUEST_POWER_BUTTON))
        by bitwise.
      reflexivity.
  - intros Hlid. apply nonzero_true in Hlid. rewrite Hlid.
    replace (Z.land
               (Z.land (Z.lor request VB_SHUTDOWN_REQUEST_LID_CLOSED)
                       (Z.lnot VB_SHUTDOWN_REQUEST_LID_CLOSED))
               (Z.lnot VB_SHUTDOWN_REQUEST_POWER_BUTTON))
      with (Z.land (Z.land request (Z.lnot VB_SHUTDOWN_REQUEST_LID_CLOSED))
                   (Z.lnot VB_SHUTDOWN_REQUEST_POWER_BUTTON))
      by bitwise.
    reflexivity.
  - intros Hlid. apply nonzero_false in Hlid. rewrite Hlid.
    assert (Hnz : Z.land (Z.lor request VB_SHUTDOWN_REQUEST_LID_CLOSED)
                         (Z.lnot VB_SHUTDOWN_REQUEST_POWER_BUTTON) <> 0).
    { intros H0. apply (f_equal (fun z => Z.testbit z 0)) in H0.
      rewrite Z.land_spec, Z.lor_spec, Z.bits_0 in H0.
      change (Z.testbit VB_SHUTDOWN_REQUEST_LID_CLOSED 0) with true in H0.
      change (Z.testbit (Z.lnot VB_SHUTDOWN_REQUEST_POWER_BUTTON) 0)
        with true in H0.
      rewrite orb_true_r in H0. discriminate H0. }
    apply nonzero_true in Hnz. rewrite Hnz. reflexivity.
Qed.

(** Decides the tests of an index against the items of a menu. *)
Ltac split_index idx :=
  repeat match goal with
         | |- context [idx =? ?k] =>
             destruct (Z.eqb_spec idx k);
             [subst idx; cbn [Z.eqb Pos.eqb] |]
         end.

Lemma vb2_update_menu_codes (s : menu_state) :
  fst (vb2_update_menu s)
  = (if on_power_off s then VBERROR_SHUTDOWN_REQUESTED else VBERROR_SUCCESS)
  /\ (on_power_off s = true -> snd (vb2_update_menu s) = s).
Proof.
  destruct s as [cm pm idx sel db].
  unfold vb2_update_menu, on_power_off, vb2_set_menu_items.
  cbn [current_menu prev_menu current_menu_idx selected default_boot].
  unfold VB_WARN_OPTIONS, VB_WARN_DBG_INFO, VB_WARN_ENABLE_VER,
    VB_WARN_POWER_OFF, VB_WARN_LANGUAGE, VB_DEV_NETWORK, VB_DEV_LEGACY,
    VB_DEV_USB, VB_DEV_DISK, VB_DEV_CANCEL, VB_DEV_POWER_OFF, VB_DEV_LANGUAGE,
    VB_TO_NORM_CONFIRM, VB_TO_NORM_CANCEL, VB_TO_NORM_POWER_OFF,
    VB_TO_NORM_LANGUAGE, VB_RECOVERY_TO_DEV, VB_RECOVERY_DBG_INFO,
    VB_RECOVERY_POWER_OFF, VB_RECOVERY_LANGUAGE, VB_TO_DEV_CONFIRM,
    VB_TO_DEV_CANCEL, VB_TO_DEV_POWER_OFF, VB_TO_DEV_LANGUAGE.
  destruct cm; split_index idx; cbn [fst snd];
    split; try reflexivity; try discriminate; try (intros _; reflexivity).
Qed.

(** X13: [vb2_update_menu] returns SHUTDOWN_REQUESTED exactly when the
    cursor is on the Power Off item of one of the five menus that have
    one, and then leaves the menu state as it was; in every other case,
    also for an index that is no item of the menu, it returns SUCCESS. *)
Theorem update_menu_shutdown_iff (s : menu_state) :
  (fst (vb2_update_menu s) = VBERROR_SHUTDOWN_REQUESTED
   \/ fst (vb2_update_menu s) = VBERROR_SUCCESS)
  /\ (fst (vb2_update_menu s) = VBERROR_SHUTDOWN_REQUESTED
      <-> on_power_off s = true)
  /\ (on_power_off s = true -> snd (vb2_update_menu s) = s).
Proof.
  destruct (vb2_update_menu_codes s) as [Hcode Hsame].
  rewrite Hcode. destruct (on_power_off s).
  - split; [left; reflexivity|]. split; [tauto | exact Hsame].
  - split; [right; reflexivity|]. split; [|discriminate].
    split; intros H; [cbv in H|]; discriminate H.
Qed.

(** ** Further properties of the UI: Confirm *)

Lemma confirm_pass_reason (cparams : VbCommonParams)
      (confirm_flags pressed rv : Z) (p : confirm_poll) (out : list ui_call) :
  confirm_pass cparams confirm_flags pressed p = (ConfirmReturn rv, out) ->
  confirm_reason cparams confirm_flags rv p (pressed <> 0) /\ out = [].
Proof.
  unfold confirm_pass, confirm_reason, rec_button_released, accepted_enter,
    refusing_key, flag_set.
  cbv zeta.
  destruct (nonzero (VbWantShutdownMenu _ _)) eqn:Hs.
  { apply nonzero_true in Hs. intros H; inversion H; subst.
    split; [left; split; [reflexivity | exact Hs] | reflexivity]. }
  apply nonzero_false in Hs. rewrite Hs.
  destruct (cp_key p =? 13) eqn:K13.
  { apply Z.eqb_eq in K13.
    destruct (nonzero (Z.land confirm_flags VB_CONFIRM_MUST_TRUST_KEYBOARD))
      eqn:Hm;
      [destruct (nonzero (Z.land (cp_key_flags p)
                                 VB_KEY_FLAG_TRUSTED_KEYBOARD)) eqn:Ht |];
      cbn [andb negb]; intros H; inversion H; subst.
    - apply nonzero_true in Ht.
      split; [right; right; split; [reflexivity|]; split; [reflexivity|];
              left; split; [exact K13 | right; exact Ht] | reflexivity].
    - apply nonzero_false in Hm.
      split; [right; right; split; [reflexivity|]; split; [reflexivity|];
              left; split; [exact K13 | left; exact Hm] | reflexivity]. }
  destruct (cp_key p =? 32) eqn:K32.
  { apply Z.eqb_eq in K32.
    destruct (nonzero (Z.land confirm_flags VB_CONFIRM_SPACE_MEANS_NO)) eqn:Hf;
      intros H; inversion H; subst.
    apply nonzero_true in Hf.
    split; [right; left; split; [reflexivity|]; split; [reflexivity|];
            right; split; assumption | reflexivity]. }
  destruct (cp_key p =? 27) eqn:K27.
  { apply Z.eqb_eq in K27. intros H; inversion H; subst.
    split; [right; left; split; [reflexivity|]; split; [reflexivity|];
            left; exact K27 | reflexivity]. }
  apply Z.eqb_neq in K13, K32, K27.
  destruct (nonzero (Z.land (shared_flags _) _)) eqn:Hv; cbn [negb];
    [intros H; inversion H|].
  apply nonzero_false in Hv.
  destruct (nonzero (cp_button p)) eqn:Hb; [intros H; inversion H|].
  apply nonzero_false in Hb.
  destruct (nonzero pressed) eqn:Hpr; intros H; inversion H; subst.
  apply nonzero_true in Hpr.
  split; [right; right; split; [reflexivity|]; split; [reflexivity|];
          right; split; [repeat split; assumption | exact Hpr]
         | reflexivity].
Qed.

(** A pass that goes on waiting: it was no reason to end, and the button
    counts as seen held afterwards only if it did before or is held
    now. *)
Lemma confirm_pass_waits (cparams : VbCommonParams)
      (confirm_flags pressed pressed' : Z) (p : confirm_poll)
      (out : list ui_call) :
  confirm_pass cparams confirm_flags pressed p = (ConfirmAgain pressed', out) ->
  no_reason_yet cparams confirm_flags p
  /\ (pressed' <> 0 -> pressed <> 0 \/ rec_button_held cparams p).
Proof.
  unfold confirm_pass, no_reason_yet, rec_button_held, accepted_enter,
    refusing_key, flag_set.
  cbv zeta.
  destruct (nonzero (VbWantShutdownMenu _ _)) eqn:Hs;
    [intros H; inversion H |].
  apply nonzero_false in Hs. rewrite Hs.
  destruct (cp_key p =? 13) eqn:K13.
  { apply Z.eqb_eq in K13.
    destruct (nonzero (Z.land confirm_flags VB_CONFIRM_MUST_TRUST_KEYBOARD))
      eqn:Hm;
      [destruct (nonzero (Z.land (cp_key_flags p)
                                 VB_KEY_FLAG_TRUSTED_KEYBOARD)) eqn:Ht |];
      cbn [andb negb]; intros H; inversion H; subst.
    apply nonzero_true in Hm. apply nonzero_false in Ht.
    split; [| intros Hp; left; exact Hp].
    split; [reflexivity |]. split.
    - intros [E | [E _]]; rewrite K13 in E; discriminate E.
    - intros [_ [E | E]]; [exact (Hm E) | exact (E Ht)]. }
  destruct (cp_key p =? 32) eqn:K32.
  { apply Z.eqb_eq in K32.
    destruct (nonzero (Z.land confirm_flags VB_CONFIRM_SPACE_MEANS_NO)) eqn:Hf;
      intros H; inversion H; subst.
    apply nonzero_false in Hf.
    split; [| intros Hp; left; exact Hp].
    split; [reflexivity |]. split.
    - intros [E | [_ E]]; [rewrite K32 in E; discriminate E | exact (E Hf)].
    - intros [E _]. rewrite K32 in E. discriminate E. }
  destruct (cp_key p =? 27) eqn:K27; [intros H; inversion H |].
  apply Z.eqb_neq in K13, K32, K27.
  assert (Hno : 0 = 0
                /\ ~ (cp_key p = 27
                      \/ cp_key p = 32
                         /\ Z.land confirm_flags VB_CONFIRM_SPACE_MEANS_NO <> 0)
                /\ ~ (cp_key p = 13
                      /\ (Z.land confirm_flags VB_CONFIRM_MUST_TRUST_KEYBOARD
                          = 0
                          \/ Z.land (cp_key_flags p)
                                    VB_KEY_FLAG_TRUSTED_KEYBOARD <> 0))).
  { split; [reflexivity |]. split.
    - intros [E | [E _]]; [exact (K27 E) | exact (K32 E)].
    - intros [E _]. exact (K13 E). }
  destruct (nonzero (Z.land (shared_flags _) _)) eqn:Hv; cbn [negb].
  { intros H; inversion H; subst. split; [exact Hno | intros Hp; left; exact Hp]. }
  apply nonzero_false in Hv.
  destruct (nonzero (cp_button p)) eqn:Hb.
  { apply nonzero_true in Hb. intros H; inversion H; subst.
    split; [exact Hno |]. intros _. right. repeat split; assumption. }
  destruct (nonzero pressed); intros H; inversion H; subst.
  split; [exact Hno | intros Hp; left; exact Hp].
Qed.

Lemma confirm_loop_returns (cparams : VbCommonParams) (confirm_flags rv : Z)
      (polls : list confirm_poll) :
  forall pressed,
    fst (confirm_loop cparams confirm_flags pressed polls) = Some rv ->
    exists pre p post,
      polls = pre ++ p :: post
      /\ Forall (no_reason_yet cparams confirm_flags) pre
      /\ confirm_loop cparams confirm_flags pressed pre
         = (None, snd (confirm_loop cparams confirm_flags pressed polls))
      /\ confirm_reason cparams confirm_flags rv p
           (pressed <> 0 \/ Exists (rec_button_held cparams) pre).
Proof.
  induction polls as [|p rest IH]; intros pressed Hret; [discriminate|].
  cbn [confirm_loop] in *.
  destruct (confirm_pass cparams confirm_flags pressed p) as [[rv'|pressed'] out]
    eqn:Hpass.
  - cbn [fst snd] in *. inversion Hret; subst rv'.
    destruct (confirm_pass_reason _ _ _ _ _ _ Hpass) as [Hwhy Hout].
    exists [], p, rest. subst out.
    split; [reflexivity |]. split; [apply Forall_nil |].
    split; [reflexivity |].
    unfold confirm_reason in *. cbv zeta in *.
    destruct Hwhy as [H | [H | (H1 & H2 & [H3 | [H3 H4]])]].
    + left. exact H.
    + right. left. exact H.
    + right. right. split; [exact H1 |]. split; [exact H2 |]. left. exact H3.
    + right. right. split; [exact H1 |]. split; [exact H2 |].
      right. split; [exact H3 | left; exact H4].
  - destruct (confirm_loop cparams confirm_flags pressed' rest)
      as [r out'] eqn:Hrest.
    cbn [fst snd] in *. subst r.
    destruct (confirm_pass_waits _ _ _ _ _ _ Hpass) as [Hno Hheld].
    destruct (IH pressed') as (pre & q & post & Hsplit & Hall & Hnone & Hwhy).
    { rewrite Hrest. reflexivity. }
    exists (p :: pre), q, post. split; [rewrite Hsplit; reflexivity|].
    split; [apply Forall_cons; assumption |].
    split; [cbn [confirm_loop]; rewrite Hpass, Hnone, Hrest; reflexivity |].
    unfold confirm_reason in *. cbv zeta in *.
    destruct Hwhy as [H | [H | (H1 & H2 & [H3 | [H3 H4]])]].
    + left. exact H.
    + right. left. exact H.
    + right. right. split; [exact H1 |]. split; [exact H2 |]. left. exact H3.
    + right. right. split; [exact H1 |]. split; [exact H2 |].
      right. split; [exact H3 |].
      destruct H4 as [H4 | H4].
      * destruct (Hheld H4) as [H5 | H5];
          [left; exact H5 | right; apply Exists_cons_hd; exact H5].
      * right. apply Exists_cons_tl. exact H4.
Qed.

(** A poll that ends the dialogue with 0 or 1 carries neither a SPACE that
    does not mean no nor an ENTER that is not trusted where trust is
    asked for. *)
Lemma confirm_reason_keys (cparams : VbCommonParams) (confirm_flags rv : Z)
      (p : confirm_poll) (held : Prop) :
  confirm_reason cparams confirm_flags rv p held ->
  rv <> -1 ->
  ~ (cp_key p = 32 /\ Z.land confirm_flags VB_CONFIRM_SPACE_MEANS_NO = 0)
  /\ ~ (cp_key p = 13
        /\ flag_set confirm_flags VB_CONFIRM_MUST_TRUST_KEYBOARD
        /\ Z.land (cp_key_flags p) VB_KEY_FLAG_TRUSTED_KEYBOARD = 0).
Proof.
  unfold confirm_reason, refusing_key, accepted_enter, rec_button_released,
    flag_set.
  cbv zeta. intros Hwhy Hne. split.
  - intros [K32 Hf].
    destruct Hwhy as [[H _] | [(_ & _ & [K | [_ Hs]])
                              | (_ & _ & [[K _] | [(_ & _ & K & _) _]])]].
    + exact (Hne H).
    + rewrite K32 in K. discriminate K.
    + exact (Hs Hf).
    + rewrite K32 in K. discriminate K.
    + exact (K K32).
  - intros (K13 & Hm & Ht).
    destruct Hwhy as [[H _] | [(_ & _ & [K | [K _]])
                              | (_ & _ & [[_ [T | T]] | [(_ & K & _) _]])]].
    + exact (Hne H).
    + rewrite K13 in K. discriminate K.
    + rewrite K13 in K. discriminate K.
    + exact (Hm T).
    + exact (T Ht).
    + exact (K K13).
Qed.

(** X14: how Confirm ends.  It ends only with -1, 0 or 1, and the poll on
    which it ends gives the reason: -1 when [VbWantShutdownMenu] asks for
    a shutdown, which is looked at before the key; 0 on ESC, or on SPACE
    when SPACE_MEANS_NO is set; 1 on an ENTER that comes from a trusted
    keyboard or when MUST_TRUST_KEYBOARD is not set, or on finding the
    physical recovery button released after an earlier poll found it
    held.  It is the first such poll: no poll before it wanted a
    shutdown, carried a refusing key or an accepted ENTER, and the
    dialogue over the polls before it alone is still waiting, having made
    exactly the calls of the whole dialogue.  A SPACE without
    SPACE_MEANS_NO and an untrusted ENTER under MUST_TRUST_KEYBOARD are no
    reason to end: the dialogue does not end with 0 or 1 on such a
    poll. *)
Theorem confirm_outcomes (cparams : VbCommonParams) (confirm_flags rv : Z)
        (polls : list confirm_poll) :
  fst (VbUserConfirmsMenu cparams confirm_flags polls) = Some rv ->
  exists pre p post,
    polls = pre ++ p :: post
    /\ Forall (no_reason_yet cparams confirm_flags) pre
    /\ VbUserConfirmsMenu cparams confirm_flags pre
       = (None, snd (VbUserConfirmsMenu cparams confirm_flags polls))
    /\ confirm_reason cparams confirm_flags rv p
         (Exists (rec_button_held cparams) pre)
    /\ (rv <> -1 ->
        ~ (cp_key p = 32
           /\ Z.land confirm_flags VB_CONFIRM_SPACE_MEANS_NO = 0)
        /\ ~ (cp_key p = 13
              /\ flag_set confirm_flags VB_CONFIRM_MUST_TRUST_KEYBOARD
              /\ Z.land (cp_key_flags p) VB_KEY_FLAG_TRUSTED_KEYBOARD = 0)).
Proof.
  unfold VbUserConfirmsMenu. intros Hret.
  destruct (confirm_loop_returns cparams confirm_flags rv polls 0 Hret)
    as (pre & p & post & Hsplit & Hall & Hnone & Hwhy).
  exists pre, p, post.
  split; [exact Hsplit |]. split; [exact Hall |]. split; [exact Hnone |].
  split; [| exact (confirm_reason_keys _ _ _ _ _ Hwhy)].
  unfold confirm_reason in *. cbv zeta in *.
  destruct Hwhy as [H | [H | (H1 & H2 & [H3 | [H3 [H4 | H4]]])]].
  - left. exact H.
  - right. left. exact H.
  - right. right. split; [exact H1 |]. split; [exact H2 |]. left. exact H3.
  - destruct (H4 eq_refl).
  - right. right. split; [exact H1 |]. split; [exact H2 |].
    right. split; assumption.
Qed.

Lemma confirm_outcomes_witness :
  fst (VbUserConfirmsMenu confirm_cparams_physical
         VB_CONFIRM_MUST_TRUST_KEYBOARD
         [poll_untrusted_enter; mk_confirm_poll 0 32 0 0; poll_button_down;
          poll_button_up; poll_trusted_enter]) = Some 1
  /\ exists pre p post,
       [poll_untrusted_enter; mk_confirm_poll 0 32 0 0; poll_button_down;
        poll_button_up; poll_trusted_enter] = pre ++ p :: post
       /\ Forall (no_reason_yet confirm_cparams_physical
                                VB_CONFIRM_MUST_TRUST_KEYBOARD) pre
       /\ VbUserConfirmsMenu confirm_cparams_physical
            VB_CONFIRM_MUST_TRUST_KEYBOARD pre
          = (None,
             snd (VbUserConfirmsMenu confirm_cparams_physical
                    VB_CONFIRM_MUST_TRUST_KEYBOARD
                    [poll_untrusted_enter; mk_confirm_poll 0 32 0 0;
                     poll_button_down; poll_button_up; poll_trusted_enter]))
       /\ confirm_reason confirm_cparams_physical
            VB_CONFIRM_MUST_TRUST_KEYBOARD 1 p
            (Exists (rec_button_held confirm_cparams_physical) pre)
       /\ (1 <> -1 ->
           ~ (cp_key p = 32
              /\ Z.land VB_CONFIRM_MUST_TRUST_KEYBOARD
                        VB_CONFIRM_SPACE_MEANS_NO = 0)
           /\ ~ (cp_key p = 13
                 /\ flag_set VB_CONFIRM_MUST_TRUST_KEYBOARD
                             VB_CONFIRM_MUST_TRUST_KEYBOARD
                 /\ Z.land (cp_key_flags p) VB_KEY_FLAG_TRUSTED_KEYBOARD
                    = 0)).
Proof.
  assert (H : fst (VbUserConfirmsMenu confirm_cparams_physical
                     VB_CONFIRM_MUST_TRUST_KEYBOARD
                     [poll_untrusted_enter; mk_confirm_poll 0 32 0 0;
                      poll_button_down; poll_button_up; poll_trusted_enter])
              = Some 1) by reflexivity.
  split; [exact H |].
  exact (confirm_outcomes confirm_cparams_physical
           VB_CONFIRM_MUST_TRUST_KEYBOARD 1
           [poll_untrusted_enter; mk_confirm_poll 0 32 0 0; poll_button_down;
            poll_button_up; poll_trusted_enter] H).
Defined.

(** ** The NV keys the engine writes *)

Lemma nv_writes_refl (free cleared : vb2_nv_param -> bool) (w : world) :
  nv_writes free cleared w w.
Proof. intros k _. left. reflexivity. Qed.

Lemma nv_writes_trans (free cleared : vb2_nv_param -> bool)
      (w1 w2 w3 : world) :
  nv_writes free cleared w1 w2 -> nv_writes free cleared w2 w3 ->
  nv_writes free cleared w1 w3.
Proof.
  intros H1 H2 k Hk.
  destruct (H2 k Hk) as [E2 | [C2 E2]]; [| right; split; assumption].
  rewrite E2. apply H1, Hk.
Qed.

Lemma nv_writes_same_nv (free cleared : vb2_nv_param -> bool) (w w' : world) :
  nv (ctx w') = nv (ctx w) -> nv_writes free cleared w w'.
Proof. intros E k _. left. rewrite E. reflexivity. Qed.

Lemma nv_writes_set_free (free cleared : vb2_nv_param -> bool)
      (param : vb2_nv_param) (value : Z) :
  free param = true -> steps (nv_writes free cleared) (nv_set param value).
Proof.
  intros Hp w k Hk. left. unfold nv_set, vb2_nv_set. cbn [snd ctx nv].
  destruct (vb2_nv_param_eq_dec param k) as [-> | _];
    [congruence | reflexivity].
Qed.

Lemma nv_writes_set_cleared (free cleared : vb2_nv_param -> bool)
      (param : vb2_nv_param) :
  cleared param = true -> steps (nv_writes free cleared) (nv_set param 0).
Proof.
  intros Hp w k Hk. unfold nv_set, vb2_nv_set. cbn [snd ctx nv].
  destruct (vb2_nv_param_eq_dec param k) as [<- | _];
    [right; split; [exact Hp | reflexivity] | left; reflexivity].
Qed.

(** Goes through a computation of the engine for the NV keys it writes. *)
Ltac nv_go :=
  repeat first
    [ apply steps_ret; intro; apply nv_writes_refl
    | apply steps_bind; [apply nv_writes_trans | |]
    | match goal with
      | |- forall _, steps _ _ => intro
      | |- steps _ (if ?b then _ else _) => destruct b
      | |- steps _ (let (_, _) := ?x in _) => destruct x
      | |- steps _ (match ?o with Some _ => _ | None => _ end) => destruct o
      | |- steps _ (callback _ _) =>
          intro; apply nv_writes_same_nv; reflexivity
      | |- steps _ get_sd_flags => intro; apply nv_writes_refl
      | |- steps _ get_recovery_reason => intro; apply nv_writes_refl
      | |- steps _ (nv_get _) => intro; apply nv_writes_refl
      | |- steps _ (set_sd_flags _) =>
          intro; apply nv_writes_same_nv; reflexivity
      | |- steps _ (request_recovery _) => unfold request_recovery
      | |- steps _ (nv_set _ _) =>
          first [ apply nv_writes_set_free; reflexivity
                | apply nv_writes_set_cleared; reflexivity ]
      end ].

(** X25: the NV keys the engine writes.  Phase 1 writes no NV key but
    RECOVERY_REQUEST.  Phase 2 writes RECOVERY_REQUEST, and TRY_RO_SYNC
    only to clear it.  Phase 3 writes BATTERY_CUTOFF_REQUEST only, and
    only to clear it.  The keys of developer mode (DEV_BOOT_USB,
    DEV_BOOT_LEGACY, DEV_DEFAULT_BOOT, DISABLE_DEV_REQUEST) and
    RECOVERY_SUBCODE keep their values through all three phases, whatever
    the platform answers. *)
Theorem engine_nv_writes (P : Platform) (PD_SYNC : bool)
        (cparams : VbCommonParams) (w : world) :
  nv_writes (key_is VB2_NV_RECOVERY_REQUEST) no_key w
            (snd (ec_sync_phase1 P PD_SYNC cparams w))
  /\ nv_writes (key_is VB2_NV_RECOVERY_REQUEST) (key_is VB2_NV_TRY_RO_SYNC) w
               (snd (ec_sync_phase2 P PD_SYNC cparams w))
  /\ nv_writes no_key (key_is VB2_NV_BATTERY_CUTOFF_REQUEST) w
               (snd (ec_sync_phase3 P cparams w)).
Proof.
  split; [| split].
  - assert (H : steps (nv_writes (key_is VB2_NV_RECOVERY_REQUEST) no_key)
                  (ec_sync_phase1 P PD_SYNC cparams)).
    { unfold ec_sync_phase1, check_ec_active, check_ec_hash. nv_go. }
    apply H.
  - assert (H : steps (nv_writes (key_is VB2_NV_RECOVERY_REQUEST)
                                 (key_is VB2_NV_TRY_RO_SYNC))
                  (ec_sync_phase2 P PD_SYNC cparams)).
    { assert (Hu : forall d s,
                steps (nv_writes (key_is VB2_NV_RECOVERY_REQUEST)
                                 (key_is VB2_NV_TRY_RO_SYNC))
                      (update_ec P d s)).
      { intros d s. unfold update_ec, check_ec_hash. nv_go. }
      assert (Hl : forall n t d,
                steps (nv_writes (key_is VB2_NV_RECOVERY_REQUEST)
                                 (key_is VB2_NV_TRY_RO_SYNC))
                      (ro_update_loop P n t d)).
      { induction n as [|n IH]; intros t d; cbn [ro_update_loop];
          [nv_go |].
        apply steps_bind; [apply nv_writes_trans | apply Hu |].
        intro rv. destruct (rv =? VBERROR_SUCCESS); [nv_go | apply IH]. }
      assert (Hs : forall d,
                steps (nv_writes (key_is VB2_NV_RECOVERY_REQUEST)
                                 (key_is VB2_NV_TRY_RO_SYNC))
                      (sync_one_ec P d cparams)).
      { intros d.
        unfold sync_one_ec, or_return, sync_rw_update, sync_jump_to_rw,
          sync_ro_update, sync_protect_and_lock, protect_ec.
        repeat first
          [ apply Hu | apply Hl
          | apply steps_bind; [apply nv_writes_trans | |]
          | progress nv_go ]. }
      unfold ec_sync_phase2.
      repeat first
        [ apply Hs
        | apply steps_bind; [apply nv_writes_trans | |]
        | progress nv_go ]. }
    apply H.
  - assert (H : steps (nv_writes no_key (key_is VB2_NV_BATTERY_CUTOFF_REQUEST))
                  (ec_sync_phase3 P cparams)).
    { unfold ec_sync_phase3. nv_go. }
    apply H.
Qed.

(** ** Further properties of the UI: the menu loops under any keys *)

(** Goes through a computation of the UI for a relation with the given
    proofs of reflexivity and transitivity; [leaf] closes the goals about
    the calls it is made of. *)
Ltac ui_go refl trans leaf :=
  repeat first
    [ assumption
    | apply steps_ret; exact refl
    | match goal with
      | |- forall _, steps _ _ => intro
      | |- steps _ (if ?b then _ else _) => destruct b
      | |- steps _ (let (_, _) := ?x in _) => destruct x
      | |- steps _ (match ?o with Some _ => _ | None => _ end) => destruct o
      | |- steps _ (match ?o with
                    | StepNext => _ | StepContinue => _ | StepReturn _ => _
                    | StepFallout => _ | StepLegacyBooted => _
                    end) => destruct o
      | |- steps _ (bind _ _) => apply steps_bind; [exact trans | |]
      end
    | solve [leaf] ].

Lemma menu_inv_refl (I : menu_state -> Prop) (u : ui_state) : menu_inv I u u.
Proof. intros H. exact H. Qed.

Lemma menu_inv_trans (I : menu_state -> Prop) (u1 u2 u3 : ui_state) :
  menu_inv I u1 u2 -> menu_inv I u2 u3 -> menu_inv I u1 u3.
Proof. unfold menu_inv. auto. Qed.

Lemma menu_inv_of_kept (I : menu_state -> Prop) (u u' : ui_state) :
  menu u' = menu u -> menu_inv I u u'.
Proof. intros E H. rewrite E. exact H. Qed.

Lemma vb2_update_menu_in_range (s : menu_state) :
  index_in_range s -> index_in_range (snd (vb2_update_menu s)).
Proof.
  destruct s as [cm pm idx sel db].
  unfold index_in_range, vb2_update_menu, vb2_set_menu_items.
  cbn [current_menu prev_menu current_menu_idx selected default_boot].
  intros Hin.
  destruct cm;
    repeat match goal with
           | |- context [if ?b then _ else _] => destruct b eqn:?
           end;
    cbn [snd current_menu current_menu_idx]; try exact Hin;
    repeat match goal with
           | H : (_ =? _) = true |- _ => apply Z.eqb_eq in H
           end;
    subst; try (destruct pm); cbv; split; congruence.
Qed.

Lemma commit_item_in_range (s : menu_state) :
  index_in_range s -> index_in_range (snd (commit_item s)).
Proof. intros H. unfold commit_item. apply vb2_update_menu_in_range, H. Qed.

Lemma vb2_update_menu_in_flow (family : VB_MENU -> bool) (s : menu_state) :
  family = dev_menu_family \/ family = rec_menu_family ->
  in_flow family s -> in_flow family (snd (vb2_update_menu s)).
Proof.
  destruct s as [cm pm idx sel db].
  unfold in_flow, vb2_update_menu, vb2_set_menu_items.
  cbn [current_menu prev_menu current_menu_idx selected default_boot].
  intros [-> | ->] Hin;
    destruct cm;
    repeat match goal with
           | |- context [if ?b then _ else _] => destruct b
           end;
    cbn [snd current_menu prev_menu dev_menu_family rec_menu_family] in *;
    try exact Hin; try (left; reflexivity);
    try (right; split; reflexivity);
    try (destruct Hin as [Hin | [Hin Hp]]; try discriminate Hin;
         left; exact Hp).
Qed.

Lemma with_menu_inv (I : menu_state -> Prop) {A} (f : State menu_state A) :
  (forall s, I s -> I (snd (f s))) -> steps (menu_inv I) (with_menu f).
Proof.
  intros Hf u HI. unfold with_menu.
  pose proof (Hf (menu u) HI) as H.
  destruct (f (menu u)) as [a m]. exact H.
Qed.

(** The calls of the loops that leave the menu state alone. *)
Ltac menu_leaf :=
  first [ intro; apply menu_inv_of_kept; reflexivity
        | apply with_menu_inv; assumption ].

Ltac unfold_ui :=
  unfold VbTryLegacyMenu, dev_try_usb, VbTryUsbMenu, beep_twice,
    vb2_print_current_menu.

Lemma developer_menu_pass_inv (I : menu_state -> Prop)
      (gbb_flags allow_usb allow_legacy : Z) (p : dev_poll) :
  (forall s, I s -> I (snd (commit_item s))) ->
  steps (menu_inv I) menu_key_up -> steps (menu_inv I) menu_key_down ->
  steps (menu_inv I)
        (developer_menu_pass gbb_flags allow_usb allow_legacy p).
Proof.
  intros Hc Hup Hdown. unfold developer_menu_pass. unfold_ui.
  ui_go (menu_inv_refl I) (menu_inv_trans I) menu_leaf.
Qed.

Lemma developer_menu_loop_inv (I : menu_state -> Prop)
      (gbb_flags allow_usb allow_legacy : Z) (polls : list dev_poll) :
  (forall s, I s -> I (snd (commit_item s))) ->
  steps (menu_inv I) menu_key_up -> steps (menu_inv I) menu_key_down ->
  steps (menu_inv I)
        (developer_menu_loop gbb_flags allow_usb allow_legacy polls).
Proof.
  intros Hc Hup Hdown.
  induction polls as [|p rest IH]; cbn [developer_menu_loop].
  - apply steps_ret, menu_inv_refl.
  - apply steps_bind;
      [exact (menu_inv_trans I)
      | apply developer_menu_pass_inv; assumption |].
    ui_go (menu_inv_refl I) (menu_inv_trans I) menu_leaf.
Qed.

Lemma recovery_menu_key_inv (I : menu_state -> Prop)
      (shared_flags : Z) (retval : VbError_t) (p : rec_poll) :
  (forall s, I s -> I (snd (commit_item s))) ->
  steps (menu_inv I) menu_key_up -> steps (menu_inv I) menu_key_down ->
  steps (menu_inv I) (recovery_menu_key shared_flags retval p).
Proof.
  intros Hc Hup Hdown. unfold recovery_menu_key. unfold_ui.
  ui_go (menu_inv_refl I) (menu_inv_trans I) menu_leaf.
Qed.

Lemma recovery_key_loop_inv (I : menu_state -> Prop) (passes : nat)
      (shared_flags gbb_flags : Z) (retval : VbError_t) :
  (forall s, I s -> I (snd (commit_item s))) ->
  steps (menu_inv I) menu_key_up -> steps (menu_inv I) menu_key_down ->
  forall polls,
    steps (menu_inv I)
          (recovery_key_loop passes shared_flags gbb_flags retval polls).
Proof.
  intros Hc Hup Hdown.
  induction passes as [|passes IH]; intros polls; cbn [recovery_key_loop].
  - apply steps_ret, menu_inv_refl.
  - destruct polls as [|p rest]; [apply steps_ret, menu_inv_refl |].
    apply steps_bind; [exact (menu_inv_trans I) | |].
    + unfold recovery_menu_pass.
      apply steps_bind;
        [exact (menu_inv_trans I)
        | apply recovery_menu_key_inv; assumption |].
      ui_go (menu_inv_refl I) (menu_inv_trans I) menu_leaf.
    + intros [rv|]; [apply steps_ret, menu_inv_refl | apply IH].
Qed.

Lemma recovery_menu_loop_inv (I : menu_state -> Prop)
      (shared_flags gbb_flags : Z) (loads : list VbError_t) :
  (forall s, I s -> I (snd (commit_item s))) ->
  steps (menu_inv I) menu_key_up -> steps (menu_inv I) menu_key_down ->
  forall polls,
    steps (menu_inv I)
          (recovery_menu_loop shared_flags gbb_flags loads polls).
Proof.
  intros Hc Hup Hdown.
  induction loads as [|retval loads IH]; intros polls;
    cbn [recovery_menu_loop].
  - apply steps_ret, menu_inv_refl.
  - pose proof (recovery_key_loop_inv I
                  (Z.to_nat (REC_DISK_DELAY / REC_KEY_DELAY))
                  shared_flags gbb_flags retval Hc Hup Hdown polls) as Hk.
    unfold_ui.
    repeat first
      [ apply steps_ret; exact (menu_inv_refl I)
      | exact Hk
      | apply IH
      | match goal with
        | |- forall _, steps _ _ => intro
        | |- steps _ (if ?b then _ else _) => destruct b
        | |- steps _ (match ?r with
                      | ScanReturned _ => _ | ScanDone _ => _
                      | ScanStarved => _ end) => destruct r
        | |- steps _ (bind _ _) =>
            apply steps_bind; [exact (menu_inv_trans I) | |]
        end
      | solve [menu_leaf] ].
Qed.

Lemma menu_keys_in_range :
  steps (menu_inv index_in_range) menu_key_up
  /\ steps (menu_inv index_in_range) menu_key_down.
Proof.
  split; intros u Hin.
  - assert (Hup : is_up_key VB_KEY_UP = true) by reflexivity.
    destruct (menu_key_up_step VB_KEY_UP u Hup Hin) as (_ & H & _). exact H.
  - assert (Hnu : is_up_key VB_KEY_DOWN = false) by reflexivity.
    assert (Hd : is_down_key VB_KEY_DOWN = true) by reflexivity.
    destruct (menu_key_down_step VB_KEY_DOWN u Hnu Hd Hin) as (_ & H & _).
    exact H.
Qed.

Lemma menu_keys_in_flow (family : VB_MENU -> bool) :
  steps (menu_inv (in_flow family)) menu_key_up
  /\ steps (menu_inv (in_flow family)) menu_key_down.
Proof.
  split; intros u Hin;
    unfold menu_key_up, menu_key_down, vb2_print_current_menu, set_menu_idx,
      with_menu, ui_emit, get_menu, bind, ret;
    destruct (vb2_get_current_menu_size (current_menu (menu u)));
    match goal with
    | |- context [if ?b then _ else _] => destruct b
    end; exact Hin.
Qed.

Lemma commit_item_in_flow (family : VB_MENU -> bool) (s : menu_state) :
  family = dev_menu_family \/ family = rec_menu_family ->
  in_flow family s -> in_flow family (snd (commit_item s)).
Proof.
  intros Hf Hin. unfold commit_item.
  apply vb2_update_menu_in_flow; [exact Hf | exact Hin].
Qed.

(** ** Further properties of the UI: the two flows as wholes *)

Lemma run_ui_steps {A} (Ru : ui_state -> ui_state -> Prop)
      (Rf : flow_state -> flow_state -> Prop) (m : State ui_state A) :
  (forall f u', Ru (mk_ui (fl_menu f) (fl_nv f) []) u' ->
                Rf f (mk_flow (menu u') (ui_nv u')
                              (fl_calls f ++ map FlowUi (ui_calls u')))) ->
  steps Ru m -> steps Rf (run_ui m).
Proof.
  intros Hlift Hm f. unfold run_ui.
  pose proof (Hm (mk_ui (fl_menu f) (fl_nv f) [])) as H.
  destruct (m (mk_ui (fl_menu f) (fl_nv f) [])) as [a u].
  apply Hlift. exact H.
Qed.

Lemma flow_menu_inv_refl (I : menu_state -> Prop) (f : flow_state) :
  flow_menu_inv I f f.
Proof. intros H. exact H. Qed.

Lemma flow_menu_inv_trans (I : menu_state -> Prop) (f1 f2 f3 : flow_state) :
  flow_menu_inv I f1 f2 -> flow_menu_inv I f2 f3 -> flow_menu_inv I f1 f3.
Proof. unfold flow_menu_inv. auto. Qed.

Lemma run_ui_menu_inv (I : menu_state -> Prop) {A} (m : State ui_state A) :
  steps (menu_inv I) m -> steps (flow_menu_inv I) (run_ui m).
Proof.
  apply run_ui_steps. intros f u' H HI. exact (H HI).
Qed.

Lemma dev_disabled_loop_inv (I : menu_state -> Prop)
      (cparams : VbCommonParams) (sessions : list (list confirm_poll)) :
  steps (menu_inv I) (dev_disabled_loop cparams sessions).
Proof.
  induction sessions as [|polls rest IH]; cbn [dev_disabled_loop].
  - apply steps_ret, menu_inv_refl.
  - ui_go (menu_inv_refl I) (menu_inv_trans I) menu_leaf.
Qed.

(** Goes through a flow for an invariant of the menu state. *)
Ltac flow_inv_go I :=
  repeat first
    [ assumption
    | apply steps_ret; exact (flow_menu_inv_refl I)
    | match goal with
      | |- forall _, steps _ _ => intro
      | |- steps _ (run_ui _) => apply run_ui_menu_inv
      | |- steps (menu_inv _) (developer_menu_loop _ _ _ _) =>
          apply developer_menu_loop_inv
      | |- steps (menu_inv _) (dev_disabled_loop _ _) =>
          apply dev_disabled_loop_inv
      | |- steps (menu_inv _) (set_default_boot _) =>
          apply with_menu_inv
      | |- steps (menu_inv _) (VbTryLegacyMenu _ _ _) =>
          unfold VbTryLegacyMenu, beep_twice
      | |- steps (menu_inv _) (VbTryUsbMenu _) =>
          unfold VbTryUsbMenu
      | |- steps (menu_inv _) vb2_print_current_menu =>
          unfold vb2_print_current_menu
      | |- steps _ (if ?b then _ else _) => destruct b
      | |- steps _ (match ?o with _ => _ end) => destruct o
      | |- steps (flow_menu_inv _) (bind _ _) =>
          apply steps_bind; [exact (flow_menu_inv_trans I) | |]
      | |- steps (menu_inv _) (bind _ _) =>
          apply steps_bind; [exact (menu_inv_trans I) | |]
      | |- steps (menu_inv _) (ret _) =>
          apply steps_ret; exact (menu_inv_refl I)
      end
    | solve [menu_leaf]
    | solve [intros ? H; exact H] ].

Lemma developer_flow_inv (I : menu_state -> Prop)
      (cparams : VbCommonParams) (fwmp_flags : Z)
      (sessions : list (list confirm_poll)) (polls : list dev_poll)
      (last : dev_poll) (fixed : VbError_t)
      (load_nv : nv_store -> nv_store) :
  (forall s, I s -> I (snd (commit_item s))) ->
  steps (menu_inv I) menu_key_up -> steps (menu_inv I) menu_key_down ->
  (forall s v, I s ->
     I (mk_menu (current_menu s) (prev_menu s) (current_menu_idx s)
                (selected s) v)) ->
  steps (flow_menu_inv I)
        (VbBootDeveloperMenu cparams fwmp_flags sessions polls last fixed
                             load_nv).
Proof.
  intros Hc Hup Hdown Hdb.
  unfold VbBootDeveloperMenu, vb2_developer_menu, developer_fallout.
  flow_inv_go I.
  intros s Hs. apply Hdb, Hs.
Qed.

Lemma recovery_flow_inv (I : menu_state -> Prop)
      (cparams : VbCommonParams) (loads : list VbError_t)
      (polls : list rec_poll) :
  (forall s, I s -> I (snd (commit_item s))) ->
  steps (menu_inv I) menu_key_up -> steps (menu_inv I) menu_key_down ->
  (forall sel db,
     I (mk_menu VB_MENU_RECOVERY VB_MENU_RECOVERY VB_RECOVERY_POWER_OFF
                sel db)) ->
  forall f,
    I (fl_menu f) \/ manual_recovery cparams ->
    I (fl_menu (snd (VbBootRecoveryMenu cparams loads polls f))).
Proof.
  intros Hc Hup Hdown Hinit f Hf.
  assert (Hloop : forall ps, steps (flow_menu_inv I)
            (broken_screen_loop (gbb_flags cparams) ps)).
  { induction ps as [|p rest IH]; cbn [broken_screen_loop];
      flow_inv_go I. }
  assert (Hblank : forall r : option VbError_t,
            steps (flow_menu_inv I)
              (match r with
               | Some retval =>
                   run_ui (ui_emit (UiDisplayScreen VB_SCREEN_BLANK)) ;;
                   ret (Some retval)
               | None => ret None
               end)).
  { intro r. flow_inv_go I. }
  unfold VbBootRecoveryMenu. unfold bind at 1.
  destruct (vb2_recovery_menu cparams loads polls f) as [r f1] eqn:E.
  apply (Hblank r f1).
  unfold vb2_recovery_menu in E.
  destruct (negb (nonzero (Z.land (shared_flags (shared_data_blob cparams))
                                  VBSD_BOOT_DEV_SWITCH_ON))
            && negb (nonzero (Z.land (shared_flags (shared_data_blob cparams))
                                     VBSD_BOOT_REC_SWITCH_ON))) eqn:Hmode.
  - destruct Hf as [Hf | [Hm | Hm]].
    + assert (Hs : steps (flow_menu_inv I)
                (run_ui (ui_nv_set VB2_NV_RECOVERY_SUBCODE
                           (shared_recovery_reason (shared_data_blob cparams))) ;;
                 flow_emit FlowNvCommit ;;
                 run_ui (ui_emit (UiDisplayScreen VB_SCREEN_OS_BROKEN)) ;;
                 broken_screen_loop (gbb_flags cparams) polls)).
      { flow_inv_go I. apply Hloop. }
      pose proof (Hs f Hf) as H. rewrite E in H. exact H.
    + apply nonzero_true in Hm. rewrite Hm in Hmode. discriminate Hmode.
    + apply nonzero_true in Hm. rewrite Hm in Hmode.
      rewrite andb_false_r in Hmode. discriminate Hmode.
  - unfold run_ui, vb2_recovery_menu_manual in E. unfold bind at 1 in E.
    unfold recovery_menu_init, with_menu in E. cbn [menu ui_nv ui_calls] in E.
    match type of E with
    | context [recovery_menu_loop ?a ?b ?c ?d ?u] =>
        pose proof (recovery_menu_loop_inv I a b c Hc Hup Hdown d u) as H;
        destruct (recovery_menu_loop a b c d u) as [r' u'] eqn:E'
    end.
    inversion E; subst. cbn [fl_menu]. cbn [snd] in H. apply H.
    cbn [menu]. apply Hinit.
Qed.

(** X15: whatever keys are pressed and whatever the platform answers, the
    cursor stays on an item of the current menu.  From a menu state whose
    index is in range, [VbBootDeveloperMenu] and [VbBootRecoveryMenu] end
    in a menu state whose index is in range, through every commit, menu
    change and language round trip. *)
Theorem menu_index_stays_in_range
        (cparams : VbCommonParams) (fwmp_flags : Z)
        (sessions : list (list confirm_poll)) (dev_polls : list dev_poll)
        (last : dev_poll) (fixed : VbError_t)
      (load_nv : nv_store -> nv_store)
        (loads : list VbError_t) (rec_polls : list rec_poll)
        (f : flow_state) :
  index_in_range (fl_menu f) ->
  index_in_range
    (fl_menu (snd (VbBootDeveloperMenu cparams fwmp_flags sessions dev_polls
                                       last fixed load_nv f)))
  /\ index_in_range
       (fl_menu (snd (VbBootRecoveryMenu cparams loads rec_polls f))).
Proof.
  intros Hin. destruct menu_keys_in_range as [Hup Hdown]. split.
  - apply (developer_flow_inv index_in_range cparams fwmp_flags sessions
             dev_polls last fixed load_nv commit_item_in_range Hup Hdown);
      [intros s v H; exact H | exact Hin].
  - apply (recovery_flow_inv index_in_range cparams loads rec_polls
             commit_item_in_range Hup Hdown);
      [intros sel db; cbv; split; congruence | left; exact Hin].
Qed.

Lemma menu_index_stays_in_range_witness :
  index_in_range (fl_menu flow_initial)
  /\ index_in_range
       (fl_menu (snd (VbBootDeveloperMenu cparams_manual 0 []
                        [dev_key 13; dev_key VB_KEY_DOWN; dev_key 13]
                        (dev_key 0) VBERROR_NO_DISK_FOUND load_leaves_request flow_initial)))
  /\ index_in_range
       (fl_menu (snd (VbBootRecoveryMenu cparams_manual
                        [VBERROR_NO_DISK_FOUND]
                        [rec_key VB_KEY_UP; rec_key VB_KEY_UP; rec_key 13]
                        flow_initial))).
Proof.
  assert (H : index_in_range (fl_menu flow_initial))
    by (cbv; split; congruence).
  split; [exact H |].
  exact (menu_index_stays_in_range cparams_manual 0 []
           [dev_key 13; dev_key VB_KEY_DOWN; dev_key 13] (dev_key 0)
           VBERROR_NO_DISK_FOUND load_leaves_request [VBERROR_NO_DISK_FOUND]
           [rec_key VB_KEY_UP; rec_key VB_KEY_UP; rec_key 13]
           flow_initial H).
Defined.

(** X16: the developer flow never shows a menu of the recovery flow.
    Entered on one of DEV_WARNING, DEV and TO_NORM, or on LANGUAGES reached
    from one of them, [VbBootDeveloperMenu] ends on one of these, whatever
    keys are pressed; RECOVERY and TO_DEV are out of its reach. *)
Theorem developer_flow_keeps_its_menus
        (cparams : VbCommonParams) (fwmp_flags : Z)
        (sessions : list (list confirm_poll)) (polls : list dev_poll)
        (last : dev_poll) (fixed : VbError_t)
      (load_nv : nv_store -> nv_store) (f : flow_state) :
  in_flow dev_menu_family (fl_menu f) ->
  in_flow dev_menu_family
    (fl_menu (snd (VbBootDeveloperMenu cparams fwmp_flags sessions polls
                                       last fixed load_nv f))).
Proof.
  intros Hin. destruct (menu_keys_in_flow dev_menu_family) as [Hup Hdown].
  apply (developer_flow_inv (in_flow dev_menu_family) cparams fwmp_flags
           sessions polls last fixed
                             load_nv);
    [ intros s; apply commit_item_in_flow; left; reflexivity
    | exact Hup | exact Hdown | intros s v H; exact H | exact Hin ].
Qed.

Lemma developer_flow_keeps_its_menus_witness :
  in_flow dev_menu_family (fl_menu flow_initial)
  /\ in_flow dev_menu_family
       (fl_menu (snd (VbBootDeveloperMenu cparams_manual 0 []
                        [dev_key VB_KEY_DOWN; dev_key 13; dev_key 13]
                        (dev_key 0) VBERROR_NO_DISK_FOUND load_leaves_request flow_initial))).
Proof.
  assert (H : in_flow dev_menu_family (fl_menu flow_initial))
    by (left; reflexivity).
  split; [exact H |].
  exact (developer_flow_keeps_its_menus cparams_manual 0 []
           [dev_key VB_KEY_DOWN; dev_key 13; dev_key 13] (dev_key 0)
           VBERROR_NO_DISK_FOUND load_leaves_request flow_initial H).
Defined.

(** X17: a manual recovery never shows a menu of the developer flow.
    Whatever the menu state on entry and whatever keys are pressed,
    [VbBootRecoveryMenu] in manual mode ends on RECOVERY or TO_DEV, or on
    LANGUAGES reached from one of them; DEV_WARNING, DEV and TO_NORM are
    out of its reach. *)
Theorem recovery_flow_keeps_its_menus
        (cparams : VbCommonParams) (loads : list VbError_t)
        (polls : list rec_poll) (f : flow_state) :
  manual_recovery cparams ->
  in_flow rec_menu_family
    (fl_menu (snd (VbBootRecoveryMenu cparams loads polls f))).
Proof.
  intros Hm. destruct (menu_keys_in_flow rec_menu_family) as [Hup Hdown].
  apply (recovery_flow_inv (in_flow rec_menu_family) cparams loads polls);
    [ intros s; apply commit_item_in_flow; right; reflexivity
    | exact Hup | exact Hdown | intros sel db; left; reflexivity
    | right; exact Hm ].
Qed.

Lemma recovery_flow_keeps_its_menus_witness :
  manual_recovery cparams_manual
  /\ in_flow rec_menu_family
       (fl_menu (snd (VbBootRecoveryMenu cparams_manual
                        [VBERROR_NO_DISK_FOUND]
                        [rec_key VB_KEY_DOWN; rec_key 13; rec_key 13]
                        flow_initial))).
Proof.
  assert (H : manual_recovery cparams_manual)
    by (right; unfold flag_set; cbv; congruence).
  split; [exact H |].
  exact (recovery_flow_keeps_its_menus cparams_manual [VBERROR_NO_DISK_FOUND]
           [rec_key VB_KEY_DOWN; rec_key 13; rec_key 13] flow_initial H).
Defined.

Lemma commit_item_codes (s : menu_state) :
  fst (commit_item s) = VBERROR_SHUTDOWN_REQUESTED
  \/ fst (commit_item s) = VBERROR_SUCCESS.
Proof.
  unfold commit_item.
  destruct (vb2_update_menu_codes
              (mk_menu (current_menu s) (prev_menu s) (current_menu_idx s) 1
                       (default_boot s))) as [H _].
  rewrite H. destruct (on_power_off _); [left | right]; reflexivity.
Qed.

(** Runs a pass of a menu loop by cases on every test. *)
Ltac unfold_pass :=
  unfold developer_menu_pass, recovery_menu_pass, recovery_menu_key,
    menu_key_up, menu_key_down, dev_try_usb, VbTryLegacyMenu, VbTryUsbMenu,
    beep_twice, vb2_print_current_menu, set_menu_idx, with_menu, ui_emit,
    ui_emit_all, ui_nv_set, get_menu, get_ui_nv, bind, ret in *.

(** The test or call on which the value of [t] depends first. *)
Ltac scrut_of t :=
  match t with
  | if ?b then _ else _ => scrut_in b
  | let (_, _) := ?x in _ => scrut_in x
  | match ?x with _ => _ end => scrut_in x
  | ?f _ => scrut_of f
  end
with scrut_in t :=
  match t with
  | _ => scrut_of t
  | _ => t
  end.

(** Runs the computation on the left of [l = (r, u') -> _] along each of
    its paths, and leaves the value and state the path ends with. *)
Ltac run_pass :=
  unfold_pass; cbn [fst snd menu ui_nv ui_calls fl_menu fl_nv fl_calls];
  repeat (match goal with
          | |- ?l = _ -> _ => let s := scrut_of l in destruct s eqn:?
          end;
          cbn [fst snd menu ui_nv ui_calls fl_menu fl_nv fl_calls]);
  let E := fresh "E" in
  intros E;
  try match type of E with
      | (_, _) = (_, _) => inversion E; subst; clear E
      end;
  try match goal with
      | H : commit_item ?s = _, Hc : context [commit_item ?s] |- _ =>
          rewrite H in Hc
      end.

Ltac nv_frame :=
  intros; unfold vb2_nv_set;
  repeat match goal with
         | |- context [vb2_nv_param_eq_dec ?a ?b] =>
             destruct (vb2_nv_param_eq_dec a b)
         end;
  congruence.

Ltac codes_cases :=
  match goal with
  | H : ?v = VBERROR_SHUTDOWN_REQUESTED \/ ?v = VBERROR_SUCCESS |- _ =>
      first [ is_var v; destruct H; subst v | clear H ]
  end.

Ltac absurd_test :=
  match goal with
  | H : negb (_ =? _) = _ |- _ => cbv in H; discriminate H
  | H : (_ =? _) = _ |- _ => cbv in H; discriminate H
  end.

Ltac post_leaf :=
  cbn [fst snd menu ui_nv ui_calls] in *;
  try codes_cases;
  try absurd_test;
  unfold VBERROR_SHUTDOWN_REQUESTED, VBERROR_REBOOT_REQUIRED,
    VBERROR_TPM_SET_BOOT_MODE_STATE, VBERROR_SUCCESS,
    VBNV_RECOVERY_NOT_REQUESTED in *;
  repeat match goal with |- _ /\ _ => split end;
  try solve [nv_frame];
  try solve [left; reflexivity | right; reflexivity];
  try solve [left; split; reflexivity
            | right; split; [discriminate | reflexivity]];
  try solve [intros rv' E; inversion E; subst; auto];
  try discriminate;
  try solve [intros Hal; first [discriminate
                               | rewrite Hal in *; discriminate]].

Lemma developer_menu_pass_effect (gbb_flags allow_usb allow_legacy : Z)
      (p : dev_poll) (u : ui_state) :
  dev_pass_post allow_legacy
    (fst (developer_menu_pass gbb_flags allow_usb allow_legacy p u))
    (ui_nv u)
    (ui_nv (snd (developer_menu_pass gbb_flags allow_usb allow_legacy p u))).
Proof.
  destruct u as [m nv0 out].
  pose proof (commit_item_codes m) as Hcodes.
  unfold dev_pass_post.
  destruct (developer_menu_pass gbb_flags allow_usb allow_legacy p
              (mk_ui m nv0 out)) as [r u'] eqn:E.
  cbn [fst snd]. revert E. run_pass; post_leaf.
Qed.

Lemma dev_pass_post_trans (allow_legacy : Z) (r : loop_step)
      (nv0 nv1 nv2 : nv_store) :
  dev_pass_post allow_legacy StepNext nv0 nv1 ->
  dev_pass_post allow_legacy r nv1 nv2 ->
  dev_pass_post allow_legacy r nv0 nv2.
Proof.
  intros (F1 & R1 & D1 & _) (F2 & R2 & D2 & C2 & N2 & L2).
  assert (E1 : nv1 VB2_NV_DISABLE_DEV_REQUEST = nv0 VB2_NV_DISABLE_DEV_REQUEST)
    by (destruct D1 as [[X _] | [_ X]]; [discriminate X | exact X]).
  split; [|split; [|split; [|split; [|split]]]].
  - intros k H1 H2. rewrite (F2 k H1 H2). apply F1; assumption.
  - destruct R2 as [R2 | R2]; [rewrite R2; exact R1 | right; exact R2].
  - destruct D2 as [D2 | [D2 D2']]; [left; exact D2 |].
    right. split; [exact D2 | congruence].
  - exact C2.
  - exact N2.
  - exact L2.
Qed.

Lemma dev_pass_post_refl (allow_legacy : Z) (r : loop_step) (nv0 : nv_store) :
  (forall rv, r <> StepReturn rv) -> r <> StepContinue ->
  r <> StepLegacyBooted ->
  dev_pass_post allow_legacy r nv0 nv0.
Proof.
  intros Hr Hc Hl.
  split; [|split; [|split; [|split; [|split]]]].
  - reflexivity.
  - left. reflexivity.
  - right. split; [apply Hr | reflexivity].
  - intros rv E. destruct (Hr rv E).
  - exact Hc.
  - intros _. exact Hl.
Qed.

Lemma developer_menu_loop_effect (gbb_flags allow_usb allow_legacy : Z)
      (polls : list dev_poll) (u : ui_state) :
  dev_pass_post allow_legacy
    (dev_exit_step
       (fst (developer_menu_loop gbb_flags allow_usb allow_legacy polls u)))
    (ui_nv u)
    (ui_nv (snd (developer_menu_loop gbb_flags allow_usb allow_legacy polls
                                     u))).
Proof.
  revert u. induction polls as [|p rest IH]; intros u.
  - apply dev_pass_post_refl; cbn; intros; discriminate.
  - destruct (developer_menu_loop gbb_flags allow_usb allow_legacy
                (p :: rest) u) as [res u2] eqn:E.
    cbn [developer_menu_loop] in E. unfold bind at 1 in E.
    pose proof (developer_menu_pass_effect gbb_flags allow_usb allow_legacy
                  p u) as Hp.
    destruct (developer_menu_pass gbb_flags allow_usb allow_legacy p u)
      as [r u1].
    cbn [fst snd] in *.
    assert (Hnext : dev_pass_post allow_legacy StepNext (ui_nv u) (ui_nv u1) ->
              (if nonzero (dp_audio_looping p)
               then developer_menu_loop gbb_flags allow_usb allow_legacy rest
               else ret (Some (DevFallout 0))) u1 = (res, u2) ->
              dev_pass_post allow_legacy (dev_exit_step res)
                            (ui_nv u) (ui_nv u2)).
    { intros H E'. destruct (nonzero (dp_audio_looping p)).
      - pose proof (IH u1) as H1. rewrite E' in H1.
        exact (dev_pass_post_trans _ _ _ _ _ H H1).
      - inversion E'; subst. apply (dev_pass_post_trans _ _ _ _ _ H).
        apply dev_pass_post_refl; cbn; intros; discriminate. }
    destruct r.
    + apply Hnext; assumption.
    + destruct Hp as (_ & _ & _ & _ & Hc & _). destruct (Hc eq_refl).
    + inversion E; subst. exact Hp.
    + inversion E; subst. exact Hp.
    + inversion E; subst. exact Hp.
Qed.

Lemma recovery_menu_pass_effect (shared_flags gbb_flags : Z)
      (retval : VbError_t) (p : rec_poll) (u : ui_state) :
  rec_key_post shared_flags
    (fst (recovery_menu_pass shared_flags gbb_flags retval p u))
    (ui_nv u)
    (ui_nv (snd (recovery_menu_pass shared_flags gbb_flags retval p u))).
Proof.
  destruct u as [m nv0 out].
  pose proof (commit_item_codes m) as Hcodes.
  unfold rec_key_post.
  destruct (recovery_menu_pass shared_flags gbb_flags retval p
              (mk_ui m nv0 out)) as [r u'] eqn:E.
  cbn [fst snd]. revert E. run_pass; post_leaf.
  all: intros rv' E; inversion E; subst; right; split; [auto |];
    unfold may_enable_dev;
    repeat match goal with
           | H : _ && _ = true |- _ =>
               apply andb_true_iff in H; destruct H
           end;
    repeat (apply andb_true_iff; split); assumption.
Qed.

Lemma rec_key_post_trans (shared_flags : Z) (r : option VbError_t)
      (nv0 nv1 nv2 : nv_store) :
  rec_key_post shared_flags None nv0 nv1 ->
  rec_key_post shared_flags r nv1 nv2 ->
  rec_key_post shared_flags r nv0 nv2.
Proof.
  intros (F1 & U1 & _) (F2 & U2 & C2).
  assert (E1 : nv1 VB2_NV_DEV_BOOT_USB = nv0 VB2_NV_DEV_BOOT_USB)
    by (destruct U1 as [[_ X] | X]; [discriminate X | exact X]).
  split; [|split].
  - intros k Hk. rewrite (F2 k Hk). apply F1, Hk.
  - destruct U2 as [U2 | U2]; [left; exact U2 | right; congruence].
  - exact C2.
Qed.

Lemma rec_key_post_refl (shared_flags : Z) (nv0 : nv_store) :
  rec_key_post shared_flags None nv0 nv0.
Proof.
  split; [|split].
  - reflexivity.
  - right. reflexivity.
  - intros rv E. discriminate E.
Qed.

Lemma recovery_key_loop_effect (passes : nat) (shared_flags gbb_flags : Z)
      (retval : VbError_t) (polls : list rec_poll) (u : ui_state) :
  rec_key_post shared_flags
    (scan_code (fst (recovery_key_loop passes shared_flags gbb_flags retval
                                       polls u)))
    (ui_nv u)
    (ui_nv (snd (recovery_key_loop passes shared_flags gbb_flags retval
                                   polls u))).
Proof.
  revert polls u. induction passes as [|passes IH]; intros polls u.
  - apply rec_key_post_refl.
  - destruct polls as [|p rest]; [apply rec_key_post_refl |].
    destruct (recovery_key_loop (S passes) shared_flags gbb_flags retval
                (p :: rest) u) as [res u2] eqn:E.
    cbn [recovery_key_loop] in E. unfold bind at 1 in E.
    pose proof (recovery_menu_pass_effect shared_flags gbb_flags retval p u)
      as Hp.
    destruct (recovery_menu_pass shared_flags gbb_flags retval p u)
      as [r u1].
    cbn [fst snd] in *. destruct r as [rv|].
    + inversion E; subst. exact Hp.
    + pose proof (IH rest u1) as H1. rewrite E in H1.
      exact (rec_key_post_trans _ _ _ _ _ Hp H1).
Qed.

Lemma rec_loop_post_of_key (shared_flags : Z) (r : option VbError_t)
      (nv0 nv1 : nv_store) :
  rec_key_post shared_flags r nv0 nv1 -> rec_loop_post shared_flags r nv0 nv1.
Proof.
  intros (F & U & C). split; [|split; [|split]].
  - intros k H1 _. apply F, H1.
  - left. apply F. discriminate.
  - exact U.
  - intros rv E. right. apply C, E.
Qed.

Lemma rec_loop_post_trans (shared_flags : Z) (r : option VbError_t)
      (nv0 nv1 nv2 : nv_store) :
  rec_loop_post shared_flags None nv0 nv1 ->
  rec_loop_post shared_flags r nv1 nv2 ->
  rec_loop_post shared_flags r nv0 nv2.
Proof.
  intros (F1 & R1 & U1 & _) (F2 & R2 & U2 & C2).
  assert (E1 : nv1 VB2_NV_DEV_BOOT_USB = nv0 VB2_NV_DEV_BOOT_USB)
    by (destruct U1 as [[_ X] | X]; [discriminate X | exact X]).
  split; [|split; [|split]].
  - intros k H1 H2. rewrite (F2 k H1 H2). apply F1; assumption.
  - destruct R2 as [R2 | R2]; [rewrite R2; exact R1 | right; exact R2].
  - destruct U2 as [U2 | U2]; [left; exact U2 | right; congruence].
  - exact C2.
Qed.

Lemma rec_loop_post_clear (shared_flags : Z) (nv0 : nv_store) :
  rec_loop_post shared_flags None nv0
    (vb2_nv_set nv0 VB2_NV_RECOVERY_REQUEST VBNV_RECOVERY_NOT_REQUESTED).
Proof.
  split; [|split; [|split]].
  - nv_frame.
  - right. reflexivity.
  - right. reflexivity.
  - intros rv E. discriminate E.
Qed.

Lemma rec_loop_post_success (shared_flags : Z) (nv0 : nv_store) :
  rec_loop_post shared_flags (Some VBERROR_SUCCESS) nv0 nv0.
Proof.
  split; [|split; [|split]].
  - reflexivity.
  - left. reflexivity.
  - right. reflexivity.
  - intros rv E. inversion E. left. reflexivity.
Qed.

(** The facts about the key loop and about the rest of a loop that a path
    ran through. *)
Ltac recall_loops IH :=
  repeat match goal with
         | H : recovery_key_loop ?n ?a ?b ?c ?d ?u = _ |- _ =>
             let Hk := fresh "Hk" in
             pose proof (recovery_key_loop_effect n a b c d u) as Hk;
             rewrite H in Hk; cbn [fst snd scan_code] in Hk; clear H
         | H : recovery_menu_loop ?a ?b ?c ?d ?u = _ |- _ =>
             let Hl := fresh "Hl" in
             pose proof (IH d u) as Hl;
             rewrite H in Hl; cbn [fst snd] in Hl; clear H
         end.

Lemma recovery_menu_loop_effect (shared_flags gbb_flags : Z)
      (loads : list VbError_t) :
  forall (polls : list rec_poll) (u : ui_state),
    rec_loop_post shared_flags
      (fst (recovery_menu_loop shared_flags gbb_flags loads polls u))
      (ui_nv u)
      (ui_nv (snd (recovery_menu_loop shared_flags gbb_flags loads polls u)))
    /\ (fst (recovery_menu_loop shared_flags gbb_flags loads polls u) <> None
        -> ui_nv (snd (recovery_menu_loop shared_flags gbb_flags loads polls
                                          u))
             VB2_NV_RECOVERY_REQUEST
           = VBNV_RECOVERY_NOT_REQUESTED).
Proof.
  induction loads as [|retval loads IH]; intros polls u.
  - split; [|intros H; destruct (H eq_refl)].
    apply rec_loop_post_of_key, rec_key_post_refl.
  - destruct u as [m nv0 out].
    destruct (recovery_menu_loop shared_flags gbb_flags (retval :: loads)
                polls (mk_ui m nv0 out)) as [res u2] eqn:E.
    cbn [recovery_menu_loop] in E. cbn [fst snd]. revert E.
    run_pass; recall_loops IH; cbn [fst snd menu ui_nv ui_calls] in *.
    all: match goal with
         | Hl : _ /\ _, Hk : rec_key_post _ None _ _ |- _ =>
             destruct Hl as [Hl HR]; split;
             [ exact (rec_loop_post_trans _ _ _ _ _
                        (rec_loop_post_trans _ _ _ _ _
                           (rec_loop_post_clear _ _)
                           (rec_loop_post_of_key _ _ _ _ Hk)) Hl)
             | exact HR ]
         | Hk : rec_key_post _ _ _ _ |- _ =>
             split;
             [ exact (rec_loop_post_trans _ _ _ _ _
                        (rec_loop_post_clear _ _)
                        (rec_loop_post_of_key _ _ _ _ Hk))
             | intros _; destruct Hk as (F & _);
               rewrite F by discriminate; reflexivity ]
         | |- _ =>
             split;
             [ exact (rec_loop_post_trans _ _ _ _ _
                        (rec_loop_post_clear _ _)
                        (rec_loop_post_success _ _))
             | intros _; reflexivity ]
         end.
Qed.

(** ** The calls of the two flows *)

Lemma ui_made_refl (q : ui_call -> bool) (u : ui_state) : ui_made_only q u u.
Proof. exists []. rewrite app_nil_r. split; reflexivity. Qed.

Lemma ui_made_trans (q : ui_call -> bool) (u1 u2 u3 : ui_state) :
  ui_made_only q u1 u2 -> ui_made_only q u2 u3 -> ui_made_only q u1 u3.
Proof.
  intros [l1 [E1 H1]] [l2 [E2 H2]]. exists (l1 ++ l2). split.
  - rewrite E2, E1, app_assoc. reflexivity.
  - rewrite forallb_app, H1, H2. reflexivity.
Qed.

Lemma ui_made_emit (q : ui_call -> bool) (c : ui_call) :
  q c = true -> steps (ui_made_only q) (ui_emit c).
Proof.
  intros H u. exists [c]. split; [reflexivity |].
  cbn. rewrite H. reflexivity.
Qed.

Lemma ui_made_emit_all (q : ui_call -> bool) (made : list ui_call) :
  forallb q made = true -> steps (ui_made_only q) (ui_emit_all made).
Proof. intros H u. exists made. split; [reflexivity | exact H]. Qed.

Lemma ui_made_with_menu (q : ui_call -> bool) {A} (f : State menu_state A) :
  steps (ui_made_only q) (with_menu f).
Proof.
  intros u. unfold with_menu. destruct (f (menu u)) as [a m].
  exists []. cbn [snd ui_calls]. rewrite app_nil_r. split; reflexivity.
Qed.

Lemma ui_made_nv_set (q : ui_call -> bool) (k : vb2_nv_param) (v : Z) :
  steps (ui_made_only q) (ui_nv_set k v).
Proof.
  intros u. exists []. cbn [snd ui_nv_set ui_calls]. rewrite app_nil_r.
  split; reflexivity.
Qed.

Lemma flow_made_refl (p : flow_call -> bool) (f : flow_state) :
  flow_made_only p f f.
Proof. exists []. rewrite app_nil_r. split; reflexivity. Qed.

Lemma flow_made_trans (p : flow_call -> bool) (f1 f2 f3 : flow_state) :
  flow_made_only p f1 f2 -> flow_made_only p f2 f3 -> flow_made_only p f1 f3.
Proof.
  intros [l1 [E1 H1]] [l2 [E2 H2]]. exists (l1 ++ l2). split.
  - rewrite E2, E1, app_assoc. reflexivity.
  - rewrite forallb_app, H1, H2. reflexivity.
Qed.

Lemma flow_made_emit (p : flow_call -> bool) (c : flow_call) :
  p c = true -> steps (flow_made_only p) (flow_emit c).
Proof.
  intros H f. exists [c]. split; [reflexivity |].
  cbn. rewrite H. reflexivity.
Qed.

Lemma run_ui_made (p : flow_call -> bool) {A} (m : State ui_state A) :
  steps (ui_made_only (on_ui p)) m -> steps (flow_made_only p) (run_ui m).
Proof.
  apply run_ui_steps. intros f u' [made [E H]]. cbn [ui_calls app] in E.
  exists (map FlowUi made). cbn [fl_calls]. rewrite E. split; [reflexivity |].
  rewrite forallb_forall in *. intros c Hc.
  apply in_map_iff in Hc. destruct Hc as [c' [<- Hc']]. apply (H c' Hc').
Qed.

Lemma flow_made_load (p : flow_call -> bool) (retval : VbError_t)
      (load_nv : nv_store -> nv_store) :
  p FlowTryLoadKernelFixed = true ->
  steps (flow_made_only p) (VbTryLoadKernelFixed retval load_nv).
Proof.
  intros H f. exists [FlowTryLoadKernelFixed]. split; [reflexivity |].
  cbn. rewrite H. reflexivity.
Qed.

(** Goes through a computation of the UI or of a flow for the kind of its
    calls. *)
Ltac calls_go :=
  repeat first
    [ assumption
    | match goal with
      | |- forall _, steps _ _ => intro
      | |- steps (flow_made_only _) (ret _) =>
          apply steps_ret; exact (flow_made_refl _)
      | |- steps (ui_made_only _) (ret _) =>
          apply steps_ret; exact (ui_made_refl _)
      | |- steps (flow_made_only _) (bind _ _) =>
          apply steps_bind; [exact (flow_made_trans _) | |]
      | |- steps (ui_made_only _) (bind _ _) =>
          apply steps_bind; [exact (ui_made_trans _) | |]
      | |- steps (flow_made_only _) (run_ui _) => apply run_ui_made
      | |- steps (flow_made_only _) (flow_emit _) =>
          apply flow_made_emit; reflexivity
      | |- steps (ui_made_only _) (ui_emit _) =>
          apply ui_made_emit;
          first [ reflexivity
                | assumption
                | match goal with
                  | Hq : forall c, is_beep_or_sleep c = true -> _ |- _ =>
                      apply Hq; reflexivity
                  end ]
      | |- steps (ui_made_only _) (ui_emit_all _) =>
          apply ui_made_emit_all; assumption
      | H : forall c, steps _ (developer_fallout _ c _ _ _)
        |- steps _ (developer_fallout _ _ _ _ _) => apply H
      | |- steps (flow_made_only _) (VbTryLoadKernelFixed _ _) =>
          apply flow_made_load; reflexivity
      | |- steps _ (let _ := _ in _) => cbv zeta
      | Hc : forall x t, _ && _ && _ && _ && _ = false
        |- steps _ (if _ && _ && _ && _ && _ then _ else _) => rewrite Hc
      | |- steps (ui_made_only _) (with_menu _) => apply ui_made_with_menu
      | |- steps (ui_made_only _) (set_menu_idx _) => apply ui_made_with_menu
      | |- steps (ui_made_only _) (set_default_boot _) =>
          apply ui_made_with_menu
      | |- steps (ui_made_only _) recovery_menu_init =>
          apply ui_made_with_menu
      | |- steps (ui_made_only _) get_menu => intro; apply ui_made_refl
      | |- steps (ui_made_only _) get_ui_nv => intro; apply ui_made_refl
      | |- steps (ui_made_only _) (ui_nv_set _ _) =>
          apply ui_made_nv_set
      | |- steps (ui_made_only _) vb2_print_current_menu =>
          unfold vb2_print_current_menu
      | |- steps (ui_made_only _) beep_twice => unfold beep_twice
      | |- steps (ui_made_only _) menu_key_up => unfold menu_key_up
      | |- steps (ui_made_only _) menu_key_down => unfold menu_key_down
      | |- steps (ui_made_only _) (VbTryUsbMenu _) => unfold VbTryUsbMenu
      | |- steps (ui_made_only _) (VbTryLegacyMenu _ _ _) =>
          unfold VbTryLegacyMenu
      | |- steps _ (if ?b then _ else _) => destruct b
      | |- steps _ (match ?o with _ => _ end) => destruct o
      end ].

Lemma dev_disabled_loop_effect (allow_legacy : Z) (cparams : VbCommonParams)
      (sessions : list (list confirm_poll)) (u : ui_state) :
  dev_pass_post allow_legacy
    (code_step (fst (dev_disabled_loop cparams sessions u)))
    (ui_nv u) (ui_nv (snd (dev_disabled_loop cparams sessions u)))
  /\ (fst (dev_disabled_loop cparams sessions u) = None
      \/ fst (dev_disabled_loop cparams sessions u)
         = Some VBERROR_REBOOT_REQUIRED
      \/ fst (dev_disabled_loop cparams sessions u)
         = Some VBERROR_SHUTDOWN_REQUESTED).
Proof.
  revert u. induction sessions as [|polls rest IH]; intros u.
  - split; [|left; reflexivity].
    apply dev_pass_post_refl; cbn; intros; discriminate.
  - destruct u as [m nv0 out].
    destruct (dev_disabled_loop cparams (polls :: rest) (mk_ui m nv0 out))
      as [res u2] eqn:E.
    cbn [dev_disabled_loop] in E. cbn [fst snd]. revert E.
    run_pass;
      try match goal with
          | E : dev_disabled_loop _ _ ?u1 = _ |- _ =>
              pose proof (IH u1) as Hi; rewrite E in Hi; exact Hi
          end;
      (split; [unfold dev_pass_post; cbn [code_step]; post_leaf | auto]).
Qed.

Ltac unfold_flow :=
  unfold VbBootDeveloperMenu, vb2_developer_menu, developer_fallout,
    VbTryLoadKernelFixed, VbBootRecoveryMenu, vb2_recovery_menu, vb2_recovery_menu_manual,
    recovery_menu_init, set_default_boot, run_ui, flow_emit in *.

(** The facts about the loops that a path of a flow ran through. *)
Ltac recall_dev_loops al :=
  repeat match goal with
         | H : developer_menu_loop ?g ?a ?b ?c ?u = _ |- _ =>
             let Hl := fresh "Hl" in
             pose proof (developer_menu_loop_effect g a b c u) as Hl;
             rewrite H in Hl; cbn [fst snd dev_exit_step] in Hl; clear H
         | H : dev_disabled_loop ?c ?s ?u = _ |- _ =>
             let Hd := fresh "Hd" in
             pose proof (dev_disabled_loop_effect al c s u) as Hd;
             rewrite H in Hd; cbn [fst snd code_step] in Hd; clear H
         end.

Lemma forallb_flow_ui (l : list ui_call) :
  forallb not_fixed_load (map FlowUi l) = true.
Proof. induction l as [|c l IH]; [reflexivity | exact IH]. Qed.

Lemma made_before_load (out calls : list flow_call) (c1 c2 : flow_call) :
  (exists made, calls = out ++ made /\ forallb not_fixed_load made = true) ->
  exists made,
    (calls ++ [c1]) ++ [c2] = out ++ made ++ [c1; c2]
    /\ forallb not_fixed_load made = true.
Proof.
  intros (made & -> & H). exists made. split; [| exact H].
  rewrite <- !app_assoc. reflexivity.
Qed.

(** The calls of a path that does not ask the fixed disk. *)
Ltac calls_before_load :=
  rewrite <- ?app_assoc; eexists; split;
  [ reflexivity
  | cbn [app forallb not_fixed_load andb];
    rewrite ?forallb_app, ?forallb_flow_ui; reflexivity ].

Lemma developer_flow_effect (cparams : VbCommonParams) (fwmp_flags : Z)
      (sessions : list (list confirm_poll)) (polls : list dev_poll)
      (last : dev_poll) (fixed : VbError_t)
      (load_nv : nv_store -> nv_store) (f : flow_state) :
  exists nv1,
    dev_flow_post
      (allow_legacy
         (developer_policy (fl_nv f) (gbb_flags cparams) fwmp_flags))
      (disable_dev_boot
         (developer_policy (fl_nv f) (gbb_flags cparams) fwmp_flags))
      fixed
      (fst (VbBootDeveloperMenu cparams fwmp_flags sessions polls last fixed
                                load_nv f))
      (fl_nv f) nv1
    /\ dev_flow_load fixed load_nv
         (fst (VbBootDeveloperMenu cparams fwmp_flags sessions polls last
                                   fixed load_nv f))
         f
         (snd (VbBootDeveloperMenu cparams fwmp_flags sessions polls last
                                   fixed load_nv f))
         nv1.
Proof.
  destruct f as [m nv0 out].
  destruct (VbBootDeveloperMenu cparams fwmp_flags sessions polls last fixed
              load_nv (mk_flow m nv0 out)) as [res f2] eqn:E.
  cbn [fst snd fl_nv]. revert E. unfold_flow. run_pass.
  all: recall_dev_loops
         (allow_legacy (developer_policy nv0 (gbb_flags cparams) fwmp_flags)).
  all: cbn [fst snd menu ui_nv ui_calls fl_menu fl_nv fl_calls] in *.
  all: try match goal with
           | H : option_map _ ?o = _ |- _ =>
               destruct o; cbn [option_map] in H; try discriminate H;
               try (inversion H; subst)
           end.
  all: match goal with
       | H : dev_pass_post _ _ _ _ /\ _ |- _ => destruct H as [H Ho]
       | _ => idtac
       end.
  all: match goal with
       | H : dev_pass_post _ _ _ _ |- _ => destruct H as (F & R & D & C & N & L)
       end.
  all: cbn [code_step dev_exit_step] in *.
  all: unfold dev_flow_load, flow_made_only;
    cbn [fst snd menu ui_nv ui_calls fl_menu fl_nv fl_calls].
  all: match goal with
       | |- exists nv1, _ /\ ((?g ?x = nv1 /\ _) \/ _) =>
           match type of g with nv_store -> nv_store => idtac end;
           exists x; split;
           [| right; split; [reflexivity | split; [reflexivity |]];
              apply made_before_load; calls_before_load ]
       | |- exists nv1, _ /\ ((?x = nv1 /\ _) \/ _) =>
           exists x; split;
           [| left; split; [reflexivity | calls_before_load] ]
       end.
  all: unfold dev_flow_post; split; [|split; [|split; [|split; [|split]]]].
  all: try solve [intros k H1 H2;
                  try (unfold vb2_nv_set;
                       destruct (vb2_nv_param_eq_dec _ k); [congruence |]);
                  apply F; assumption].
  all: try solve [first [right; reflexivity | exact R]].
  all: try solve [destruct D as [[Hr Hd] | [Hr Hd]];
                  [ first [ discriminate Hr
                          | inversion Hr; subst; right; split;
                            [exact Hd | reflexivity] ]
                  | left; exact Hd ]].
  all: try solve [intros rv' E; inversion E; subst;
                  first [ solve [auto 6]
                        | destruct (C _ eq_refl) as [?|[?|?]]; auto 6 ]].
  all: try solve [intros Hal E;
                  first [ discriminate E
                        | exact (L Hal eq_refl)
                        | rewrite Hal in *; discriminate ]].
  all: intros Hdis;
    first [ congruence
          | destruct Ho as [Ho | [Ho | Ho]];
            first [ discriminate Ho | inversion Ho; subst; auto ] ].
Qed.

Lemma policy_usb_off (nv0 : nv_store) (gbb_flags fwmp_flags : Z) :
  vb2_nv_get nv0 VB2_NV_DEV_BOOT_USB = 0 ->
  Z.land gbb_flags GBB_FLAG_FORCE_DEV_BOOT_USB = 0 ->
  Z.land fwmp_flags FWMP_DEV_ENABLE_USB = 0 ->
  allow_usb (developer_policy nv0 gbb_flags fwmp_flags) = 0.
Proof.
  intros H1 H2 H3. unfold developer_policy. cbn [allow_usb].
  rewrite H2, H3. exact H1.
Qed.

Lemma policy_legacy_off (nv0 : nv_store) (gbb_flags fwmp_flags : Z) :
  vb2_nv_get nv0 VB2_NV_DEV_BOOT_LEGACY = 0 ->
  Z.land gbb_flags GBB_FLAG_FORCE_DEV_BOOT_LEGACY = 0 ->
  Z.land fwmp_flags FWMP_DEV_ENABLE_LEGACY = 0 ->
  allow_legacy (developer_policy nv0 gbb_flags fwmp_flags) = 0.
Proof.
  intros H1 H2 H3. unfold developer_policy. cbn [allow_legacy].
  rewrite H2, H3. exact H1.
Qed.

Lemma policy_disabled (nv0 : nv_store) (gbb_flags fwmp_flags : Z) :
  flag_set fwmp_flags FWMP_DEV_DISABLE_BOOT ->
  Z.land gbb_flags GBB_FLAG_FORCE_DEV_SWITCH_ON = 0 ->
  disable_dev_boot (developer_policy nv0 gbb_flags fwmp_flags) = 1.
Proof.
  intros H1 H2. unfold developer_policy. cbn [disable_dev_boot].
  apply nonzero_true in H1. rewrite H1, H2. reflexivity.
Qed.

Lemma confirm_loop_calls (cparams : VbCommonParams) (confirm_flags : Z)
      (polls : list confirm_poll) :
  forall pressed,
    forallb is_beep_or_sleep
            (snd (confirm_loop cparams confirm_flags pressed polls)) = true.
Proof.
  induction polls as [|p rest IH]; intros pressed; [reflexivity |].
  cbn [confirm_loop].
  destruct (confirm_pass cparams confirm_flags pressed p) as [[rv | again] out]
    eqn:E.
  - cbn [snd]. revert E. unfold confirm_pass.
    repeat match goal with
           | |- context [if ?b then _ else _] => destruct b
           end; intros E; inversion E; reflexivity.
  - pose proof (IH again) as H.
    destruct (confirm_loop cparams confirm_flags again rest) as [r out'].
    cbn [snd] in *. rewrite forallb_app, H, andb_true_r.
    revert E. unfold confirm_pass.
    repeat match goal with
           | |- context [if ?b then _ else _] => destruct b
           end; intros E; inversion E; reflexivity.
Qed.

Lemma forallb_impl {A} (p q : A -> bool) (l : list A) :
  (forall a, p a = true -> q a = true) ->
  forallb p l = true -> forallb q l = true.
Proof.
  intros Hpq H. rewrite forallb_forall in *. intros a Ha. apply Hpq, H, Ha.
Qed.

Lemma dev_disabled_loop_calls (p : flow_call -> bool)
      (cparams : VbCommonParams) :
  (forall c, is_beep_or_sleep c = true -> p (FlowUi c) = true) ->
  p (FlowUi (UiDisplayScreen VB_SCREEN_DEVELOPER_TO_NORM)) = true ->
  p (FlowUi UiDisplayDebugText) = true ->
  p (FlowUi (UiDisplayScreen VB_SCREEN_TO_NORM_CONFIRMED)) = true ->
  forall sessions,
    steps (ui_made_only (on_ui p)) (dev_disabled_loop cparams sessions).
Proof.
  intros Hq H1 H2 H3.
  induction sessions as [|polls rest IH]; cbn [dev_disabled_loop].
  - calls_go.
  - pose proof (confirm_loop_calls cparams 0 polls 0) as Hmade.
    apply (forallb_impl _ (on_ui p)) in Hmade; [| exact Hq].
    unfold VbUserConfirmsMenu.
    destruct (confirm_loop cparams 0 0 polls) as [answer made].
    cbn [snd] in Hmade. calls_go.
Qed.

Lemma developer_menu_loop_no_usb (gbb_flags allow_usb allow_legacy : Z)
      (polls : list dev_poll) :
  nonzero allow_usb = false ->
  steps (ui_made_only (on_ui not_removable_load))
        (developer_menu_loop gbb_flags allow_usb allow_legacy polls).
Proof.
  intros H. induction polls as [|p rest IH]; cbn [developer_menu_loop].
  - calls_go.
  - assert (Hp : steps (ui_made_only (on_ui not_removable_load))
                   (developer_menu_pass gbb_flags allow_usb allow_legacy p)).
    { unfold developer_menu_pass, dev_try_usb. rewrite H. cbn [negb].
      calls_go. }
    calls_go.
Qed.

Lemma developer_menu_loop_no_legacy (gbb_flags allow_usb allow_legacy : Z)
      (polls : list dev_poll) :
  nonzero allow_legacy = false ->
  steps (ui_made_only (on_ui not_legacy_call))
        (developer_menu_loop gbb_flags allow_usb allow_legacy polls).
Proof.
  intros H. induction polls as [|p rest IH]; cbn [developer_menu_loop].
  - calls_go.
  - assert (Hp : steps (ui_made_only (on_ui not_legacy_call))
                   (developer_menu_pass gbb_flags allow_usb allow_legacy p)).
    { unfold developer_menu_pass, dev_try_usb, VbTryLegacyMenu. rewrite H.
      cbn [negb]. calls_go. }
    calls_go.
Qed.

Lemma bind_get_nv_made (p : flow_call -> bool) {B}
      (k : nv_store -> State flow_state B) (f : flow_state) :
  steps (flow_made_only p) (k (fl_nv f)) ->
  flow_made_only p f (snd (bind (run_ui get_ui_nv) k f)).
Proof.
  intros Hk. unfold bind, run_ui, get_ui_nv.
  cbn [fst snd menu ui_nv ui_calls map].
  apply (flow_made_trans p f
           (mk_flow (fl_menu f) (fl_nv f) (fl_calls f ++ []))).
  - exists []. split; reflexivity.
  - apply Hk.
Qed.

Lemma steps_at_bind {S A B} (R : S -> S -> Prop) (m : State S A)
      (k : A -> State S B) (s : S) :
  (forall s1 s2 s3, R s1 s2 -> R s2 s3 -> R s1 s3) ->
  R s (snd (m s)) -> (forall a, steps R (k a)) -> R s (snd (bind m k s)).
Proof.
  intros Htrans Hm Hk. unfold bind. destruct (m s) as [a s1].
  exact (Htrans _ _ _ Hm (Hk a s1)).
Qed.

Lemma developer_fallout_no_usb (pol : dev_policy) (ctrl_d_pressed : Z)
      (last : dev_poll) (fixed : VbError_t)
      (load_nv : nv_store -> nv_store) :
  nonzero (allow_usb pol) = false ->
  steps (flow_made_only not_removable_load)
        (developer_fallout pol ctrl_d_pressed last fixed load_nv).
Proof.
  intros H. unfold developer_fallout. rewrite H, andb_false_r. calls_go.
Qed.

Lemma developer_fallout_no_legacy (pol : dev_policy) (ctrl_d_pressed : Z)
      (last : dev_poll) (fixed : VbError_t)
      (load_nv : nv_store -> nv_store) :
  nonzero (allow_legacy pol) = false ->
  steps (flow_made_only not_legacy_call)
        (developer_fallout pol ctrl_d_pressed last fixed load_nv).
Proof.
  intros H. unfold developer_fallout, VbTryLegacyMenu. rewrite H.
  cbn [negb]. calls_go.
Qed.

(** X18: USB boot needs a permission.  When NV [DEV_BOOT_USB] is 0, the
    GBB flag FORCE_DEV_BOOT_USB is clear and the FWMP flag DEV_ENABLE_USB
    is clear, [VbBootDeveloperMenu] never asks for a kernel from removable
    media: not on Ctrl+U, not from the "Boot USB Image" item, and not at
    fallout when USB is the default boot target. *)
Theorem usb_boot_needs_permission
        (cparams : VbCommonParams) (fwmp_flags : Z)
        (sessions : list (list confirm_poll)) (polls : list dev_poll)
        (last : dev_poll) (fixed : VbError_t)
      (load_nv : nv_store -> nv_store) (f : flow_state) :
  vb2_nv_get (fl_nv f) VB2_NV_DEV_BOOT_USB = 0 ->
  Z.land (gbb_flags cparams) GBB_FLAG_FORCE_DEV_BOOT_USB = 0 ->
  Z.land fwmp_flags FWMP_DEV_ENABLE_USB = 0 ->
  flow_made_only not_removable_load f
    (snd (VbBootDeveloperMenu cparams fwmp_flags sessions polls last fixed load_nv f)).
Proof.
  intros H1 H2 H3.
  pose proof (policy_usb_off _ _ _ H1 H2 H3) as Hpol.
  assert (Hau : nonzero (allow_usb (developer_policy (fl_nv f)
                   (gbb_flags cparams) fwmp_flags)) = false)
    by (rewrite Hpol; reflexivity).
  pose proof (developer_menu_loop_no_usb (gbb_flags cparams) _
                (allow_legacy (developer_policy (fl_nv f) (gbb_flags cparams)
                                                fwmp_flags)) polls Hau)
    as Hloop.
  assert (Hdis : steps (ui_made_only (on_ui not_removable_load))
                   (dev_disabled_loop cparams sessions)).
  { apply dev_disabled_loop_calls; try reflexivity.
    intros c Hc. destruct c; try discriminate Hc; reflexivity. }
  assert (Hfall : forall c, steps (flow_made_only not_removable_load)
                    (developer_fallout
                       (developer_policy (fl_nv f) (gbb_flags cparams)
                                         fwmp_flags) c last fixed load_nv))
    by (intro c; apply developer_fallout_no_usb, Hau).
  unfold VbBootDeveloperMenu.
  apply (steps_at_bind (flow_made_only not_removable_load));
    [exact (flow_made_trans _) | | calls_go].
  unfold vb2_developer_menu. apply bind_get_nv_made. calls_go.
Qed.

Lemma usb_boot_needs_permission_witness :
  (vb2_nv_get (fl_nv flow_initial) VB2_NV_DEV_BOOT_USB = 0
   /\ Z.land (gbb_flags cparams_manual) GBB_FLAG_FORCE_DEV_BOOT_USB = 0
   /\ Z.land 0 FWMP_DEV_ENABLE_USB = 0)
  /\ flow_made_only not_removable_load flow_initial
       (snd (VbBootDeveloperMenu cparams_manual 0 []
               [dev_key 0x15; dev_key 13; dev_key VB_KEY_UP; dev_key 13]
               (dev_key 0) VBERROR_NO_DISK_FOUND load_leaves_request flow_initial)).
Proof.
  assert (H1 : vb2_nv_get (fl_nv flow_initial) VB2_NV_DEV_BOOT_USB = 0)
    by reflexivity.
  assert (H2 : Z.land (gbb_flags cparams_manual) GBB_FLAG_FORCE_DEV_BOOT_USB
               = 0) by reflexivity.
  assert (H3 : Z.land 0 FWMP_DEV_ENABLE_USB = 0) by reflexivity.
  split; [split; [exact H1 | split; [exact H2 | exact H3]] |].
  exact (usb_boot_needs_permission cparams_manual 0 []
           [dev_key 0x15; dev_key 13; dev_key VB_KEY_UP; dev_key 13]
           (dev_key 0) VBERROR_NO_DISK_FOUND load_leaves_request flow_initial H1 H2 H3).
Defined.

(** X19: legacy boot needs a permission.  When NV [DEV_BOOT_LEGACY] is 0,
    the GBB flag FORCE_DEV_BOOT_LEGACY is clear and the FWMP flag
    DEV_ENABLE_LEGACY is clear, [VbBootDeveloperMenu] neither locks the
    kernel versions for a legacy boot nor calls the legacy payload, and it
    never ends in the legacy payload: not on Ctrl+L, not from the "Boot
    Legacy BIOS" item, and not at fallout when legacy is the default. *)
Theorem legacy_boot_needs_permission
        (cparams : VbCommonParams) (fwmp_flags : Z)
        (sessions : list (list confirm_poll)) (polls : list dev_poll)
        (last : dev_poll) (fixed : VbError_t)
      (load_nv : nv_store -> nv_store) (f : flow_state) :
  vb2_nv_get (fl_nv f) VB2_NV_DEV_BOOT_LEGACY = 0 ->
  Z.land (gbb_flags cparams) GBB_FLAG_FORCE_DEV_BOOT_LEGACY = 0 ->
  Z.land fwmp_flags FWMP_DEV_ENABLE_LEGACY = 0 ->
  flow_made_only not_legacy_call f
    (snd (VbBootDeveloperMenu cparams fwmp_flags sessions polls last fixed load_nv f))
  /\ fst (VbBootDeveloperMenu cparams fwmp_flags sessions polls last fixed load_nv f)
     <> Some FlowLegacyBooted.
Proof.
  intros H1 H2 H3.
  pose proof (policy_legacy_off _ _ _ H1 H2 H3) as Hpol.
  assert (Hal : nonzero (allow_legacy (developer_policy (fl_nv f)
                   (gbb_flags cparams) fwmp_flags)) = false)
    by (rewrite Hpol; reflexivity).
  split.
  - pose proof (developer_menu_loop_no_legacy (gbb_flags cparams)
                  (allow_usb (developer_policy (fl_nv f) (gbb_flags cparams)
                                               fwmp_flags)) _ polls Hal)
      as Hloop.
    assert (Hdis : steps (ui_made_only (on_ui not_legacy_call))
                     (dev_disabled_loop cparams sessions)).
    { apply dev_disabled_loop_calls; try reflexivity.
      intros c Hc. destruct c; try discriminate Hc; reflexivity. }
    assert (Hfall : forall c, steps (flow_made_only not_legacy_call)
                      (developer_fallout
                         (developer_policy (fl_nv f) (gbb_flags cparams)
                                           fwmp_flags) c last fixed load_nv))
      by (intro c; apply developer_fallout_no_legacy, Hal).
    unfold VbBootDeveloperMenu.
    apply (steps_at_bind (flow_made_only not_legacy_call));
      [exact (flow_made_trans _) | | calls_go].
    unfold vb2_developer_menu. apply bind_get_nv_made. calls_go.
  - destruct (developer_flow_effect cparams fwmp_flags sessions polls last
                fixed load_nv f) as (nv1 & (_ & _ & _ & _ & L & _) & _).
    exact (L Hal).
Qed.

Lemma legacy_boot_needs_permission_witness :
  (vb2_nv_get (fl_nv flow_initial) VB2_NV_DEV_BOOT_LEGACY = 0
   /\ Z.land (gbb_flags cparams_manual) GBB_FLAG_FORCE_DEV_BOOT_LEGACY = 0
   /\ Z.land 0 FWMP_DEV_ENABLE_LEGACY = 0)
  /\ flow_made_only not_legacy_call flow_initial
       (snd (VbBootDeveloperMenu cparams_manual 0 []
               [dev_key 0x0c; dev_key 13] (dev_key 0) VBERROR_NO_DISK_FOUND load_leaves_request
               flow_initial))
  /\ fst (VbBootDeveloperMenu cparams_manual 0 []
            [dev_key 0x0c; dev_key 13] (dev_key 0) VBERROR_NO_DISK_FOUND load_leaves_request
            flow_initial)
     <> Some FlowLegacyBooted.
Proof.
  assert (H1 : vb2_nv_get (fl_nv flow_initial) VB2_NV_DEV_BOOT_LEGACY = 0)
    by reflexivity.
  assert (H2 : Z.land (gbb_flags cparams_manual)
                      GBB_FLAG_FORCE_DEV_BOOT_LEGACY = 0) by reflexivity.
  assert (H3 : Z.land 0 FWMP_DEV_ENABLE_LEGACY = 0) by reflexivity.
  split; [split; [exact H1 | split; [exact H2 | exact H3]] |].
  exact (legacy_boot_needs_permission cparams_manual 0 []
           [dev_key 0x0c; dev_key 13] (dev_key 0) VBERROR_NO_DISK_FOUND load_leaves_request
           flow_initial H1 H2 H3).
Defined.

(** X20: when the FWMP disables developer boot and the GBB does not force
    the developer switch on, the developer flow boots nothing.
    [VbBootDeveloperMenu] makes no attempt to load a kernel from either
    kind of disk and none to start the legacy payload, and the only codes
    it returns are REBOOT_REQUIRED and SHUTDOWN_REQUESTED. *)
Theorem disabled_dev_boot_boots_nothing
        (cparams : VbCommonParams) (fwmp_flags : Z)
        (sessions : list (list confirm_poll)) (polls : list dev_poll)
        (last : dev_poll) (fixed : VbError_t)
      (load_nv : nv_store -> nv_store) (f : flow_state) :
  flag_set fwmp_flags FWMP_DEV_DISABLE_BOOT ->
  Z.land (gbb_flags cparams) GBB_FLAG_FORCE_DEV_SWITCH_ON = 0 ->
  flow_made_only not_boot_attempt f
    (snd (VbBootDeveloperMenu cparams fwmp_flags sessions polls last fixed load_nv f))
  /\ (fst (VbBootDeveloperMenu cparams fwmp_flags sessions polls last fixed load_nv f)
      = None
      \/ fst (VbBootDeveloperMenu cparams fwmp_flags sessions polls last
                                  fixed load_nv f)
         = Some (FlowReturned VBERROR_REBOOT_REQUIRED)
      \/ fst (VbBootDeveloperMenu cparams fwmp_flags sessions polls last
                                  fixed load_nv f)
         = Some (FlowReturned VBERROR_SHUTDOWN_REQUESTED)).
Proof.
  intros H1 H2.
  pose proof (policy_disabled (fl_nv f) _ _ H1 H2) as Hpol.
  split.
  - assert (Hdis : steps (ui_made_only (on_ui not_boot_attempt))
                     (dev_disabled_loop cparams sessions)).
    { apply dev_disabled_loop_calls; try reflexivity.
      intros c Hc. destruct c; try discriminate Hc; reflexivity. }
    unfold VbBootDeveloperMenu.
    apply (steps_at_bind (flow_made_only not_boot_attempt));
      [exact (flow_made_trans _) | | calls_go].
    unfold vb2_developer_menu. apply bind_get_nv_made.
    cbv zeta. rewrite Hpol.
    change (nonzero 1) with true. cbv iota. calls_go.
  - destruct (developer_flow_effect cparams fwmp_flags sessions polls last
                fixed load_nv f) as (nv1 & (_ & _ & _ & _ & _ & Hd) & _).
    apply Hd. rewrite Hpol. reflexivity.
Qed.

Lemma disabled_dev_boot_boots_nothing_witness :
  (flag_set FWMP_DEV_DISABLE_BOOT FWMP_DEV_DISABLE_BOOT
   /\ Z.land (gbb_flags cparams_manual) GBB_FLAG_FORCE_DEV_SWITCH_ON = 0)
  /\ flow_made_only not_boot_attempt flow_initial
       (snd (VbBootDeveloperMenu cparams_manual FWMP_DEV_DISABLE_BOOT
               [session_enter] [dev_key 0x15] (dev_key 0) VBERROR_SUCCESS load_leaves_request
               flow_initial))
  /\ (fst (VbBootDeveloperMenu cparams_manual FWMP_DEV_DISABLE_BOOT
             [session_enter] [dev_key 0x15] (dev_key 0) VBERROR_SUCCESS load_leaves_request
             flow_initial)
      = None
      \/ fst (VbBootDeveloperMenu cparams_manual FWMP_DEV_DISABLE_BOOT
                [session_enter] [dev_key 0x15] (dev_key 0) VBERROR_SUCCESS load_leaves_request
                flow_initial)
         = Some (FlowReturned VBERROR_REBOOT_REQUIRED)
      \/ fst (VbBootDeveloperMenu cparams_manual FWMP_DEV_DISABLE_BOOT
                [session_enter] [dev_key 0x15] (dev_key 0) VBERROR_SUCCESS load_leaves_request
                flow_initial)
         = Some (FlowReturned VBERROR_SHUTDOWN_REQUESTED)).
Proof.
  assert (H1 : flag_set FWMP_DEV_DISABLE_BOOT FWMP_DEV_DISABLE_BOOT)
    by (unfold flag_set; cbv; congruence).
  assert (H2 : Z.land (gbb_flags cparams_manual) GBB_FLAG_FORCE_DEV_SWITCH_ON
               = 0) by reflexivity.
  split; [split; [exact H1 | exact H2] |].
  exact (disabled_dev_boot_boots_nothing cparams_manual FWMP_DEV_DISABLE_BOOT
           [session_enter] [dev_key 0x15] (dev_key 0) VBERROR_SUCCESS load_leaves_request
           flow_initial H1 H2).
Defined.

(** X21: what the developer flow writes to NV.  Whatever the policy, the
    keys and the answers of the platform, the code of [VbBootDeveloperMenu]
    writes two NV keys at most.  RECOVERY_REQUEST it only ever clears.
    DISABLE_DEV_REQUEST it only ever sets to 1, and then the flow returns
    REBOOT_REQUIRED: it asks to leave developer mode only together with a
    reboot.  Every other key it leaves alone.  The load from the fixed
    disk may write NV too, and nothing is assumed about what it writes;
    loads from removable media are taken to write nothing but the recovery
    request of a failed load, which [VbTryUsbMenu] clears.  When the flow
    never asks the fixed disk, NV at the end is as the writes of the flow
    left it.  Otherwise the load from the fixed disk is the last call
    before the blank screen, the flow returns what the load returned, and
    NV at the end is what the load made of the NV that the writes of the
    flow left: whatever a failed load from the fixed disk writes, a
    recovery request included, stays in NV.  A code the flow returns is
    SHUTDOWN_REQUESTED, SUCCESS or REBOOT_REQUIRED, or it is what the load
    from the fixed disk returned. *)
Theorem developer_flow_nv_writes
        (cparams : VbCommonParams) (fwmp_flags : Z)
        (sessions : list (list confirm_poll)) (polls : list dev_poll)
        (last : dev_poll) (fixed : VbError_t)
        (load_nv : nv_store -> nv_store) (f : flow_state) :
  let r := VbBootDeveloperMenu cparams fwmp_flags sessions polls last fixed
             load_nv f in
  exists nv1 : nv_store,
    (forall k, k <> VB2_NV_RECOVERY_REQUEST ->
               k <> VB2_NV_DISABLE_DEV_REQUEST -> nv1 k = fl_nv f k)
    /\ (nv1 VB2_NV_RECOVERY_REQUEST = fl_nv f VB2_NV_RECOVERY_REQUEST
        \/ nv1 VB2_NV_RECOVERY_REQUEST = VBNV_RECOVERY_NOT_REQUESTED)
    /\ (nv1 VB2_NV_DISABLE_DEV_REQUEST = fl_nv f VB2_NV_DISABLE_DEV_REQUEST
        \/ (nv1 VB2_NV_DISABLE_DEV_REQUEST = 1
            /\ fst r = Some (FlowReturned VBERROR_REBOOT_REQUIRED)))
    /\ ((fl_nv (snd r) = nv1 /\ flow_made_only not_fixed_load f (snd r))
        \/ (fl_nv (snd r) = load_nv nv1
            /\ fst r = Some (FlowReturned fixed)
            /\ exists made,
                 fl_calls (snd r)
                 = fl_calls f ++ made
                   ++ [FlowTryLoadKernelFixed;
                       FlowUi (UiDisplayScreen VB_SCREEN_BLANK)]
                 /\ forallb not_fixed_load made = true))
    /\ (forall rv, fst r = Some (FlowReturned rv) ->
          rv = VBERROR_SHUTDOWN_REQUESTED \/ rv = VBERROR_SUCCESS
          \/ rv = VBERROR_REBOOT_REQUIRED \/ rv = fixed).
Proof.
  destruct (developer_flow_effect cparams fwmp_flags sessions polls last
              fixed load_nv f) as (nv1 & (F & R & D & C & _) & Hload).
  cbv zeta. exists nv1.
  split; [exact F |]. split; [exact R |]. split; [exact D |].
  split; [exact Hload | exact C].
Qed.

Lemma broken_mode_test (cparams : VbCommonParams) :
  broken_recovery cparams ->
  negb (nonzero (Z.land (shared_flags (shared_data_blob cparams))
                        VBSD_BOOT_DEV_SWITCH_ON))
  && negb (nonzero (Z.land (shared_flags (shared_data_blob cparams))
                           VBSD_BOOT_REC_SWITCH_ON)) = true.
Proof. intros [H1 H2]. rewrite H1, H2. reflexivity. Qed.

Lemma manual_mode_test (cparams : VbCommonParams) :
  manual_recovery cparams ->
  negb (nonzero (Z.land (shared_flags (shared_data_blob cparams))
                        VBSD_BOOT_DEV_SWITCH_ON))
  && negb (nonzero (Z.land (shared_flags (shared_data_blob cparams))
                           VBSD_BOOT_REC_SWITCH_ON)) = false.
Proof.
  intros [H | H]; apply nonzero_true in H; rewrite H;
    [reflexivity | apply andb_false_r].
Qed.

Lemma broken_or_manual (cparams : VbCommonParams) :
  broken_recovery cparams \/ manual_recovery cparams.
Proof.
  unfold broken_recovery, manual_recovery, flag_set.
  destruct (Z.eq_dec (Z.land (shared_flags (shared_data_blob cparams))
                             VBSD_BOOT_DEV_SWITCH_ON) 0) as [H1 | H1];
    [| right; left; exact H1].
  destruct (Z.eq_dec (Z.land (shared_flags (shared_data_blob cparams))
                             VBSD_BOOT_REC_SWITCH_ON) 0) as [H2 | H2];
    [left; split; assumption | right; right; exact H2].
Qed.

Lemma broken_screen_loop_effect (gbb_flags : Z) (polls : list rec_poll) :
  forall f,
    (fst (broken_screen_loop gbb_flags polls f) = None
     \/ fst (broken_screen_loop gbb_flags polls f)
        = Some VBERROR_SHUTDOWN_REQUESTED)
    /\ fl_nv (snd (broken_screen_loop gbb_flags polls f)) = fl_nv f
    /\ fl_menu (snd (broken_screen_loop gbb_flags polls f)) = fl_menu f
    /\ flow_made_only is_broken_wait f
         (snd (broken_screen_loop gbb_flags polls f)).
Proof.
  induction polls as [|p rest IH]; intros f.
  - cbn. repeat split; auto. apply flow_made_refl.
  - destruct (broken_screen_loop gbb_flags (p :: rest) f) as [res f2] eqn:E.
    cbn [broken_screen_loop] in E. cbn [fst snd]. revert E.
    unfold_flow. run_pass.
    + repeat split; auto. exists [FlowCheckDisplayKey (rp_key p)].
      split; reflexivity.
    + match goal with
      | E : broken_screen_loop _ _ ?f1 = _ |- _ =>
          destruct (IH f1) as (Hr & Hn & Hm & Hc); rewrite E in *
      end.
      cbn [fst snd fl_nv fl_menu] in *. repeat split; auto.
      refine (flow_made_trans _ _ _ _ _ Hc).
      exists [FlowCheckDisplayKey (rp_key p); FlowUi (UiSleepMs REC_KEY_DELAY)].
      cbn [fl_calls map]. rewrite <- app_assoc. split; reflexivity.
Qed.

Lemma recovery_flow_effect (cparams : VbCommonParams)
      (loads : list VbError_t) (polls : list rec_poll) (f : flow_state) :
  manual_recovery cparams ->
  rec_loop_post (shared_flags (shared_data_blob cparams))
    (fst (VbBootRecoveryMenu cparams loads polls f))
    (fl_nv f) (fl_nv (snd (VbBootRecoveryMenu cparams loads polls f)))
  /\ (fst (VbBootRecoveryMenu cparams loads polls f) <> None ->
      fl_nv (snd (VbBootRecoveryMenu cparams loads polls f))
            VB2_NV_RECOVERY_REQUEST
      = VBNV_RECOVERY_NOT_REQUESTED).
Proof.
  intros Hm. apply manual_mode_test in Hm.
  destruct f as [m nv0 out].
  destruct (VbBootRecoveryMenu cparams loads polls (mk_flow m nv0 out))
    as [res f2] eqn:E.
  cbn [fst snd fl_nv]. revert E. unfold_flow. rewrite Hm. run_pass.
  all: match goal with
       | H : recovery_menu_loop ?a ?b ?c ?d ?u = _ |- _ =>
           pose proof (recovery_menu_loop_effect a b c d u) as Hl;
           rewrite H in Hl; cbn [fst snd menu ui_nv ui_calls] in Hl
       end.
  all: exact Hl.
Qed.

Lemma flow_made_weaken (p q : flow_call -> bool) (f f' : flow_state) :
  (forall c, p c = true -> q c = true) ->
  flow_made_only p f f' -> flow_made_only q f f'.
Proof.
  intros Hpq [made [E H]]. exists made. split; [exact E |].
  exact (forallb_impl p q made Hpq H).
Qed.

Lemma recovery_menu_loop_no_dev (shared_flags gbb_flags : Z)
      (loads : list VbError_t) :
  may_enable_dev shared_flags = false ->
  forall polls,
    steps (ui_made_only (on_ui not_set_dev_mode))
          (recovery_menu_loop shared_flags gbb_flags loads polls).
Proof.
  intros Hmay.
  assert (Hc : forall x t,
             x && nonzero (Z.land shared_flags VBSD_HONOR_VIRT_DEV_SWITCH)
             && negb (nonzero (Z.land shared_flags VBSD_BOOT_DEV_SWITCH_ON))
             && nonzero (Z.land shared_flags VBSD_BOOT_REC_SWITCH_ON)
             && t = false).
  { intros x t. unfold may_enable_dev in Hmay.
    rewrite <- !andb_assoc. rewrite (andb_assoc (nonzero _)).
    rewrite (andb_assoc (nonzero _ && _)). rewrite Hmay.
    cbn [andb]. apply andb_false_r. }
  assert (Hkey : forall retval p,
             steps (ui_made_only (on_ui not_set_dev_mode))
                   (recovery_menu_pass shared_flags gbb_flags retval p)).
  { intros retval p. unfold recovery_menu_pass, recovery_menu_key.
    calls_go. }
  assert (Hloop : forall retval passes polls,
             steps (ui_made_only (on_ui not_set_dev_mode))
                   (recovery_key_loop passes shared_flags gbb_flags retval
                                      polls)).
  { intros retval. induction passes as [|passes IH]; intros polls;
      cbn [recovery_key_loop]; [calls_go |].
    destruct polls as [|p rest]; [calls_go |].
    pose proof (Hkey retval p). pose proof (IH rest). calls_go. }
  induction loads as [|retval loads IH]; intros polls;
    cbn [recovery_menu_loop]; [calls_go |].
  pose proof (Hloop retval (Z.to_nat (REC_DISK_DELAY / REC_KEY_DELAY)) polls).
  calls_go. apply IH.
Qed.

Lemma broken_flow_nv (cparams : VbCommonParams) (loads : list VbError_t)
      (polls : list rec_poll) (f : flow_state) :
  broken_recovery cparams ->
  fl_nv (snd (VbBootRecoveryMenu cparams loads polls f))
  = vb2_nv_set (fl_nv f) VB2_NV_RECOVERY_SUBCODE
               (shared_recovery_reason (shared_data_blob cparams)).
Proof.
  intros Hb. apply broken_mode_test in Hb.
  destruct f as [m nv0 out].
  destruct (VbBootRecoveryMenu cparams loads polls (mk_flow m nv0 out))
    as [res f2] eqn:E.
  cbn [fst snd fl_nv]. revert E. unfold_flow. rewrite Hb. run_pass.
  all: match goal with
       | H : broken_screen_loop ?g ?ps ?f1 = _ |- _ =>
           destruct (broken_screen_loop_effect g ps f1) as (_ & Hn & _);
           rewrite H in *; cbn [fst snd fl_nv fl_menu fl_calls] in *
       end.
  all: exact Hn.
Qed.

(** X22: the broken screen only waits for a shutdown.  When neither the
    developer switch nor the recovery switch is on, [VbBootRecoveryMenu]
    saves the recovery reason in NV [RECOVERY_SUBCODE] and writes no other
    key of the model, commits NV before it shows the OS_BROKEN screen, and
    from then on only checks keys and sleeps, until it blanks the screen
    to return: it loads no kernel, shows no menu and leaves the menu state
    alone, and the only code it returns is SHUTDOWN_REQUESTED. *)
Theorem broken_screen_only_shuts_down
        (cparams : VbCommonParams) (loads : list VbError_t)
        (polls : list rec_poll) (f : flow_state) :
  broken_recovery cparams ->
  let r := VbBootRecoveryMenu cparams loads polls f in
  (fst r = None \/ fst r = Some VBERROR_SHUTDOWN_REQUESTED)
  /\ fl_menu (snd r) = fl_menu f
  /\ fl_nv (snd r)
     = vb2_nv_set (fl_nv f) VB2_NV_RECOVERY_SUBCODE
                  (shared_recovery_reason (shared_data_blob cparams))
  /\ exists rest,
       fl_calls (snd r)
       = fl_calls f
         ++ FlowNvCommit :: FlowUi (UiDisplayScreen VB_SCREEN_OS_BROKEN)
            :: rest
       /\ forallb is_broken_wait rest = true.
Proof.
  intros Hb. apply broken_mode_test in Hb. cbv zeta.
  destruct f as [m nv0 out].
  destruct (VbBootRecoveryMenu cparams loads polls (mk_flow m nv0 out))
    as [res f2] eqn:E.
  cbn [fst snd fl_nv fl_menu fl_calls]. revert E. unfold_flow. rewrite Hb.
  run_pass.
  all: match goal with
       | H : broken_screen_loop ?g ?ps ?f1 = _ |- _ =>
           destruct (broken_screen_loop_effect g ps f1)
             as (Hr & Hn & Hm & [made [Hc Hp]]);
           rewrite H in *; cbn [fst snd fl_nv fl_menu fl_calls] in *
       end.
  - destruct Hr as [Hr | Hr]; [discriminate Hr |].
    repeat split; auto.
    exists (made ++ [FlowUi (UiDisplayScreen VB_SCREEN_BLANK)]).
    rewrite Hc. cbn [map app]. rewrite <- !app_assoc. cbn [app].
    split; [reflexivity |].
    rewrite forallb_app, Hp. reflexivity.
  - repeat split; auto. exists made. rewrite Hc. cbn [map app].
    rewrite <- !app_assoc. cbn [app]. split; [reflexivity | exact Hp].
Qed.

Lemma broken_screen_only_shuts_down_witness :
  broken_recovery cparams_broken
  /\ (let r := VbBootRecoveryMenu cparams_broken [VBERROR_SUCCESS]
                 [rec_key 13; mk_rec_poll 0 0 0 0 0 1] flow_initial in
      (fst r = None \/ fst r = Some VBERROR_SHUTDOWN_REQUESTED)
      /\ fl_menu (snd r) = fl_menu flow_initial
      /\ fl_nv (snd r)
         = vb2_nv_set (fl_nv flow_initial) VB2_NV_RECOVERY_SUBCODE
                      (shared_recovery_reason
                         (shared_data_blob cparams_broken))
      /\ exists rest,
           fl_calls (snd r)
           = fl_calls flow_initial
             ++ FlowNvCommit :: FlowUi (UiDisplayScreen VB_SCREEN_OS_BROKEN)
                :: rest
           /\ forallb is_broken_wait rest = true).
Proof.
  assert (H : broken_recovery cparams_broken) by (split; reflexivity).
  split; [exact H |].
  exact (broken_screen_only_shuts_down cparams_broken [VBERROR_SUCCESS]
           [rec_key 13; mk_rec_poll 0 0 0 0 0 1] flow_initial H).
Defined.

(** X23: what a manual recovery writes to NV and what it returns.
    [VbBootRecoveryMenu] in manual mode writes two NV keys at most:
    RECOVERY_REQUEST, which it only clears and which is clear whenever it
    returns, so that powering off then does not relatch recovery; and
    DEV_BOOT_USB, which it only sets to 1 and only when it returns
    REBOOT_REQUIRED.  A code it returns is SUCCESS, SHUTDOWN_REQUESTED, or,
    only when the shared flags let the menu enable developer mode,
    TPM_SET_BOOT_MODE_STATE or REBOOT_REQUIRED. *)
Theorem manual_recovery_nv_writes
        (cparams : VbCommonParams) (loads : list VbError_t)
        (polls : list rec_poll) (f : flow_state) :
  manual_recovery cparams ->
  let r := VbBootRecoveryMenu cparams loads polls f in
  (forall k, k <> VB2_NV_DEV_BOOT_USB -> k <> VB2_NV_RECOVERY_REQUEST ->
             fl_nv (snd r) k = fl_nv f k)
  /\ (fl_nv (snd r) VB2_NV_RECOVERY_REQUEST = fl_nv f VB2_NV_RECOVERY_REQUEST
      \/ fl_nv (snd r) VB2_NV_RECOVERY_REQUEST = VBNV_RECOVERY_NOT_REQUESTED)
  /\ (fst r <> None ->
      fl_nv (snd r) VB2_NV_RECOVERY_REQUEST = VBNV_RECOVERY_NOT_REQUESTED)
  /\ ((fl_nv (snd r) VB2_NV_DEV_BOOT_USB = 1
       /\ fst r = Some VBERROR_REBOOT_REQUIRED)
      \/ fl_nv (snd r) VB2_NV_DEV_BOOT_USB = fl_nv f VB2_NV_DEV_BOOT_USB)
  /\ (forall rv, fst r = Some rv ->
        rv = VBERROR_SUCCESS \/ rv = VBERROR_SHUTDOWN_REQUESTED
        \/ ((rv = VBERROR_TPM_SET_BOOT_MODE_STATE
             \/ rv = VBERROR_REBOOT_REQUIRED)
            /\ may_enable_dev (shared_flags (shared_data_blob cparams))
               = true)).
Proof.
  intros Hm. cbv zeta.
  destruct (recovery_flow_effect cparams loads polls f Hm)
    as [(F & R & U & C) HR].
  split; [exact F | split; [exact R | split; [exact HR | split]]];
    [exact U | exact C].
Qed.

Lemma manual_recovery_nv_writes_witness :
  manual_recovery cparams_manual_virt
  /\ (let r := VbBootRecoveryMenu cparams_manual_virt
                 [VBERROR_NO_DISK_FOUND]
                 [rec_key VB_KEY_UP; rec_key VB_KEY_UP; rec_key 13;
                  rec_key VB_KEY_UP; rec_key VB_KEY_UP;
                  rec_key_trusted 13] flow_initial in
      (forall k, k <> VB2_NV_DEV_BOOT_USB -> k <> VB2_NV_RECOVERY_REQUEST ->
                 fl_nv (snd r) k = fl_nv flow_initial k)
      /\ (fl_nv (snd r) VB2_NV_RECOVERY_REQUEST
          = fl_nv flow_initial VB2_NV_RECOVERY_REQUEST
          \/ fl_nv (snd r) VB2_NV_RECOVERY_REQUEST
             = VBNV_RECOVERY_NOT_REQUESTED)
      /\ (fst r <> None ->
          fl_nv (snd r) VB2_NV_RECOVERY_REQUEST
          = VBNV_RECOVERY_NOT_REQUESTED)
      /\ ((fl_nv (snd r) VB2_NV_DEV_BOOT_USB = 1
           /\ fst r = Some VBERROR_REBOOT_REQUIRED)
          \/ fl_nv (snd r) VB2_NV_DEV_BOOT_USB
             = fl_nv flow_initial VB2_NV_DEV_BOOT_USB)
      /\ (forall rv, fst r = Some rv ->
            rv = VBERROR_SUCCESS \/ rv = VBERROR_SHUTDOWN_REQUESTED
            \/ ((rv = VBERROR_TPM_SET_BOOT_MODE_STATE
                 \/ rv = VBERROR_REBOOT_REQUIRED)
                /\ may_enable_dev
                     (shared_flags (shared_data_blob cparams_manual_virt))
                   = true))).
Proof.
  assert (H : manual_recovery cparams_manual_virt)
    by (right; unfold flag_set; cbv; congruence).
  split; [exact H |].
  exact (manual_recovery_nv_writes cparams_manual_virt
           [VBERROR_NO_DISK_FOUND]
           [rec_key VB_KEY_UP; rec_key VB_KEY_UP; rec_key 13;
            rec_key VB_KEY_UP; rec_key VB_KEY_UP; rec_key_trusted 13]
           flow_initial H).
Defined.

(** X24: the recovery menu enables developer mode only when the shared
    flags allow it.  Unless the virtual developer switch is honored, the
    developer switch is off and the recovery switch is on,
    [VbBootRecoveryMenu] never calls [SetVirtualDevMode], in either mode
    and whatever item is committed, and it leaves NV [DEV_BOOT_USB] as it
    was. *)
Theorem recovery_dev_mode_gated
        (cparams : VbCommonParams) (loads : list VbError_t)
        (polls : list rec_poll) (f : flow_state) :
  may_enable_dev (shared_flags (shared_data_blob cparams)) = false ->
  flow_made_only not_set_dev_mode f
    (snd (VbBootRecoveryMenu cparams loads polls f))
  /\ fl_nv (snd (VbBootRecoveryMenu cparams loads polls f))
           VB2_NV_DEV_BOOT_USB
     = fl_nv f VB2_NV_DEV_BOOT_USB.
Proof.
  intros Hmay. split.
  - pose proof (recovery_menu_loop_no_dev _ (gbb_flags cparams) loads Hmay
                  polls) as Hloop.
    assert (Hbr : steps (flow_made_only not_set_dev_mode)
                    (broken_screen_loop (gbb_flags cparams) polls)).
    { intros f0.
      destruct (broken_screen_loop_effect (gbb_flags cparams) polls f0)
        as (_ & _ & _ & Hc).
      apply (flow_made_weaken is_broken_wait); [| exact Hc].
      intros c Hw. destruct c as [[]| | | |]; try discriminate Hw;
        reflexivity. }
    assert (Hall : steps (flow_made_only not_set_dev_mode)
                     (VbBootRecoveryMenu cparams loads polls)).
    { unfold VbBootRecoveryMenu, vb2_recovery_menu,
        vb2_recovery_menu_manual.
      calls_go. }
    apply Hall.
  - destruct (broken_or_manual cparams) as [Hb | Hm].
    + rewrite (broken_flow_nv cparams loads polls f Hb). reflexivity.
    + destruct (recovery_flow_effect cparams loads polls f Hm)
        as [(_ & _ & U & C) _].
      destruct U as [[_ U] | U]; [| exact U].
      destruct (C _ U) as [X | [X | [_ X]]];
        [discriminate X | discriminate X | congruence].
Qed.

Lemma recovery_dev_mode_gated_witness :
  may_enable_dev (shared_flags (shared_data_blob cparams_manual)) = false
  /\ flow_made_only not_set_dev_mode flow_initial
       (snd (VbBootRecoveryMenu cparams_manual [VBERROR_NO_DISK_FOUND]
               [rec_key VB_KEY_UP; rec_key VB_KEY_UP; rec_key 13;
                rec_key VB_KEY_UP; rec_key VB_KEY_UP; rec_key_trusted 13]
               flow_initial))
  /\ fl_nv (snd (VbBootRecoveryMenu cparams_manual [VBERROR_NO_DISK_FOUND]
                   [rec_key VB_KEY_UP; rec_key VB_KEY_UP; rec_key 13;
                    rec_key VB_KEY_UP; rec_key VB_KEY_UP; rec_key_trusted 13]
                   flow_initial))
           VB2_NV_DEV_BOOT_USB
     = fl_nv flow_initial VB2_NV_DEV_BOOT_USB.
Proof.
  assert (H : may_enable_dev (shared_flags (shared_data_blob cparams_manual))
              = false) by reflexivity.
  split; [exact H |].
  exact (recovery_dev_mode_gated cparams_manual [VBERROR_NO_DISK_FOUND]
           [rec_key VB_KEY_UP; rec_key VB_KEY_UP; rec_key 13;
            rec_key VB_KEY_UP; rec_key VB_KEY_UP; rec_key_trusted 13]
           flow_initial H).
Defined.

Lemma developer_menu_loop_ctrl_d (gbb_flags allow_usb allow_legacy : Z)
      (idle : list dev_poll) (p : dev_poll) (rest : list dev_poll) :
  Forall (idle_poll gbb_flags) idle -> ctrl_d_poll gbb_flags p ->
  forall u,
    developer_menu_loop gbb_flags allow_usb allow_legacy (idle ++ p :: rest) u
    = (Some (DevFallout 1), u).
Proof.
  intros Hidle [Hs Hk]. induction Hidle as [|q idle [Hqs [Hqk Hqa]] _ IH];
    intros u; cbn [app developer_menu_loop]; unfold bind at 1.
  - unfold developer_menu_pass. rewrite Hs, Hk. reflexivity.
  - unfold developer_menu_pass. rewrite Hqs, Hqk. cbn [nonzero Z.eqb negb].
    cbn [ret]. apply Z.eqb_neq in Hqa. unfold nonzero. rewrite Hqa.
    cbn [negb]. apply IH.
Qed.

Lemma policy_enabled (nv0 : nv_store) (gbb_flags fwmp_flags : Z) :
  dev_boot_enabled gbb_flags fwmp_flags ->
  disable_dev_boot (developer_policy nv0 gbb_flags fwmp_flags) = 0.
Proof.
  intros [H | H]; unfold developer_policy; cbn [disable_dev_boot].
  - rewrite H. reflexivity.
  - apply nonzero_true in H. rewrite H.
    destruct (nonzero (Z.land fwmp_flags FWMP_DEV_DISABLE_BOOT)); reflexivity.
Qed.

(** X26: Ctrl+D boots from the fixed disk, whatever the default boot
    target and the permissions are.  When developer boot is not disabled
    and Ctrl+D is the first key read, before any shutdown request,
    [VbBootDeveloperMenu] shows the warning screen and the menu, opens
    and closes the audio, loads the kernel from the fixed disk and blanks
    the screen, in this order and with no other call; it returns what
    the load returned.  The flow itself writes nothing to NV: NV at the
    end is what the load from the fixed disk made of the NV the flow
    started with, so a recovery request that a failed load writes is
    still there when the flow returns.  No legacy or USB boot is tried,
    also when one of them is the default. *)
Theorem ctrl_d_boots_fixed_disk
        (cparams : VbCommonParams) (fwmp_flags : Z)
        (sessions : list (list confirm_poll))
        (idle : list dev_poll) (p : dev_poll) (rest : list dev_poll)
        (last : dev_poll) (fixed : VbError_t)
        (load_nv : nv_store -> nv_store) (f : flow_state) :
  dev_boot_enabled (gbb_flags cparams) fwmp_flags ->
  Forall (idle_poll (gbb_flags cparams)) idle ->
  ctrl_d_poll (gbb_flags cparams) p ->
  let r := VbBootDeveloperMenu cparams fwmp_flags sessions
             (idle ++ p :: rest) last fixed load_nv f in
  fst r = Some (FlowReturned fixed)
  /\ fl_nv (snd r) = load_nv (fl_nv f)
  /\ fl_calls (snd r)
     = fl_calls f
       ++ [FlowUi (UiDisplayScreen VB_SCREEN_BASE);
           FlowUi (UiPrintMenu (current_menu (fl_menu f))
                               (current_menu_idx (fl_menu f)));
           FlowAudioOpen; FlowUi UiAudioClose; FlowTryLoadKernelFixed;
           FlowUi (UiDisplayScreen VB_SCREEN_BLANK)].
Proof.
  intros Hen Hidle Hp. cbv zeta.
  pose proof (policy_enabled (fl_nv f) _ _ Hen) as Hpol.
  destruct f as [m nv0 out]. cbn [fl_nv fl_menu fl_calls] in *.
  unfold VbBootDeveloperMenu, vb2_developer_menu, developer_fallout,
    VbTryLoadKernelFixed,
    set_default_boot, vb2_print_current_menu, run_ui, get_ui_nv, with_menu,
    flow_emit, get_menu, ui_emit, bind, ret.
  cbn [fst snd menu ui_nv ui_calls fl_menu fl_nv fl_calls].
  rewrite Hpol. cbn [nonzero Z.eqb negb].
  rewrite (developer_menu_loop_ctrl_d _ _ _ idle p rest Hidle Hp).
  change (nonzero 1) with true. cbn [negb]. rewrite !andb_false_r.
  cbn [fst snd menu ui_nv ui_calls fl_menu fl_nv fl_calls negb andb map app
       current_menu current_menu_idx].
  repeat split. rewrite <- !app_assoc. reflexivity.
Qed.

Lemma ctrl_d_boots_fixed_disk_witness :
  (dev_boot_enabled (gbb_flags cparams_manual) 0
   /\ Forall (idle_poll (gbb_flags cparams_manual)) [dev_key 0; dev_key 0]
   /\ ctrl_d_poll (gbb_flags cparams_manual) (dev_key 0x04))
  /\ (let f := mk_flow initial_menu_state nv_usb_default [] in
      let r := VbBootDeveloperMenu cparams_manual 0 []
                 ([dev_key 0; dev_key 0] ++ dev_key 0x04 :: [dev_key 0x15])
                 (dev_key 0) VBERROR_NO_DISK_FOUND load_leaves_request f in
      fst r = Some (FlowReturned VBERROR_NO_DISK_FOUND)
      /\ fl_nv (snd r) = load_leaves_request (fl_nv f)
      /\ fl_calls (snd r)
         = fl_calls f
           ++ [FlowUi (UiDisplayScreen VB_SCREEN_BASE);
               FlowUi (UiPrintMenu (current_menu (fl_menu f))
                                   (current_menu_idx (fl_menu f)));
               FlowAudioOpen; FlowUi UiAudioClose; FlowTryLoadKernelFixed;
               FlowUi (UiDisplayScreen VB_SCREEN_BLANK)]).
Proof.
  assert (H1 : dev_boot_enabled (gbb_flags cparams_manual) 0)
    by (left; reflexivity).
  assert (Hi : idle_poll (gbb_flags cparams_manual) (dev_key 0))
    by (split; [reflexivity | split; [reflexivity | discriminate]]).
  assert (H2 : Forall (idle_poll (gbb_flags cparams_manual))
                      [dev_key 0; dev_key 0])
    by (apply Forall_cons; [exact Hi |];
        apply Forall_cons; [exact Hi | apply Forall_nil]).
  assert (H3 : ctrl_d_poll (gbb_flags cparams_manual) (dev_key 0x04))
    by (split; reflexivity).
  split; [split; [exact H1 | split; [exact H2 | exact H3]] |].
  exact (ctrl_d_boots_fixed_disk cparams_manual 0 [] [dev_key 0; dev_key 0]
           (dev_key 0x04) [dev_key 0x15] (dev_key 0) VBERROR_NO_DISK_FOUND
           load_leaves_request
           (mk_flow initial_menu_state nv_usb_default []) H1 H2 H3).
Defined.

(** ** The text of the menus *)

Lemma uint32_succ (y : Z) :
  MenuText.uint32 (MenuText.uint32 y + 1) = MenuText.uint32 (y + 1).
Proof. unfold MenuText.uint32. apply Z.add_mod_idemp_l. discriminate. Qed.

Lemma print_items_spec (m : list String.string) (idx x : Z) (count : nat) :
  forall (n : nat) (y : Z),
    (n + count <= length m)%nat ->
    exists texts,
      MenuText.print_items m count (Z.of_nat n) idx x (MenuText.uint32 y)
      = Some texts
      /\ length texts = count
      /\ forall k, (k < count)%nat ->
           exists s,
             nth_error m (n + k) = Some s
             /\ nth_error texts k
                = Some (MenuText.mk_text
                          x (MenuText.uint32 (y + Z.of_nat k)) s
                          (if idx =? Z.of_nat (n + k) then 1 else 0)).
Proof.
  induction count as [|count IH]; intros n y Hlen.
  - exists []. split; [reflexivity | split; [reflexivity |]].
    intros k Hk. lia.
  - cbn [MenuText.print_items]. rewrite Nat2Z.id.
    destruct (nth_error m n) as [s|] eqn:E;
      [| apply nth_error_None in E; lia].
    destruct (IH (S n) (y + 1)) as (texts & Hp & Hl & Hk); [lia |].
    rewrite Nat2Z.inj_succ, <- Z.add_1_r in Hp.
    rewrite uint32_succ, Hp. cbn [option_map].
    eexists. split; [reflexivity | split; [cbn [length]; lia |]].
    intros [|k] Hlt.
    + exists s. rewrite Nat.add_0_r, Z.add_0_r. split; [exact E |].
      cbn [nth_error]. destruct (idx =? Z.of_nat n); reflexivity.
    + destruct (Hk k) as (s' & Hs & Ht); [lia |].
      exists s'. rewrite <- Nat.add_succ_comm. split; [exact Hs |].
      cbn [nth_error]. rewrite Ht.
      replace (y + Z.of_nat (S k)) with (y + 1 + Z.of_nat k) by lia.
      reflexivity.
Qed.

Lemma menu_array_size (menu : VB_MENU) :
  Z.of_nat (length (MenuText.menu_array menu))
  = snd (vb2_get_current_menu_size menu).
Proof. destruct menu; reflexivity. Qed.

(** X27: [vb2_print_current_menu] draws every item of the current menu
    once, in the order of the menu, one row below the other in one
    column, and highlights the item under the cursor and no other.  For
    each of the six menus the string array has as many strings as
    [vb2_get_current_menu_size] reports, so that no read of [m[i]] is past
    its end, also when the index is no item of the menu. *)
Theorem print_menu_draws_every_item (dims : Z * Z) (s : menu_state) :
  exists texts,
    MenuText.print_current_menu_texts dims s = Some texts
    /\ Z.of_nat (length texts)
       = snd (vb2_get_current_menu_size (current_menu s))
    /\ forall k, (k < length texts)%nat ->
         exists str,
           nth_error (MenuText.menu_array (current_menu s)) k = Some str
           /\ nth_error texts k
              = Some (MenuText.mk_text
                        (text_column dims (current_menu s))
                        (text_row dims (current_menu s) k) str
                        (if current_menu_idx s =? Z.of_nat k then 1 else 0)).
Proof.
  unfold MenuText.print_current_menu_texts, text_column, text_row.
  pose proof (menu_array_size (current_menu s)) as Hsize.
  destruct (MenuText.menu_array (current_menu s)) as [|first rest] eqn:Hm;
    [destruct (current_menu s); discriminate Hm |].
  cbn [nth_error hd]. rewrite <- Hsize, Nat2Z.id.
  destruct (print_items_spec (first :: rest) (current_menu_idx s)
              (MenuText.uint32
                 (fst dims / 2 - Z.of_nat (String.length first) / 2))
              (length (first :: rest)) 0
              (snd dims / 2 - Z.of_nat (length (first :: rest)) / 2))
    as (texts & Hp & Hl & Hk); [cbn; lia |].
  exists texts. change (Z.of_nat 0) with 0 in Hp.
  split; [exact Hp | split; [rewrite Hl; reflexivity |]].
  intros k Hlt. rewrite Hl in Hlt. destruct (Hk k Hlt) as (str & Hs & Ht).
  exists str. split; [exact Hs | exact Ht].
Qed.

(** X28: while the cursor is on an item of the current menu,
    [vb2_print_current_menu] highlights exactly one of the lines it
    draws. *)
Theorem print_menu_highlights_one (dims : Z * Z) (s : menu_state) :
  index_in_range s ->
  exists texts,
    MenuText.print_current_menu_texts dims s = Some texts
    /\ length (filter highlighted texts) = 1%nat.
Proof.
  destruct s as [cm pm idx sel db]. unfold index_in_range.
  cbn [current_menu current_menu_idx]. intros Hin.
  destruct cm; cbn [snd vb2_get_current_menu_size] in Hin;
    unfold VB_WARN_COUNT, VB_DEV_COUNT, VB_TO_NORM_COUNT, VB_RECOVERY_COUNT,
      VB_TO_DEV_COUNT, VB_LANGUAGES_COUNT in Hin;
    match type of Hin with
    | 0 <= idx < ?n =>
        let l := eval vm_compute in (map Z.of_nat (seq 0 (Z.to_nat n))) in
        assert (Hcases : In idx l) by (cbn [In]; lia)
    end;
    cbn [In] in Hcases;
    repeat (destruct Hcases as [<- | Hcases];
            [eexists; split; reflexivity |]);
    destruct Hcases.
Qed.

Lemma print_menu_highlights_one_witness :
  index_in_range menu_on_dev_usb
  /\ exists texts,
       MenuText.print_current_menu_texts (80, 25) menu_on_dev_usb
       = Some texts
       /\ length (filter highlighted texts) = 1%nat.
Proof.
  assert (H : index_in_range menu_on_dev_usb) by (cbv; split; congruence).
  split; [exact H |].
  exact (print_menu_highlights_one (80, 25) menu_on_dev_usb H).
Defined.

(** X29: how the policy of the developer flow combines its sources.  The
    GBB and the FWMP only add permissions: a boot target that NV allows
    stays allowed whatever their flags are.  The flow has one default
    target at most: [use_usb] and [use_legacy] are 0 or 1 and never both
    1, and the GBB flag DEFAULT_DEV_BOOT_LEGACY makes legacy the default
    whatever NV says.  The FWMP disables developer boot exactly when its
    flag DEV_DISABLE_BOOT is set and the GBB does not force the developer
    switch on. *)
Theorem developer_policy_sources (nv0 : nv_store) (gbb_flags fwmp_flags : Z) :
  let pol := developer_policy nv0 gbb_flags fwmp_flags in
  (vb2_nv_get nv0 VB2_NV_DEV_BOOT_USB <> 0 -> allow_usb pol <> 0)
  /\ (vb2_nv_get nv0 VB2_NV_DEV_BOOT_LEGACY <> 0 -> allow_legacy pol <> 0)
  /\ ((use_usb pol = 0 /\ (use_legacy pol = 0 \/ use_legacy pol = 1))
      \/ (use_usb pol = 1 /\ use_legacy pol = 0))
  /\ (flag_set gbb_flags GBB_FLAG_DEFAULT_DEV_BOOT_LEGACY ->
      use_legacy pol = 1 /\ use_usb pol = 0)
  /\ (disable_dev_boot pol = 1
      /\ flag_set fwmp_flags FWMP_DEV_DISABLE_BOOT
      /\ Z.land gbb_flags GBB_FLAG_FORCE_DEV_SWITCH_ON = 0
      \/ disable_dev_boot pol = 0
         /\ dev_boot_enabled gbb_flags fwmp_flags).
Proof.
  cbv zeta. unfold developer_policy, dev_boot_enabled, flag_set.
  cbn [allow_usb allow_legacy use_usb use_legacy disable_dev_boot].
  split; [| split; [| split; [| split]]].
  - intros H.
    destruct (nonzero (Z.land fwmp_flags FWMP_DEV_ENABLE_USB));
      [discriminate |].
    destruct (nonzero (Z.land gbb_flags GBB_FLAG_FORCE_DEV_BOOT_USB));
      [discriminate | exact H].
  - intros H.
    destruct (nonzero (Z.land fwmp_flags FWMP_DEV_ENABLE_LEGACY));
      [discriminate |].
    destruct (nonzero (Z.land gbb_flags GBB_FLAG_FORCE_DEV_BOOT_LEGACY));
      [discriminate | exact H].
  - destruct (nonzero (Z.land gbb_flags GBB_FLAG_DEFAULT_DEV_BOOT_LEGACY));
      [left; split; [reflexivity | right; reflexivity] |].
    destruct (Z.eqb_spec (vb2_nv_get nv0 VB2_NV_DEV_DEFAULT_BOOT)
                         VBNV_DEV_DEFAULT_BOOT_USB) as [E | _].
    + right. split; [reflexivity |]. rewrite E. reflexivity.
    + left. split; [reflexivity |].
      destruct (vb2_nv_get nv0 VB2_NV_DEV_DEFAULT_BOOT
                =? VBNV_DEV_DEFAULT_BOOT_LEGACY);
        [right | left]; reflexivity.
  - intros H. apply nonzero_true in H. rewrite H. split; reflexivity.
  - unfold nonzero.
    destruct (Z.eqb_spec (Z.land fwmp_flags FWMP_DEV_DISABLE_BOOT) 0)
      as [E1 | E1]; cbn [negb].
    + right. split; [reflexivity | left; exact E1].
    + destruct (Z.eqb_spec (Z.land gbb_flags GBB_FLAG_FORCE_DEV_SWITCH_ON) 0)
        as [E2 | E2]; cbn [negb].
      * left. split; [reflexivity | split; assumption].
      * right. split; [reflexivity | right; exact E2].
Qed.
